(** * Tool-calling orchestration loop of the chat sandbox

    A shallow embedding of [src/app/chat/llm.service.ts] (the Completion
    Driver [getChatCompletion] and the Streaming Driver
    [streamChatCompletion]), of [streamUserMessageById] from the chat service
    and of the [streamMessage] subscription of [src/app/chat/chat.router.ts],
    followed by the properties of the specification that concern them; then
    the other operations of the chat service ([createSession],
    [listSessions], [getMessages], [deleteMessage], [deleteSession],
    [addUserMessage]) and the handlers of the chat page that receive the
    stream, with properties of theirs and more properties of the drivers.

    Conventions.  A JavaScript [string] is a Rocq [string] (its UTF-8 bytes);
    [undefined]/[null] in an optional field is [None]; a thrown value is a
    [Thrown]; an [async] function or generator is the function of its inputs
    and of the state of the outside world that returns its outcome, the
    chunks it yielded and the new state of the world. *)

From Stdlib Require Import String Ascii ZArith List Bool Lia DecimalString.
From stdpp Require Import base option list strings.

Set Warnings "-register-all".
Local Open Scope string_scope.
Local Open Scope list_scope.

(** ** JavaScript values, exceptions and outcomes *)

Module JS.

(** The JSON-shaped values that travel through the drivers: parsed tool
    arguments, the [_meta] and [structuredContent] bags.  Numbers are the
    integers. *)
Inductive Value : Type :=
| Null
| Bool (b : bool)
| Num (n : Z)
| Str (s : string)
| Arr (items : list Value)
| Obj (props : list (string * Value)).

(** [Record<string, unknown>]: the own properties in insertion order. *)
Definition Object_ : Type := list (string * Value).

(** Property read [o.key]; [None] is [undefined]. *)
Fixpoint get (o : Object_) (key : string) : option Value :=
  match o with
  | [] => None
  | (k, v) :: o' => if String.eqb k key then Some v else get o' key
  end.

(** Property write [o[key] = v]: an existing key keeps its position. *)
Fixpoint set (o : Object_) (key : string) (v : Value) : Object_ :=
  match o with
  | [] => [(key, v)]
  | (k, v0) :: o' =>
      if String.eqb k key then (k, v) :: o' else (k, v0) :: set o' key v
  end.

(** Object spread [{...a, ...b}]. *)
Definition spread (a b : Object_) : Object_ :=
  fold_left (fun acc kv => set acc (fst kv) (snd kv)) b a.

(** What a [throw] carries: an instance of [Error] with its [message], or
    any other value. *)
Inductive Thrown : Type :=
| Error (message : string)
| NonError (v : Value).

(** [error instanceof Error ? error.message : "Unknown error"] *)
Definition message_of (e : Thrown) : string :=
  match e with
  | Error m => m
  | NonError _ => "Unknown error"
  end.

(** Completion of a call: it returns or it throws. *)
Inductive Outcome (A : Type) : Type :=
| Return (a : A)
| Throw (e : Thrown).
Arguments Return {A} a.
Arguments Throw {A} e.

(** [s.includes(needle)] *)
Fixpoint includes (s needle : string) : bool :=
  String.prefix needle s ||
  match s with
  | EmptyString => false
  | String _ s' => includes s' needle
  end.

(** [parts.join(sep)] on strings *)
Definition join (sep : string) (parts : list string) : string :=
  String.concat sep parts.

Definition is_space (c : ascii) : bool :=
  let n := N_of_ascii c in
  ((9 <=? n) && (n <=? 13) || (n =? 32))%N.

Fixpoint trimStart (s : string) : string :=
  match s with
  | String c s' => if is_space c then trimStart s' else s
  | EmptyString => EmptyString
  end.

(** [s.trimEnd()]: a suffix of white space is dropped. *)
Fixpoint trimEnd (s : string) : string :=
  match s with
  | EmptyString => EmptyString
  | String c s' =>
      match trimEnd s' with
      | EmptyString => if is_space c then EmptyString else String c EmptyString
      | t => String c t
      end
  end.

(** [s.trim()], on the ASCII white space. *)
Definition trim (s : string) : string := trimEnd (trimStart s).

End JS.

Import JS.

(** ** The platform's [JSON] object

    [JSON.stringify] follows ECMAScript's [QuoteJSONString] and
    [SerializeJSONProperty] on [JS.Value].  [JSON.parse] is the reference
    reader used to deserialize what the drivers write and to instantiate the
    drivers' parser in examples: it reads RFC 8259 texts whose numbers are
    integers and whose [\u] escapes name code points below the surrogates. *)

Module JSON.

Definition dquote : ascii := "034".
Definition backslash : ascii := "092".

Definition hexdigit (n : N) : ascii :=
  (match n with
   | 0 => "0" | 1 => "1" | 2 => "2" | 3 => "3" | 4 => "4" | 5 => "5"
   | 6 => "6" | 7 => "7" | 8 => "8" | 9 => "9" | 10 => "a" | 11 => "b"
   | 12 => "c" | 13 => "d" | 14 => "e" | _ => "f"
   end%N)%char.

Definition quote_char (c : ascii) : string :=
  let n := N_of_ascii c in
  if Ascii.eqb c dquote then String backslash (String dquote "")
  else if Ascii.eqb c backslash then String backslash (String backslash "")
  else match n with
       | 8 => String backslash "b"
       | 9 => String backslash "t"
       | 10 => String backslash "n"
       | 12 => String backslash "f"
       | 13 => String backslash "r"
       | _ =>
           if (n <? 32)%N
           then String backslash
                  (String "u" (String "0" (String "0"
                     (String (hexdigit (n / 16)) (String (hexdigit (n mod 16)) "")))))
           else String c ""
       end%N.

Fixpoint quote_chars (s : string) : string :=
  match s with
  | EmptyString => ""
  | String c s' => quote_char c +:+ quote_chars s'
  end.

Definition quote (s : string) : string :=
  String dquote (quote_chars s +:+ String dquote "").

Definition number_to_string (n : Z) : string :=
  NilZero.string_of_int (Z.to_int n).

Fixpoint stringify (v : Value) : string :=
  match v with
  | Null => "null"
  | Bool true => "true"
  | Bool false => "false"
  | Num n => number_to_string n
  | Str s => quote s
  | Arr items =>
      "[" +:+
      (fix elements (l : list Value) : string :=
         match l with
         | [] => ""
         | x :: l' =>
             stringify x +:+
             match l' with [] => "" | _ :: _ => "," +:+ elements l' end
         end) items +:+ "]"
  | Obj props =>
      "{" +:+
      (fix members (l : list (string * Value)) : string :=
         match l with
         | [] => ""
         | (k, x) :: l' =>
             quote k +:+ ":" +:+ stringify x +:+
             match l' with [] => "" | _ :: _ => "," +:+ members l' end
         end) props +:+ "}"
  end.

(** *** Reader *)

Definition is_ws (c : ascii) : bool :=
  let n := N_of_ascii c in
  ((n =? 32) || (n =? 9) || (n =? 10) || (n =? 13))%N.

Fixpoint skip_ws (s : string) : string :=
  match s with
  | String c s' => if is_ws c then skip_ws s' else s
  | EmptyString => EmptyString
  end.

Definition hexval (c : ascii) : option N :=
  let n := N_of_ascii c in
  if ((48 <=? n) && (n <=? 57))%N then Some (n - 48)%N
  else if ((97 <=? n) && (n <=? 102))%N then Some (n - 87)%N
  else if ((65 <=? n) && (n <=? 70))%N then Some (n - 55)%N
  else None.

Definition hex4 (a b c d : ascii) : option N :=
  match hexval a, hexval b, hexval c, hexval d with
  | Some x, Some y, Some z, Some w => Some (((x * 16 + y) * 16 + z) * 16 + w)%N
  | _, _, _, _ => None
  end.

(** UTF-8 bytes of a code point of the basic plane that is no surrogate. *)
Definition utf8 (n : N) : option string :=
  if (n <? 128)%N then Some (String (ascii_of_N n) "")
  else if (n <? 2048)%N then
    Some (String (ascii_of_N (192 + n / 64))
            (String (ascii_of_N (128 + n mod 64)) ""))
  else if ((55296 <=? n) && (n <=? 57343))%N then None
  else
    Some (String (ascii_of_N (224 + n / 4096))
            (String (ascii_of_N (128 + (n / 64) mod 64))
               (String (ascii_of_N (128 + n mod 64)) ""))).

Definition unescape (e : ascii) : option ascii :=
  if Ascii.eqb e dquote then Some dquote
  else if Ascii.eqb e backslash then Some backslash
  else if Ascii.eqb e "/" then Some "/"%char
  else if Ascii.eqb e "b" then Some "008"%char
  else if Ascii.eqb e "f" then Some "012"%char
  else if Ascii.eqb e "n" then Some "010"%char
  else if Ascii.eqb e "r" then Some "013"%char
  else if Ascii.eqb e "t" then Some "009"%char
  else None.

Definition prepend (p : string) (r : option (string * string))
  : option (string * string) :=
  match r with
  | Some (s, rest) => Some (p +:+ s, rest)
  | None => None
  end.

(** The characters of a string literal after its opening quote, and the
    text after its closing quote. *)
Fixpoint read_chars (s : string) : option (string * string) :=
  match s with
  | EmptyString => None
  | String c s' =>
      if Ascii.eqb c dquote then Some ("", s')
      else if Ascii.eqb c backslash then
        match s' with
        | String e s'' =>
            match unescape e with
            | Some c' => prepend (String c' "") (read_chars s'')
            | None =>
                if Ascii.eqb e "u" then
                  match s'' with
                  | String h1 (String h2 (String h3 (String h4 r))) =>
                      match hex4 h1 h2 h3 h4 with
                      | Some n =>
                          match utf8 n with
                          | Some bytes => prepend bytes (read_chars r)
                          | None => None
                          end
                      | None => None
                      end
                  | _ => None
                  end
                else None
            end
        | EmptyString => None
        end
      else if (N_of_ascii c <? 32)%N then None
      else prepend (String c "") (read_chars s')
  end.

Definition is_digit (c : ascii) : bool :=
  let n := N_of_ascii c in ((48 <=? n) && (n <=? 57))%N.

Fixpoint read_digits (acc : Z) (s : string) : Z * string :=
  match s with
  | String c s' =>
      if is_digit c
      then read_digits (acc * 10 + Z.of_N (N_of_ascii c - 48)) s'
      else (acc, s)
  | EmptyString => (acc, s)
  end.

(** An optional minus sign, then 0 or digits with no leading 0; not followed
    by a fraction or an exponent. *)
Definition read_number (s : string) : option (Z * string) :=
  let '(neg, s1) :=
    match s with
    | String "-" s' => (true, s')
    | _ => (false, s)
    end in
  match s1 with
  | String c s2 =>
      if is_digit c then
        let '(n, rest) :=
          if Ascii.eqb c "0" then (0%Z, s2) else read_digits 0 s1 in
        match rest with
        | String d _ =>
            if is_digit d || Ascii.eqb d "." || Ascii.eqb d "e" || Ascii.eqb d "E"
            then None
            else Some (if neg then (- n)%Z else n, rest)
        | EmptyString => Some (if neg then (- n)%Z else n, rest)
        end
      else None
  | EmptyString => None
  end.

Definition expect (lit : string) (v : Value) (s : string)
  : option (Value * string) :=
  if String.prefix lit s
  then Some (v, String.substring (String.length lit)
                  (String.length s - String.length lit) s)
  else None.

Fixpoint read_value (fuel : nat) (s : string) : option (Value * string) :=
  match fuel with
  | O => None
  | S fuel' =>
      match skip_ws s with
      | EmptyString => None
      | String c r =>
          if Ascii.eqb c dquote then
            match read_chars r with
            | Some (str, rest) => Some (Str str, rest)
            | None => None
            end
          else if Ascii.eqb c "[" then
            match skip_ws r with
            | String "]" rest => Some (Arr [], rest)
            | _ =>
                match read_elements fuel' r with
                | Some (items, rest) => Some (Arr items, rest)
                | None => None
                end
            end
          else if Ascii.eqb c "{" then
            match skip_ws r with
            | String "}" rest => Some (Obj [], rest)
            | _ =>
                match read_members fuel' [] r with
                | Some (props, rest) => Some (Obj props, rest)
                | None => None
                end
            end
          else if Ascii.eqb c "t" then expect "true" (Bool true) (String c r)
          else if Ascii.eqb c "f" then expect "false" (Bool false) (String c r)
          else if Ascii.eqb c "n" then expect "null" Null (String c r)
          else
            match read_number (String c r) with
            | Some (n, rest) => Some (Num n, rest)
            | None => None
            end
      end
  end
with read_elements (fuel : nat) (s : string) : option (list Value * string) :=
  match fuel with
  | O => None
  | S fuel' =>
      match read_value fuel' s with
      | Some (v, rest) =>
          match skip_ws rest with
          | String "," rest' =>
              match read_elements fuel' rest' with
              | Some (vs, rest'') => Some (v :: vs, rest'')
              | None => None
              end
          | String "]" rest' => Some ([v], rest')
          | _ => None
          end
      | None => None
      end
  end
with read_members (fuel : nat) (acc : Object_) (s : string)
  : option (Object_ * string) :=
  match fuel with
  | O => None
  | S fuel' =>
      match skip_ws s with
      | String c r =>
          if Ascii.eqb c dquote then
            match read_chars r with
            | Some (key, rest) =>
                match skip_ws rest with
                | String ":" rest' =>
                    match read_value fuel' rest' with
                    | Some (v, rest'') =>
                        match skip_ws rest'' with
                        | String "," rest3 =>
                            read_members fuel' (JS.set acc key v) rest3
                        | String "}" rest3 => Some (JS.set acc key v, rest3)
                        | _ => None
                        end
                    | None => None
                    end
                | _ => None
                end
            | None => None
            end
          else None
      | EmptyString => None
      end
  end.

Definition SyntaxError (s : string) : Thrown :=
  match skip_ws s with
  | EmptyString => Error "Unexpected end of JSON input"
  | String _ _ => Error "Unexpected token in JSON"
  end.

Definition parse (s : string) : Outcome Value :=
  match read_value (2 * String.length s + 2) s with
  | Some (v, rest) =>
      match skip_ws rest with
      | EmptyString => Return v
      | String _ _ => Throw (SyntaxError s)
      end
  | None => Throw (SyntaxError s)
  end.

End JSON.

(** ** Data model ([src/app/chat/llm.service.ts], [src/app/mcp/tools.registry.ts]) *)

(** [role]: "system", "user", "assistant" or "tool". *)
Inductive Role : Type := role_system | role_user | role_assistant | role_tool.

(** [{ name, arguments }] of a function tool call. *)
Record FunctionCall : Type := {
  fn_name : string;
  fn_arguments : string }.

(** Element of [ChatMessage.tool_calls]: [{ id, type: "function", function }]. *)
Record MessageToolCall : Type := {
  mtc_id : string;
  mtc_function : FunctionCall }.

(** [interface ChatMessage] *)
Record ChatMessage : Type := {
  msg_role : Role;
  msg_content : string;
  msg_tool_calls : option (list MessageToolCall);
  msg_tool_call_id : option string;
  msg_name : option string }.

(** [interface ChatCompletionResult] *)
Record ChatCompletionResult : Type := {
  res_content : string;
  res_meta : option Object_;
  res_structuredContent : option Object_;
  res_widgetId : option string }.

(** Element of [StreamChunk.toolCalls], and of the streaming driver's
    [toolCalls] array. *)
Record ToolCallRef : Type := {
  tc_id : string;
  tc_name : string;
  tc_arguments : string }.

(** [StreamChunk.metadata] *)
Record Metadata : Type := {
  md_meta : option Object_;
  md_structuredContent : option Object_;
  md_widgetId : option string }.

(** [interface StreamChunk], one constructor per value of [type]; the
    [done] chunk of [streamUserMessageById] carries [assistantMessageId]. *)
Inductive StreamChunk : Type :=
| content_chunk (content : string)
| tool_call_chunk (toolCalls : list ToolCallRef)
| tool_result_chunk (content : string)
| metadata_chunk (metadata : Metadata)
| done_chunk (assistantMessageId : option string).

(** Element of [ToolResult.content]: [{ type: "text", text }]. *)
Record TextContent : Type := { text : string }.

(** [interface ToolResult]; [_meta] comes through its index signature and is
    read as a [Record<string, unknown>]. *)
Record ToolResult : Type := {
  tr_content : list TextContent;
  tr_structuredContent : option Object_;
  tr_widgetId : option string;
  tr_meta : option Object_ }.

(** [{ token: "", extra: { userId } }] *)
Record AuthInfo : Type := {
  token : string;
  extra_userId : string }.

(** [interface ToolDefinition]: the fields the drivers read.  A handler is
    asynchronous and may touch the outside world. *)
Record ToolDefinition (World : Type) : Type := {
  tool_name : string;
  handler : Value -> AuthInfo -> World -> Outcome ToolResult * World }.
Arguments tool_name {World} _.
Arguments handler {World} _ _ _ _.

(** *** The provider's wire format (OpenAI SDK) *)

(** Element of [message.tool_calls] in a completion: a function call or a
    call of another [type]. *)
Inductive ResponseToolCall : Type :=
| function_tool_call (id : string) (function : FunctionCall)
| custom_tool_call (id : string).

(** [response.choices[i].message] *)
Record CompletionMessage : Type := {
  cm_content : option string;
  cm_tool_calls : option (list ResponseToolCall) }.

(** [response]: the messages of its [choices]. *)
Record ChatCompletion : Type := {
  choices : list CompletionMessage }.

(** [delta.tool_calls[i].function] *)
Record FunctionDelta : Type := {
  fd_name : option string;
  fd_arguments : option string }.

(** [delta.tool_calls[i]] *)
Record ToolCallDelta : Type := {
  tcd_index : option nat;
  tcd_id : option string;
  tcd_function : option FunctionDelta }.

(** [chunk.choices[i]]: its [delta] and [finish_reason]. *)
Record ChunkChoice : Type := {
  delta_content : option string;
  delta_tool_calls : option (list ToolCallDelta);
  finish_reason : option string }.

(** A streamed event; [None] when [chunk.choices] is missing. *)
Record ChatCompletionChunk : Type := {
  chunk_choices : option (list ChunkChoice) }.

(** The events a stream delivers, and the error that ends it early if the
    transport fails. *)
Record ChatStream : Type := {
  events : list ChatCompletionChunk;
  failure : option Thrown }.

Inductive Provider : Type := openai | grok.

(** [x || ""] on an optional string *)
Definition or_empty (x : option string) : string :=
  match x with Some s => s | None => "" end.

(** Truthiness of an optional string: present and not empty. *)
Definition truthy (x : option string) : option string :=
  match x with
  | Some "" => None
  | other => other
  end.

(** ** Persisted rows ([dev_message], [dev_session]) and the subscription *)

(** A row of [dev_message]. *)
Record MessageRow : Type := {
  row_id : string;
  row_content : string;
  row_structured_content : option Object_;
  row_widget_id : option string;
  row_role : Role;
  row_session_id : string;
  row_user_id : string;
  row_created_at : nat }.

(** A row of [dev_session]. *)
Record SessionRow : Type := {
  ses_id : string;
  ses_name : string;
  ses_user_id : string;
  ses_updated_at : nat }.

(** The two tables, the time [now()] of the next statement and the number
    of identifiers drawn so far. *)
Record Database : Type := {
  devMessage : list MessageRow;
  devSession : list SessionRow;
  clock : nat;
  drawn : nat }.

(** What the observable of [streamMessage] emits. *)
Inductive SubscriptionEvent : Type :=
| emit_next (chunk : StreamChunk)
| emit_error (error : Thrown).

(** *** The chat page ([ChatPage]) around the subscription *)

(** [{ sessionId, messageId }] *)
Record PendingMessage : Type := {
  pending_sessionId : string;
  pending_messageId : string }.

(** What the handlers of the subscription read and write: the two states
    of the component, [pendingMessageRef.current] (which an effect sets to
    [pendingMessage] after a render, not the handlers), the cached answers
    of [getMessages] by session, whose messages are rows as the service
    returns them, and the number of times the queries were asked again. *)
Record ChatPageState : Type := {
  isStreaming : bool;
  pendingMessage : option PendingMessage;
  pendingMessageRef : option PendingMessage;
  getData : string -> option (list MessageRow);
  refetches : nat }.

(** ** What a consumer reads off the chunks of a run *)

(** The texts of the [content] chunks, concatenated in emission order. *)
Fixpoint content_of (chunks : list StreamChunk) : string :=
  match chunks with
  | [] => ""
  | content_chunk c :: chunks' => c +:+ content_of chunks'
  | _ :: chunks' => content_of chunks'
  end.



Definition is_done (c : StreamChunk) : bool :=
  match c with done_chunk _ => true | _ => false end.

Definition is_metadata (c : StreamChunk) : bool :=
  match c with metadata_chunk _ => true | _ => false end.

Definition is_content (c : StreamChunk) : bool :=
  match c with content_chunk _ => true | _ => false end.

(** ** A small installation, for examples

    A registry of three tools, a database with one session, and providers
    scripted by the number of requests they have served, which is the state
    of the world here. *)

Module Example.

Definition q : string := String "034" "".

(** [{"a":1,"b":2}] *)
Definition add_arguments : string :=
  "{" +:+ q +:+ "a" +:+ q +:+ ":1," +:+ q +:+ "b" +:+ q +:+ ":2}".

Definition text_result (t : string) : ToolResult :=
  {| tr_content := [{| text := t |}]; tr_structuredContent := None;
     tr_widgetId := None; tr_meta := None |}.

(** [add]: the sum of the numbers [a] and [b]. *)
Definition add : ToolDefinition nat :=
  {| tool_name := "add";
     handler := fun args _ w =>
       match args with
       | Obj o =>
           match JS.get o "a", JS.get o "b" with
           | Some (Num a), Some (Num b) =>
               (Return (text_result (JSON.number_to_string (a + b))), w)
           | _, _ => (Throw (Error "a and b must be numbers"), w)
           end
       | _ => (Throw (Error "arguments must be an object"), w)
       end |}.

Definition note_result : ToolResult :=
  {| tr_content := [{| text := "noted" |}];
     tr_structuredContent := Some [("note", Num 1)];
     tr_widgetId := None;
     tr_meta := Some [("openai/widgetAccessible", Bool false)] |}.

(** [note]: a result with [structuredContent] and a [_meta] without path. *)
Definition note : ToolDefinition nat :=
  {| tool_name := "note"; handler := fun _ _ w => (Return note_result, w) |}.

Definition todos_result : ToolResult :=
  {| tr_content := [{| text := "Here is your todo list" |}];
     tr_structuredContent := Some [("todos", Arr [])];
     tr_widgetId := Some "todo_widget";
     tr_meta := Some [("path", Str "/todos")] |}.

(** [show_todos]: a widget result, with a path in its [_meta]. *)
Definition show_todos : ToolDefinition nat :=
  {| tool_name := "show_todos";
     handler := fun _ _ w => (Return todos_result, w) |}.

Definition registry : list (ToolDefinition nat) := [add; note; show_todos].

Definition asks (question : string) : list ChatMessage :=
  [{| msg_role := role_user; msg_content := question; msg_tool_calls := None;
      msg_tool_call_id := None; msg_name := None |}].

Definition says (t : string) : Outcome ChatCompletion :=
  Return {| choices := [{| cm_content := Some t; cm_tool_calls := None |}] |}.

Definition calls (tcs : list ResponseToolCall) : Outcome ChatCompletion :=
  Return {| choices := [{| cm_content := None; cm_tool_calls := Some tcs |}] |}.

Definition call (id name arguments : string) : ResponseToolCall :=
  function_tool_call id {| fn_name := name; fn_arguments := arguments |}.

Definition event (content : option string)
    (deltas : option (list ToolCallDelta)) (finish : option string)
  : ChatCompletionChunk :=
  {| chunk_choices :=
       Some [{| delta_content := content; delta_tool_calls := deltas;
                finish_reason := finish |}] |}.

Definition delta (index : nat) (id name arguments : option string)
  : ToolCallDelta :=
  {| tcd_index := Some index; tcd_id := id;
     tcd_function := Some {| fd_name := name; fd_arguments := arguments |} |}.

Definition streams (evs : list ChatCompletionChunk) : Outcome ChatStream :=
  Return {| events := evs; failure := None |}.

(** A provider scripted by the number of requests served: the first
    request gets [first], every later one [later]. *)
Definition scripted {A} (first later : Outcome A)
  : Provider -> list ChatMessage -> nat -> Outcome A * nat :=
  fun _ _ served =>
    (match served with O => first | S _ => later end, S served).

(** Answers ["4"] at once. *)
Definition answers_four := scripted (says "4") (says "4").
Definition streams_four :=
  scripted (streams [event (Some "4") None (Some "stop")])
    (streams [event (Some "4") None (Some "stop")]).

(** Calls [add], then reports the sum. *)
Definition adds_then_sums :=
  scripted (calls [call "call_1" "add" add_arguments]) (says "The sum is 3").

(** Asks for a tool nobody registered, on every request. *)
Definition always_calls :=
  scripted (calls [call "call_x" "loop" "{}"]) (calls [call "call_x" "loop" "{}"]).
Definition always_streams :=
  scripted
    (streams [event None (Some [delta 0 (Some "call_x") (Some "loop") (Some "{}")])
                (Some "tool_calls")])
    (streams [event None (Some [delta 0 (Some "call_x") (Some "loop") (Some "{}")])
                (Some "tool_calls")]).




(** A provider whose transport fails. *)
Definition unreachable {A}
  : Provider -> list ChatMessage -> nat -> Outcome A * nat :=
  fun _ _ served => (Throw (Error "Connection error."), S served).

(** Names the session when asked to, and answers ["4"] otherwise. *)
Definition names_sessions
  : Provider -> list ChatMessage -> nat -> Outcome ChatCompletion * nat :=
  fun _ msgs served =>
    (match msgs with
     | {| msg_role := role_system |} :: _ => says "  Simple sums  "
     | _ => says "4"
     end, S served).

Definition uuid (n : nat) : string :=
  "00000000-0000-4000-8000-00000000000" +:+ JSON.number_to_string (Z.of_nat n).

Definition row (id content : string) (role : Role) (at_ : nat) : MessageRow :=
  {| row_id := id; row_content := content; row_structured_content := None;
     row_widget_id := None; row_role := role; row_session_id := "s1";
     row_user_id := "u1"; row_created_at := at_ |}.

Definition restart : string :=
  "-- IGNORE CONVERSATION BEFORE THIS LINE -- Let us start over.".

(** A session of three messages. *)
Definition three_messages : Database :=
  {| devMessage :=
       [row "m1" "Hello" role_user 1;
        row "m2" "Hello! How can I help?" role_assistant 2;
        row "m3" "What is 2+2?" role_user 3];
     devSession :=
       [{| ses_id := "s1"; ses_name := "New conversation";
           ses_user_id := "u1"; ses_updated_at := 3 |}];
     clock := 4; drawn := 0 |}.

(** The same session after the user asked to start over. *)
Definition restarted : Database :=
  {| devMessage :=
       [row "m1" "Hello" role_user 1;
        row "m2" "Hello! How can I help?" role_assistant 2;
        row "m3" restart role_user 3;
        row "m4" "What is 2+2?" role_user 4];
     devSession :=
       [{| ses_id := "s1"; ses_name := "New conversation";
           ses_user_id := "u1"; ses_updated_at := 4 |}];
     clock := 5; drawn := 0 |}.

(** The session of three messages beside the session of another user. *)
Definition two_users : Database :=
  {| devMessage :=
       [row "m1" "Hello" role_user 1;
        {| row_id := "m9"; row_content := "Bonjour";
           row_structured_content := None; row_widget_id := None;
           row_role := role_user; row_session_id := "s2";
           row_user_id := "u2"; row_created_at := 2 |};
        row "m2" "Hello! How can I help?" role_assistant 2;
        row "m3" "What is 2+2?" role_user 3];
     devSession :=
       [{| ses_id := "s1"; ses_name := "New conversation";
           ses_user_id := "u1"; ses_updated_at := 3 |};
        {| ses_id := "s2"; ses_name := "Salut";
           ses_user_id := "u2"; ses_updated_at := 2 |}];
     clock := 4; drawn := 0 |}.

(** The page after the third message was sent, waiting for the answer. *)
Definition waiting : ChatPageState :=
  {| isStreaming := true;
     pendingMessage :=
       Some {| pending_sessionId := "s1"; pending_messageId := "m3" |};
     pendingMessageRef :=
       Some {| pending_sessionId := "s1"; pending_messageId := "m3" |};
     getData :=
       fun key =>
         if String.eqb key "s1" then Some (devMessage three_messages)
         else None;
     refetches := 0 |}.

End Example.

(** ** The drivers ([src/app/chat/llm.service.ts]) and the session wrapper *)

Section Chat.

(** State of everything outside the process that a handler or a provider
    may read and change. *)
Context {World : Type}.

(** The platform's [JSON.parse]. *)
Variable JSON_parse : string -> Outcome Value.

(** [toolRegistry] of [tools.registry.ts]. *)
Variable toolRegistry : list (ToolDefinition World).

(** [gen_random_uuid()], as a function of the number of earlier draws. *)
Variable gen_random_uuid : nat -> string.

(** [client.chat.completions.create] without and with [stream: true], for
    the client of each provider.  The request carries the messages; model,
    temperature and tool schemas are constants of the run. *)
Variable chat_completions_create :
  Provider -> list ChatMessage -> World -> Outcome ChatCompletion * World.
Variable chat_completions_stream :
  Provider -> list ChatMessage -> World -> Outcome ChatStream * World.

Definition maxIterations : nat := 10.

(** The local variables of a run, the chunks the generator has yielded so
    far (none in [getChatCompletion]) and the outside world. *)
Record LoopState : Type := {
  iteration : nat;
  currentMessages : list ChatMessage;
  finalMeta : option Object_;
  finalStructuredContent : option Object_;
  finalWidgetId : option string;
  yielded : list StreamChunk;
  world : World }.

(** [let iteration = 0; let currentMessages = [...messages]; ...] *)
Definition initial (messages : list ChatMessage) (w : World) : LoopState :=
  {| iteration := 0; currentMessages := messages; finalMeta := None;
     finalStructuredContent := None; finalWidgetId := None;
     yielded := []; world := w |}.

(** [iteration++] *)
Definition next_iteration (st : LoopState) : LoopState :=
  {| iteration := S (iteration st); currentMessages := currentMessages st;
     finalMeta := finalMeta st;
     finalStructuredContent := finalStructuredContent st;
     finalWidgetId := finalWidgetId st; yielded := yielded st;
     world := world st |}.

(** [currentMessages.push(m)] *)
Definition push (m : ChatMessage) (st : LoopState) : LoopState :=
  {| iteration := iteration st; currentMessages := currentMessages st ++ [m];
     finalMeta := finalMeta st;
     finalStructuredContent := finalStructuredContent st;
     finalWidgetId := finalWidgetId st; yielded := yielded st;
     world := world st |}.

(** [yield] of each chunk of [cs] in turn. *)
Definition yield_all (cs : list StreamChunk) (st : LoopState) : LoopState :=
  {| iteration := iteration st; currentMessages := currentMessages st;
     finalMeta := finalMeta st;
     finalStructuredContent := finalStructuredContent st;
     finalWidgetId := finalWidgetId st; yielded := yielded st ++ cs;
     world := world st |}.

(** [yield c] *)
Definition yield (c : StreamChunk) (st : LoopState) : LoopState :=
  yield_all [c] st.

(** The world after an awaited call. *)
Definition with_world (w : World) (st : LoopState) : LoopState :=
  {| iteration := iteration st; currentMessages := currentMessages st;
     finalMeta := finalMeta st;
     finalStructuredContent := finalStructuredContent st;
     finalWidgetId := finalWidgetId st; yielded := yielded st;
     world := w |}.

(** [{ role: "tool", content, tool_call_id, name }] *)
Definition tool_message (content id name : string) : ChatMessage :=
  {| msg_role := role_tool; msg_content := content; msg_tool_calls := None;
     msg_tool_call_id := Some id; msg_name := Some name |}.

(** [{ role: "assistant", content, tool_calls }] *)
Definition assistant_message (content : string)
    (calls : list MessageToolCall) : ChatMessage :=
  {| msg_role := role_assistant; msg_content := content;
     msg_tool_calls := Some calls; msg_tool_call_id := None;
     msg_name := None |}.

(** The object [{ error: m }]. *)
Definition error_object (m : string) : Value := Obj [("error", Str m)].

(** [JSON.stringify({ error: `Tool ${name} not found` })] *)
Definition not_found_content (name : string) : string :=
  JSON.stringify (error_object ("Tool " +:+ name +:+ " not found")).

(** [JSON.stringify({ error: `Error executing tool: ${...}` })] *)
Definition error_content (e : Thrown) : string :=
  JSON.stringify (error_object ("Error executing tool: " +:+ message_of e)).

(** [toolRegistry.find((t) => t.name === name)] *)
Definition find_tool (name : string) : option (ToolDefinition World) :=
  List.find (fun t => String.eqb (tool_name t) name) toolRegistry.

Definition newline : string := String "010" "".

(** [result.content.map((item) => item.text || item).join("\n")]: an item
    whose text is empty is joined as the object itself. *)
Definition resultText (result : ToolResult) : string :=
  join newline
    (map (fun item =>
            match text item with
            | "" => "[object Object]"
            | t => t
            end) (tr_content result)).

(** The two [if]s that store [_meta], the widget path and
    [structuredContent] of a tool result. *)
Definition capture (result : ToolResult) (st : LoopState) : LoopState :=
  let st1 :=
    match tr_meta result, finalMeta st with
    | Some meta, None =>
        {| iteration := iteration st; currentMessages := currentMessages st;
           finalMeta := Some meta;
           finalStructuredContent := finalStructuredContent st;
           finalWidgetId :=
             match JS.get meta "path" with
             | Some (Str (String c p)) => Some (String c p)
             | _ => finalWidgetId st
             end;
           yielded := yielded st; world := world st |}
    | _, _ => st
    end in
  match tr_structuredContent result, finalStructuredContent st1 with
  | Some sc, None =>
      {| iteration := iteration st1; currentMessages := currentMessages st1;
         finalMeta := finalMeta st1; finalStructuredContent := Some sc;
         finalWidgetId := finalWidgetId st1; yielded := yielded st1;
         world := world st1 |}
  | _, _ => st1
  end.

Definition authInfo (userId : string) : AuthInfo :=
  {| token := ""; extra_userId := userId |}.

(** *** [getChatCompletion] *)

(** [toolCalls.filter((tc) => tc.type === "function")], in the shape the
    assistant message stores. *)
Definition functionToolCalls (toolCalls : list ResponseToolCall)
  : list MessageToolCall :=
  flat_map (fun tc =>
              match tc with
              | function_tool_call id f => [{| mtc_id := id; mtc_function := f |}]
              | custom_tool_call _ => []
              end) toolCalls.

(** Body of [for (const toolCall of functionToolCalls)]. *)
Definition executeToolCall (userId : string) (toolCall : MessageToolCall)
    (st : LoopState) : LoopState :=
  let id := mtc_id toolCall in
  let name := fn_name (mtc_function toolCall) in
  match find_tool name with
  | None => push (tool_message (not_found_content name) id name) st
  | Some tool =>
      match JSON_parse (fn_arguments (mtc_function toolCall)) with
      | Throw e => push (tool_message (error_content e) id name) st
      | Return args =>
          let '(result, w) := handler tool args (authInfo userId) (world st) in
          let st := with_world w st in
          match result with
          | Throw e => push (tool_message (error_content e) id name) st
          | Return result =>
              push (tool_message (resultText result) id name) (capture result st)
          end
      end
  end.

(** The [while (iteration < maxIterations)] loop; [remaining] is
    [maxIterations - iteration]. *)
Fixpoint completion_loop (userId : string) (remaining : nat) (st : LoopState)
  : Outcome ChatCompletionResult * LoopState :=
  match remaining with
  | O => (Throw (Error "Maximum tool call iterations exceeded"), st)
  | S remaining' =>
      let st := next_iteration st in
      let '(response, w) :=
        chat_completions_create openai (currentMessages st) (world st) in
      let st := with_world w st in
      match response with
      | Throw e => (Throw e, st)
      | Return response =>
          match head (choices response) with
          | None => (Throw (Error "No message in LLM response"), st)
          | Some message =>
              match cm_tool_calls message with
              | Some (tc :: tcs) =>
                  let calls := functionToolCalls (tc :: tcs) in
                  let st :=
                    push (assistant_message (or_empty (cm_content message)) calls)
                      st in
                  let st :=
                    fold_left (fun st c => executeToolCall userId c st) calls st in
                  completion_loop userId remaining' st
              | _ =>
                  (Return {| res_content := or_empty (cm_content message);
                             res_meta := finalMeta st;
                             res_structuredContent := finalStructuredContent st;
                             res_widgetId := finalWidgetId st |}, st)
              end
          end
      end
  end.

(** The outer [catch]: [throw new Error(prefix + message)]. *)
Definition rethrow {A} (prefix : string) (r : Outcome A) : Outcome A :=
  match r with
  | Return a => Return a
  | Throw e => Throw (Error (prefix +:+ message_of e))
  end.

(** [getChatCompletion(messages, userId)]: what it returns or throws, with
    its local variables at that point. *)
Definition getChatCompletion (messages : list ChatMessage) (userId : string)
    (w : World) : Outcome ChatCompletionResult * LoopState :=
  let '(r, st) := completion_loop userId maxIterations (initial messages w) in
  (rethrow "Failed to get chat completion: " r, st).

(** *** [streamChatCompletion] *)

(** Per-round locals of the streaming driver. *)
Record RoundState : Type := {
  accumulatedContent : string;
  toolCalls : list ToolCallRef;
  hasToolCalls : bool }.

Definition round_start : RoundState :=
  {| accumulatedContent := ""; toolCalls := []; hasToolCalls := false |}.

(** What the engine throws on [toolCalls[index].p = v] when
    [toolCalls[index]] is [undefined] (V8's wording). *)
Definition TypeError_undefined (verb gerund prop : string) : Thrown :=
  Error ("Cannot " +:+ verb +:+ " properties of undefined (" +:+ gerund
         +:+ " '" +:+ prop +:+ "')").

(** [if (x) toolCalls[index].p = f(x, toolCalls[index].p)] *)
Definition assign (index : nat) (verb gerund prop : string)
    (x : option string)
    (update : string -> ToolCallRef -> ToolCallRef)
    (calls : list ToolCallRef) : Outcome (list ToolCallRef) :=
  match truthy x with
  | None => Return calls
  | Some v =>
      match calls !! index with
      | Some tc => Return (<[index := update v tc]> calls)
      | None => Throw (TypeError_undefined verb gerund prop)
      end
  end.

Definition set_id (v : string) (tc : ToolCallRef) : ToolCallRef :=
  {| tc_id := v; tc_name := tc_name tc; tc_arguments := tc_arguments tc |}.
Definition set_name (v : string) (tc : ToolCallRef) : ToolCallRef :=
  {| tc_id := tc_id tc; tc_name := v; tc_arguments := tc_arguments tc |}.
Definition append_arguments (v : string) (tc : ToolCallRef) : ToolCallRef :=
  {| tc_id := tc_id tc; tc_name := tc_name tc;
     tc_arguments := tc_arguments tc +:+ v |}.

(** Body of [for (const toolCallDelta of deltaToolCalls)]. *)
Definition merge_delta (calls : list ToolCallRef) (d : ToolCallDelta)
  : Outcome (list ToolCallRef) :=
  match tcd_function d with
  | None => Return calls
  | Some f =>
      match tcd_index d with
      | None => Return calls
      | Some index =>
          let calls :=
            if (length calls <=? index)%nat
            then calls ++ [{| tc_id := or_empty (tcd_id d); tc_name := "";
                              tc_arguments := "" |}]
            else calls in
          match assign index "set" "setting" "id" (tcd_id d) set_id calls with
          | Throw e => Throw e
          | Return calls =>
              match assign index "set" "setting" "name" (fd_name f) set_name calls with
              | Throw e => Throw e
              | Return calls =>
                  assign index "read" "reading" "arguments" (fd_arguments f)
                    append_arguments calls
              end
          end
      end
  end.

(** The [for] loop over [deltaToolCalls]; a throw leaves it. *)
Fixpoint merge_deltas (calls : list ToolCallRef) (ds : list ToolCallDelta)
  : Outcome (list ToolCallRef) :=
  match ds with
  | [] => Return calls
  | d :: ds' =>
      match merge_delta calls d with
      | Throw e => Throw e
      | Return calls' => merge_deltas calls' ds'
      end
  end.

(** Body of [for await (const chunk of stream)]: the locals afterwards and
    the chunks it yields. *)
Definition process_chunk (chunk : ChatCompletionChunk) (rs : RoundState)
  : Outcome RoundState * list StreamChunk :=
  match chunk_choices chunk with
  | Some (choice :: _) =>
      let has :=
        match finish_reason choice with
        | Some reason => String.eqb reason "tool_calls" || hasToolCalls rs
        | None => hasToolCalls rs
        end in
      let merged :=
        match delta_tool_calls choice with
        | Some (d :: ds) =>
            match merge_deltas (toolCalls rs) (d :: ds) with
            | Throw e => Throw e
            | Return calls => Return (calls, true)
            end
        | _ => Return (toolCalls rs, has)
        end in
      match merged with
      | Throw e => (Throw e, [])
      | Return (calls, has) =>
          match truthy (delta_content choice) with
          | Some c =>
              (Return {| accumulatedContent := accumulatedContent rs +:+ c;
                         toolCalls := calls; hasToolCalls := has |},
               [content_chunk c])
          | None =>
              (Return {| accumulatedContent := accumulatedContent rs;
                         toolCalls := calls; hasToolCalls := has |}, [])
          end
      end
  | _ => (Return rs, [])
  end.

(** The [for await] loop over the events of the stream. *)
Fixpoint process_events (evs : list ChatCompletionChunk) (rs : RoundState)
  : Outcome RoundState * list StreamChunk :=
  match evs with
  | [] => (Return rs, [])
  | chunk :: evs' =>
      match process_chunk chunk rs with
      | (Throw e, out) => (Throw e, out)
      | (Return rs', out) =>
          let '(r, out') := process_events evs' rs' in (r, out ++ out')
      end
  end.

(** Reading a whole stream: its events, then its failure if it has one. *)
Definition read_stream (stream : ChatStream)
  : Outcome RoundState * list StreamChunk :=
  match process_events (events stream) round_start with
  | (Throw e, out) => (Throw e, out)
  | (Return rs, out) =>
      match failure stream with
      | Some e => (Throw e, out)
      | None => (Return rs, out)
      end
  end.

(** [toolCalls.map((tc) => ({ id, type: "function", function }))] *)
Definition to_message_call (tc : ToolCallRef) : MessageToolCall :=
  {| mtc_id := tc_id tc;
     mtc_function := {| fn_name := tc_name tc;
                        fn_arguments := tc_arguments tc |} |}.

(** [toolCall.arguments ? JSON.parse(toolCall.arguments) : {}] *)
Definition parse_streamed (arguments : string) : Outcome Value :=
  match arguments with
  | "" => Return (Obj [])
  | _ => JSON_parse arguments
  end.

(** Body of [for (const toolCall of toolCalls)] in the streaming driver. *)
Definition executeToolCallStreaming (userId : string) (toolCall : ToolCallRef)
    (st : LoopState) : LoopState :=
  let id := tc_id toolCall in
  let name := tc_name toolCall in
  match find_tool name with
  | None => push (tool_message (not_found_content name) id name) st
  | Some tool =>
      match parse_streamed (tc_arguments toolCall) with
      | Throw e =>
          push (tool_message (error_content e) id name)
            (yield (tool_result_chunk (error_content e)) st)
      | Return args =>
          let '(result, w) := handler tool args (authInfo userId) (world st) in
          let st := with_world w st in
          match result with
          | Throw e =>
              push (tool_message (error_content e) id name)
                (yield (tool_result_chunk (error_content e)) st)
          | Return result =>
              push (tool_message (resultText result) id name)
                (yield (tool_result_chunk (resultText result))
                   (capture result st))
          end
      end
  end.

(** [if (finalMeta || finalStructuredContent || finalWidgetId)] *)
Definition has_metadata (st : LoopState) : bool :=
  match finalMeta st, finalStructuredContent st, truthy (finalWidgetId st) with
  | None, None, None => false
  | _, _, _ => true
  end.

Definition metadata_of (st : LoopState) : Metadata :=
  {| md_meta := finalMeta st;
     md_structuredContent := finalStructuredContent st;
     md_widgetId := finalWidgetId st |}.

(** The [while (iteration < maxIterations)] loop of the generator. *)
Fixpoint stream_loop (userId : string) (provider : Provider)
    (remaining : nat) (st : LoopState) : Outcome unit * LoopState :=
  match remaining with
  | O => (Throw (Error "Maximum tool call iterations exceeded"), st)
  | S remaining' =>
      let st := next_iteration st in
      let '(stream, w) :=
        chat_completions_stream provider (currentMessages st) (world st) in
      let st := with_world w st in
      match stream with
      | Throw e => (Throw e, st)
      | Return stream =>
          match read_stream stream with
          | (Throw e, out) => (Throw e, yield_all out st)
          | (Return rs, out) =>
              let st := yield_all out st in
              if hasToolCalls rs && (0 <? length (toolCalls rs))%nat
              then
                let st := yield (tool_call_chunk (toolCalls rs)) st in
                let st :=
                  push (assistant_message (accumulatedContent rs)
                          (map to_message_call (toolCalls rs))) st in
                let st :=
                  fold_left (fun st c => executeToolCallStreaming userId c st)
                    (toolCalls rs) st in
                stream_loop userId provider remaining' st
              else
                let st :=
                  if has_metadata st
                  then yield (metadata_chunk (metadata_of st)) st
                  else st in
                (Return tt, yield (done_chunk None) st)
          end
      end
  end.

(** [streamChatCompletion(messages, userId, provider)]: how the generator
    ends, with the chunks it yielded and its locals at that point. *)
Definition streamChatCompletion (messages : list ChatMessage)
    (userId : string) (provider : Provider) (w : World)
  : Outcome unit * LoopState :=
  let '(r, st) := stream_loop userId provider maxIterations (initial messages w) in
  (rethrow "Failed to stream chat completion: " r, st).


(** *** [streamUserMessageById] (chat service) *)

Definition marker : string := "-- IGNORE CONVERSATION BEFORE THIS LINE --".

(** [orderBy(devMessage.created_at)]: rows by ascending creation time, rows
    of one time in table order. *)
Fixpoint insert_by_created_at (r : MessageRow) (rows : list MessageRow)
  : list MessageRow :=
  match rows with
  | [] => [r]
  | r' :: rows' =>
      if (row_created_at r <=? row_created_at r')%nat
      then r :: r' :: rows'
      else r' :: insert_by_created_at r rows'
  end.

Definition orderBy_created_at (rows : list MessageRow) : list MessageRow :=
  fold_right insert_by_created_at [] rows.

(** [update(devSession).set({ updated_at: new Date() }).where(id = sessionId)] *)
Definition touch_session (sessionId : string) (db : Database) : Database :=
  {| devMessage := devMessage db;
     devSession :=
       map (fun s =>
              if String.eqb (ses_id s) sessionId
              then {| ses_id := ses_id s; ses_name := ses_name s;
                      ses_user_id := ses_user_id s;
                      ses_updated_at := clock db |}
              else s) (devSession db);
     clock := S (clock db);
     drawn := drawn db |}.

(** [update(devSession).set({ name }).where(id = sessionId)] *)
Definition rename_session (sessionId name : string) (db : Database)
  : Database :=
  {| devMessage := devMessage db;
     devSession :=
       map (fun s =>
              if String.eqb (ses_id s) sessionId
              then {| ses_id := ses_id s; ses_name := name;
                      ses_user_id := ses_user_id s;
                      ses_updated_at := clock db |}
              else s) (devSession db);
     clock := S (clock db);
     drawn := drawn db |}.

(** [insert(devMessage).values({...}).returning()] of an assistant row. *)
Definition insert_assistant (content : string)
    (structured_content : option Object_) (widget_id : option string)
    (sessionId userId : string) (db : Database) : MessageRow * Database :=
  let row :=
    {| row_id := gen_random_uuid (drawn db); row_content := content;
       row_structured_content := structured_content;
       row_widget_id := widget_id; row_role := role_assistant;
       row_session_id := sessionId; row_user_id := userId;
       row_created_at := clock db |} in
  (row, {| devMessage := devMessage db ++ [row];
           devSession := devSession db;
           clock := S (clock db);
           drawn := S (drawn db) |}).

(** The [forEach] that builds [previousMessages]. *)
Definition keep_after_marker (allPreviousMessages : list MessageRow)
  : list MessageRow :=
  fold_left
    (fun previousMessages msg =>
       (if includes (row_content msg) marker then [] else previousMessages)
       ++ [msg])
    allPreviousMessages [].

(** What the first transaction returns. *)
Record UserContext : Type := {
  userMsg : MessageRow;
  previousMessages : list MessageRow;
  sessionId : string;
  session : SessionRow }.

(** The first [withUserContext] transaction of [streamUserMessageById]. *)
Definition load_user_message (userId messageId : string) (db : Database)
  : Outcome UserContext * Database :=
  match List.find (fun m => String.eqb (row_id m) messageId
                            && String.eqb (row_user_id m) userId)
          (devMessage db) with
  | None =>
      (Throw (Error ("User message with ID " +:+ messageId +:+ " not found")),
       db)
  | Some userMsg =>
      let sessionId := row_session_id userMsg in
      match List.find (fun s => String.eqb (ses_id s) sessionId
                                && String.eqb (ses_user_id s) userId)
              (devSession db) with
      | None =>
          (Throw (Error ("Session with ID " +:+ sessionId +:+ " not found")),
           db)
      | Some session =>
          let db := touch_session sessionId db in
          let allPreviousMessages :=
            orderBy_created_at
              (List.filter (fun m => String.eqb (row_session_id m) sessionId
                                     && String.eqb (row_user_id m) userId)
                 (devMessage db)) in
          (Return {| userMsg := userMsg;
                     previousMessages := keep_after_marker allPreviousMessages;
                     sessionId := sessionId;
                     session := session |}, db)
      end
  end.

(** [(msg) => ({ role: msg.role, content: msg.content })] *)
Definition to_chat_message (role : Role) (content : string) : ChatMessage :=
  {| msg_role := role; msg_content := content; msg_tool_calls := None;
     msg_tool_call_id := None; msg_name := None |}.

Definition chatMessages (ctx : UserContext) : list ChatMessage :=
  map (fun msg => to_chat_message (row_role msg) (row_content msg))
    (previousMessages ctx).

(** Locals of the consuming loop, the chunks re-yielded so far, the database
    and the outside world. *)
Record WrapperState : Type := {
  w_accumulatedContent : string;
  w_finalMeta : option Object_;
  w_finalStructuredContent : option Object_;
  w_finalWidgetId : option string;
  w_yielded : list StreamChunk;
  w_db : Database;
  w_world : World }.

(** [finalStructuredContent || finalMeta ? {...} : null] *)
Definition combinedStructuredContent (sc meta : option Object_)
  : option Object_ :=
  match sc, meta with
  | None, None => None
  | _, _ =>
      Some (spread (match sc with Some o => o | None => [] end)
              (match meta with Some m => [("_meta", Obj m)] | None => [] end))
  end.

Definition name_prompt : string :=
  "Based on the following conversation, generate a short, descriptive name (3-5 words max) for this chat session. Return only the name, nothing else.".

(** The [if (previousMessages.length === 3 && ...)] block: a name for the
    session from one more completion; its errors are caught and logged. *)
Definition generate_session_name (userId : string) (ctx : UserContext)
    (content : string) (db : Database) (w : World) : Database * World :=
  if (length (previousMessages ctx) =? 3)%nat
     && String.eqb (ses_name (session ctx)) "New conversation"
  then
    let conversationSummary :=
      chatMessages ctx ++ [to_chat_message role_assistant content] in
    let '(nameResult, st) :=
      getChatCompletion
        (to_chat_message role_system name_prompt :: conversationSummary)
        userId w in
    match nameResult with
    | Return r =>
        match trim (res_content r) with
        | "" => (db, world st)
        | generatedName =>
            (rename_session (sessionId ctx) generatedName db, world st)
        end
    | Throw _ => (db, world st)
    end
  else (db, w).

(** Body of [for await (const chunk of streamChatCompletion(...))]. *)
Definition forward_chunk (userId : string) (ctx : UserContext)
    (chunk : StreamChunk) (ws : WrapperState) : WrapperState :=
  let out := w_yielded ws ++ [chunk] in
  match chunk with
  | content_chunk c =>
      {| w_accumulatedContent := w_accumulatedContent ws +:+ c;
         w_finalMeta := w_finalMeta ws;
         w_finalStructuredContent := w_finalStructuredContent ws;
         w_finalWidgetId := w_finalWidgetId ws;
         w_yielded := out; w_db := w_db ws; w_world := w_world ws |}
  | metadata_chunk md =>
      {| w_accumulatedContent := w_accumulatedContent ws;
         w_finalMeta := md_meta md;
         w_finalStructuredContent := md_structuredContent md;
         w_finalWidgetId := md_widgetId md;
         w_yielded := out; w_db := w_db ws; w_world := w_world ws |}
  | done_chunk _ =>
      let '(assistantMessage, db) :=
        insert_assistant (w_accumulatedContent ws)
          (combinedStructuredContent (w_finalStructuredContent ws)
             (w_finalMeta ws))
          (truthy (w_finalWidgetId ws)) (sessionId ctx) userId (w_db ws) in
      let db := touch_session (sessionId ctx) db in
      let '(db, w) :=
        generate_session_name userId ctx (w_accumulatedContent ws) db
          (w_world ws) in
      {| w_accumulatedContent := w_accumulatedContent ws;
         w_finalMeta := w_finalMeta ws;
         w_finalStructuredContent := w_finalStructuredContent ws;
         w_finalWidgetId := w_finalWidgetId ws;
         w_yielded := out ++ [done_chunk (Some (row_id assistantMessage))];
         w_db := db; w_world := w |}
  | _ =>
      {| w_accumulatedContent := w_accumulatedContent ws;
         w_finalMeta := w_finalMeta ws;
         w_finalStructuredContent := w_finalStructuredContent ws;
         w_finalWidgetId := w_finalWidgetId ws;
         w_yielded := out; w_db := w_db ws; w_world := w_world ws |}
  end.

(** [streamUserMessageById(userId, messageId)]: how the generator ends, the
    chunks it yielded, the database and the world afterwards.  The driver
    yields [done] last, so the calls of the driver all come before what the
    wrapper does on [done]. *)
Definition streamUserMessageById (userId messageId : string)
    (db : Database) (w : World)
  : Outcome unit * list StreamChunk * Database * World :=
  match load_user_message userId messageId db with
  | (Throw e, db) => (Throw e, [], db, w)
  | (Return ctx, db) =>
      let '(r, st) := streamChatCompletion (chatMessages ctx) userId grok w in
      let ws :=
        fold_left (fun ws chunk => forward_chunk userId ctx chunk ws)
          (yielded st)
          {| w_accumulatedContent := ""; w_finalMeta := None;
             w_finalStructuredContent := None; w_finalWidgetId := None;
             w_yielded := []; w_db := db; w_world := world st |} in
      (r, w_yielded ws, w_db ws, w_world ws)
  end.

(** *** [streamMessage] ([src/app/chat/chat.router.ts]) *)

(** The events the subscription emits for one message, with the database
    and the world afterwards. *)
Definition streamMessage (userId messageId : string) (db : Database)
    (w : World) : list SubscriptionEvent * Database * World :=
  let '(r, chunks, db, w) := streamUserMessageById userId messageId db w in
  (map emit_next chunks ++
   match r with
   | Return _ => []
   | Throw (Error m) => [emit_error (Error m)]
   | Throw (NonError _) => [emit_error (Error "Unknown error during streaming")]
   end, db, w).

(** *** The other operations of the chat service

    Each runs in one transaction of [withUserContext].  A statement that
    reads leaves the database as it is; an [insert] draws an identifier and
    takes the time of the clock for its timestamps. *)

(** [select().from(devSession).where(and(eq(id, sessionId),
    eq(user_id, userId))).limit(1)] *)
Definition find_session (userId sessionId : string) (db : Database)
  : option SessionRow :=
  List.find (fun s => String.eqb (ses_id s) sessionId
                      && String.eqb (ses_user_id s) userId)
    (devSession db).

(** [new Error(`Session with ID ${sessionId} not found`)] *)
Definition session_not_found (sessionId : string) : Thrown :=
  Error ("Session with ID " +:+ sessionId +:+ " not found").

(** [createSession(userId, name)] *)
Definition createSession (userId name : string) (db : Database)
  : SessionRow * Database :=
  let session :=
    {| ses_id := gen_random_uuid (drawn db); ses_name := name;
       ses_user_id := userId; ses_updated_at := clock db |} in
  (session, {| devMessage := devMessage db;
               devSession := devSession db ++ [session];
               clock := S (clock db);
               drawn := S (drawn db) |}).

(** [orderBy(desc(devSession.updated_at))]: sessions by descending time of
    update, sessions of one time in table order. *)
Fixpoint insert_by_updated_at (s : SessionRow) (rows : list SessionRow)
  : list SessionRow :=
  match rows with
  | [] => [s]
  | s' :: rows' =>
      if (ses_updated_at s' <=? ses_updated_at s)%nat
      then s :: s' :: rows'
      else s' :: insert_by_updated_at s rows'
  end.

Definition orderBy_desc_updated_at (rows : list SessionRow) : list SessionRow :=
  fold_right insert_by_updated_at [] rows.

(** [listSessions(userId)] *)
Definition listSessions (userId : string) (db : Database) : list SessionRow :=
  orderBy_desc_updated_at
    (List.filter (fun s => String.eqb (ses_user_id s) userId) (devSession db)).

(** [getMessages(userId, sessionId)] *)
Definition getMessages (userId sessionId : string) (db : Database)
  : Outcome (list MessageRow) :=
  match find_session userId sessionId db with
  | None => Throw (session_not_found sessionId)
  | Some _ =>
      Return
        (orderBy_created_at
           (List.filter (fun m => String.eqb (row_session_id m) sessionId
                                  && String.eqb (row_user_id m) userId)
              (devMessage db)))
  end.

(** [{ success: true }] *)
Record Success : Type := { success : bool }.

(** [delete(devMessage).where(p)] *)
Definition delete_messages (p : MessageRow -> bool) (db : Database)
  : Database :=
  {| devMessage := List.filter (fun m => negb (p m)) (devMessage db);
     devSession := devSession db;
     clock := clock db; drawn := drawn db |}.

(** [delete(devSession).where(p)]; the foreign key of [dev_message] is
    [ON DELETE CASCADE], so the messages of a deleted session go with it. *)
Definition delete_sessions (p : SessionRow -> bool) (db : Database)
  : Database :=
  let deleted := List.filter p (devSession db) in
  {| devMessage :=
       List.filter
         (fun m => negb (existsb (fun s => String.eqb (ses_id s)
                                             (row_session_id m)) deleted))
         (devMessage db);
     devSession := List.filter (fun s => negb (p s)) (devSession db);
     clock := clock db; drawn := drawn db |}.

(** [deleteMessage(userId, messageIds)], for a list that is not empty (what
    [inArray] makes of an empty list is the query builder's business). *)
Definition deleteMessage (userId : string) (messageIds : list string)
    (db : Database) : Success * Database :=
  ({| success := true |},
   delete_messages
     (fun m => existsb (String.eqb (row_id m)) messageIds
               && String.eqb (row_user_id m) userId) db).

(** [deleteSession(userId, sessionId)] *)
Definition deleteSession (userId sessionId : string) (db : Database)
  : Outcome Success * Database :=
  match find_session userId sessionId db with
  | None => (Throw (session_not_found sessionId), db)
  | Some _ =>
      let db :=
        delete_messages
          (fun m => String.eqb (row_session_id m) sessionId
                    && String.eqb (row_user_id m) userId) db in
      let db :=
        delete_sessions
          (fun s => String.eqb (ses_id s) sessionId
                    && String.eqb (ses_user_id s) userId) db in
      (Return {| success := true |}, db)
  end.

(** [addUserMessage(userId, sessionId, content, role, structuredContent,
    widgetId)]; a structured content, when given, is an object. *)
Definition addUserMessage (userId sessionId content : string) (role : Role)
    (structuredContent : option Object_) (widgetId : option string)
    (db : Database) : Outcome MessageRow * Database :=
  match find_session userId sessionId db with
  | None => (Throw (session_not_found sessionId), db)
  | Some _ =>
      let userMessage :=
        {| row_id := gen_random_uuid (drawn db); row_content := content;
           row_structured_content := structuredContent;
           row_widget_id := truthy widgetId; row_role := role;
           row_session_id := sessionId; row_user_id := userId;
           row_created_at := clock db |} in
      let db :=
        {| devMessage := devMessage db ++ [userMessage];
           devSession := devSession db;
           clock := S (clock db);
           drawn := S (drawn db) |} in
      (Return userMessage, touch_session sessionId db)
  end.

(** *** The chat page ([ChatPage]), where it reads what the service returns *)

(** The optimistic update of [deleteMessageMutation.onMutate] on the cached
    answer of [getMessages]:
    [(old) => { if (!old) return old;
                return old.filter((message) => !messageIds.includes(message.id)); }] *)
Definition onMutate (messageIds : list string)
    (old : option (list MessageRow)) : option (list MessageRow) :=
  match old with
  | None => None
  | Some old =>
      Some (List.filter
              (fun message =>
                 negb (existsb (String.eqb (row_id message)) messageIds))
              old)
  end.

(** [utils.chat.getMessages.setData({ sessionId }, updater)]: the entry of
    the session becomes what the updater returns from it, unless that is
    [undefined]. *)
Definition setData (sessionId : string)
    (updater : option (list MessageRow) -> option (list MessageRow))
    (page : ChatPageState) : ChatPageState :=
  {| isStreaming := isStreaming page;
     pendingMessage := pendingMessage page;
     pendingMessageRef := pendingMessageRef page;
     getData :=
       fun key =>
         if String.eqb key sessionId
         then match updater (getData page sessionId) with
              | Some updated => Some updated
              | None => getData page sessionId
              end
         else getData page key;
     refetches := refetches page |}.

(** The updater of the [content] branch: the text is appended to the last
    message when that is an assistant message, and a message to receive it
    is pushed otherwise; [now] and [Date_now] are the instants read by
    [new Date()] and [Date.now()]. *)
Definition append_content (sessionId content : string) (now Date_now : nat)
    (old : option (list MessageRow)) : option (list MessageRow) :=
  match old with
  | None => None
  | Some updated =>
      let pushed :=
        updated ++
        [{| row_id := "streaming-" +:+ JSON.number_to_string (Z.of_nat Date_now);
            row_content := content; row_structured_content := None;
            row_widget_id := None; row_role := role_assistant;
            row_session_id := sessionId; row_user_id := "";
            row_created_at := now |}] in
      match last updated with
      | Some lastMessage =>
          match row_role lastMessage with
          | role_assistant =>
              Some (<[pred (length updated) :=
                        {| row_id := row_id lastMessage;
                           row_content := row_content lastMessage +:+ content;
                           row_structured_content :=
                             row_structured_content lastMessage;
                           row_widget_id := row_widget_id lastMessage;
                           row_role := row_role lastMessage;
                           row_session_id := row_session_id lastMessage;
                           row_user_id := row_user_id lastMessage;
                           row_created_at := row_created_at lastMessage |}]>
                      updated)
          | _ => Some pushed
          end
      | None => Some pushed
      end
  end.

(** The updater of the [metadata] branch: the last message, when it is an
    assistant message, takes the structured content and the widget of the
    metadata. *)
Definition apply_metadata (metadata : Metadata)
    (old : option (list MessageRow)) : option (list MessageRow) :=
  match old with
  | None => None
  | Some updated =>
      match last updated with
      | Some lastMessage =>
          match row_role lastMessage with
          | role_assistant =>
              let structuredContent :=
                match md_structuredContent metadata with
                | Some sc =>
                    Some (spread
                            (match md_meta metadata with
                             | Some m => [("_meta", Obj m)]
                             | None => []
                             end) sc)
                | None =>
                    match md_meta metadata with
                    | Some m => Some [("_meta", Obj m)]
                    | None => None
                    end
                end in
              Some (<[pred (length updated) :=
                        {| row_id := row_id lastMessage;
                           row_content := row_content lastMessage;
                           row_structured_content := structuredContent;
                           row_widget_id := truthy (md_widgetId metadata);
                           row_role := row_role lastMessage;
                           row_session_id := row_session_id lastMessage;
                           row_user_id := row_user_id lastMessage;
                           row_created_at := row_created_at lastMessage |}]>
                      updated)
          | _ => Some updated
          end
      | None => Some updated
      end
  end.

(** [onData(chunk)] of the [streamMessage] subscription, the scrolling of
    the window apart. *)
Definition onData (now Date_now : nat) (chunk : StreamChunk)
    (page : ChatPageState) : ChatPageState :=
  match pendingMessageRef page with
  | None => page
  | Some currentPendingMessage =>
      let sessionId := pending_sessionId currentPendingMessage in
      match chunk with
      | content_chunk (String c content) =>
          setData sessionId
            (append_content sessionId (String c content) now Date_now) page
      | metadata_chunk metadata =>
          setData sessionId (apply_metadata metadata) page
      | done_chunk _ =>
          {| isStreaming := false;
             pendingMessage := None;
             pendingMessageRef := pendingMessageRef page;
             getData := getData page;
             refetches := S (refetches page) |}
      | _ => page
      end
  end.

(** [onError(error)] of the subscription. *)
Definition onError (error : Thrown) (page : ChatPageState) : ChatPageState :=
  match pendingMessageRef page with
  | None => page
  | Some _ =>
      {| isStreaming := false;
         pendingMessage := None;
         pendingMessageRef := pendingMessageRef page;
         getData := getData page;
         refetches := refetches page |}
  end.


(** ** Vocabulary of the properties *)

(** The tool message [m] the specification promises for the call
    [(id, name)] whose arguments parsed as [parsed], made in world [w]. *)
Definition promised_tool_message (userId id name : string)
    (parsed : Outcome Value) (w : World) (m : ChatMessage) : Prop :=
  msg_role m = role_tool /\ msg_tool_call_id m = Some id /\
  msg_name m = Some name /\
  match find_tool name with
  | None =>
      msg_content m = not_found_content name /\
      JSON.parse (msg_content m)
      = Return (error_object ("Tool " +:+ name +:+ " not found"))
  | Some tool =>
      match parsed with
      | Throw e =>
          JSON.parse (msg_content m)
          = Return (error_object ("Error executing tool: " +:+ message_of e))
      | Return args =>
          match fst (handler tool args (authInfo userId) w) with
          | Throw e =>
              JSON.parse (msg_content m)
              = Return (error_object ("Error executing tool: " +:+ message_of e))
          | Return result => msg_content m = resultText result
          end
      end
  end.

(** The tool messages [ms] answer the calls with identifiers [ids], one
    each and in order. *)
Definition answers (ids : list string) (ms : list ChatMessage) : Prop :=
  Forall2 (fun id m => msg_role m = role_tool /\ msg_tool_call_id m = Some id)
    ids ms.

Definition empty_call : ToolCallRef :=
  {| tc_id := ""; tc_name := ""; tc_arguments := "" |}.

(** The entry a delta with function part [f] makes of the entry [old]: [id]
    and [name] overwritten when the delta carries them, [arguments]
    appended. *)
Definition merged (old : ToolCallRef) (d : ToolCallDelta) (f : FunctionDelta)
  : ToolCallRef :=
  {| tc_id := match truthy (tcd_id d) with Some v => v | None => tc_id old end;
     tc_name :=
       match truthy (fd_name f) with Some v => v | None => tc_name old end;
     tc_arguments := tc_arguments old +:+ or_empty (fd_arguments f) |}.


(** [_meta.path] when it is a non-empty string. *)
Definition widget_path (meta : Object_) : option string :=
  match JS.get meta "path" with
  | Some (Str (String c p)) => Some (String c p)
  | _ => None
  end.



(** [st'] keeps what [st] has captured: a captured [_meta] stays, and with it
    the widget identifier; a captured [structuredContent] stays. *)
Definition sticks (st st' : LoopState) : Prop :=
  (forall m, finalMeta st = Some m ->
             finalMeta st' = Some m /\ finalWidgetId st' = finalWidgetId st)
  /\ (forall sc, finalStructuredContent st = Some sc ->
                 finalStructuredContent st' = Some sc).

(** No chunk a tool call yields is a [content], [metadata] or [done] chunk. *)
Definition tool_chunks (out : list StreamChunk) : Prop :=
  forallb (fun ch => negb (is_done ch || is_metadata ch || is_content ch)) out
  = true.

(** Chunks yielded before the closing ones: none is [metadata] or [done]. *)
Definition body_chunks (out : list StreamChunk) : Prop :=
  forallb (fun ch => negb (is_done ch || is_metadata ch)) out = true.

(** The chunks that close a streaming run ending as [r] in state [st]: the
    [metadata] chunk if a sticky field is set, then [done]; none when the
    run throws. *)
Definition closing (r : Outcome unit) (st : LoopState) : list StreamChunk :=
  match r with
  | Return _ =>
      (if has_metadata st then [metadata_chunk (metadata_of st)] else [])
      ++ [done_chunk None]
  | Throw _ => []
  end.

(** [msg.content.includes(marker)] on a row. *)
Definition has_marker (row : MessageRow) : bool :=
  includes (row_content row) marker.

(** The history as the specification words it: the rows after the last row
    that contains the marker, all rows when none does. *)
Fixpoint history_after_last_marker (rows : list MessageRow)
  : list MessageRow :=
  match rows with
  | [] => []
  | row :: rows' =>
      if existsb has_marker rows' then history_after_last_marker rows'
      else if has_marker row then rows'
      else row :: rows'
  end.

(** The rows of the session of [ctx] that belong to [userId], in the order
    of the query. *)
Definition session_rows (userId : string) (ctx : UserContext) (db : Database)
  : list MessageRow :=
  orderBy_created_at
    (List.filter (fun m => String.eqb (row_session_id m) (sessionId ctx)
                           && String.eqb (row_user_id m) userId)
       (devMessage db)).

Definition to_chat (row : MessageRow) : ChatMessage :=
  to_chat_message (row_role row) (row_content row).







(** Rows in ascending order of creation. *)
Fixpoint ascending (rows : list MessageRow) : bool :=
  match rows with
  | [] => true
  | r :: rows' =>
      forallb (fun r' => (row_created_at r <=? row_created_at r')%nat) rows'
      && ascending rows'
  end.

(** Sessions in descending order of update. *)
Fixpoint descending (rows : list SessionRow) : bool :=
  match rows with
  | [] => true
  | s :: rows' =>
      forallb (fun s' => (ses_updated_at s' <=? ses_updated_at s)%nat) rows'
      && descending rows'
  end.

(** The [where] clause of the message queries of a session. *)
Definition in_session (userId sessionId : string) (m : MessageRow) : bool :=
  String.eqb (row_session_id m) sessionId && String.eqb (row_user_id m) userId.

(** No session of the table has the identifier [sessionId] and the owner
    [userId]. *)
Definition not_owned (userId sessionId : string) (db : Database) : bool :=
  forallb (fun s => negb (String.eqb (ses_id s) sessionId
                          && String.eqb (ses_user_id s) userId))
    (devSession db).

(** Every timestamp of the tables is before the clock. *)
Definition clock_ahead (db : Database) : bool :=
  forallb (fun m => (row_created_at m <? clock db)%nat) (devMessage db)
  && forallb (fun s => (ses_updated_at s <? clock db)%nat) (devSession db).

(** The identifier the next [insert] draws is the identifier of no stored
    message. *)
Definition fresh_identifier (db : Database) : bool :=
  forallb (fun m => negb (String.eqb (row_id m) (gen_random_uuid (drawn db))))
    (devMessage db).

(** Every message lies in a session of its own user. *)
Definition messages_in_owned_sessions (db : Database) : bool :=
  forallb (fun m =>
             existsb (fun s => String.eqb (ses_id s) (row_session_id m)
                               && String.eqb (ses_user_id s) (row_user_id m))
               (devSession db))
    (devMessage db).

(** No message of the table has the identifier [messageId] and the owner
    [userId]. *)
Definition no_such_message (userId messageId : string) (db : Database)
  : bool :=
  forallb (fun m => negb (String.eqb (row_id m) messageId
                          && String.eqb (row_user_id m) userId))
    (devMessage db).

(** The handlers of the subscription called for its events in turn, each
    at its instants, without a render in between. *)
Definition deliver (events : list (nat * nat * SubscriptionEvent))
    (page : ChatPageState) : ChatPageState :=
  fold_left
    (fun page '(now, Date_now, event) =>
       match event with
       | emit_next chunk => onData now Date_now chunk page
       | emit_error error => onError error page
       end)
    events page.

(** The chunks of the [next] events. *)
Definition chunks_of (events : list (nat * nat * SubscriptionEvent))
  : list StreamChunk :=
  flat_map (fun '(_, _, event) =>
              match event with
              | emit_next chunk => [chunk]
              | emit_error _ => []
              end) events.

(** The last of the rows is an assistant message. *)
Definition ends_with_assistant (rows : list MessageRow) : bool :=
  match last rows with
  | Some {| row_role := role_assistant |} => true
  | _ => false
  end.

(** The cached messages [data] are the messages [old] followed, if [text]
    is not empty, by one assistant message with that content. *)
Definition shows (old : list MessageRow) (text : string)
    (data : option (list MessageRow)) : Prop :=
  match text with
  | "" => data = Some old
  | _ =>
      exists m,
        data = Some (old ++ [m])
        /\ row_content m = text /\ row_role m = role_assistant
  end.

(** An object that has every key once. *)
Fixpoint distinct_keys (o : Object_) : bool :=
  match o with
  | [] => true
  | (k, _) :: o' =>
      match JS.get o' k with
      | None => distinct_keys o'
      | Some _ => false
      end
  end.

(** Metadata whose structured content has every key once, and no [_meta]
    of its own beside the [_meta] of the tool. *)
Definition plain_metadata (md : Metadata) : bool :=
  match md_structuredContent md with
  | Some sc =>
      distinct_keys sc
      && match md_meta md, JS.get sc "_meta" with
         | Some _, Some _ => false
         | _, _ => true
         end
  | None => true
  end.

(** Two optional objects with the same properties, in whatever order. *)
Definition same_properties (a b : option Object_) : Prop :=
  match a, b with
  | Some o, Some o' => forall key, JS.get o key = JS.get o' key
  | None, None => True
  | _, _ => False
  end.

(** Rounds of tool calls as a provider expects to read them back: an
    assistant message that carries calls, then one tool message for each
    call, in the order of the calls and under their identifiers. *)
Inductive tool_rounds : list ChatMessage -> Prop :=
| no_round : tool_rounds []
| one_round content calls ms rest :
    answers (map mtc_id calls) ms ->
    tool_rounds rest ->
    tool_rounds (assistant_message content calls :: ms ++ rest).

Definition is_tool_result (c : StreamChunk) : bool :=
  match c with tool_result_chunk _ => true | _ => false end.

(** The chunks of rounds of tool calls: the text of the round, one
    [tool_call] chunk with its calls, then the [tool_result] chunks, at
    most one for each call. *)
Inductive stream_rounds : list StreamChunk -> Prop :=
| no_stream_round : stream_rounds []
| one_stream_round text calls results rest :
    forallb is_content text = true ->
    calls <> [] ->
    forallb is_tool_result results = true ->
    length results <= length calls ->
    stream_rounds rest ->
    stream_rounds (text ++ tool_call_chunk calls :: results ++ rest).

(** ** Properties *)

(** *** Strings and the JSON reader *)

Lemma string_app_cons (x : ascii) (a b : string) :
  String x a +:+ b = String x (a +:+ b).
Proof. reflexivity. Qed.

Lemma string_app_nil_l (b : string) : "" +:+ b = b.
Proof. reflexivity. Qed.

Lemma string_app_assoc (a b c : string) : (a +:+ b) +:+ c = a +:+ (b +:+ c).
Proof.
  induction a as [|x a IH]; [reflexivity|].
  now rewrite !string_app_cons, IH.
Qed.

Lemma string_app_nil_r (a : string) : a +:+ "" = a.
Proof.
  induction a as [|x a IH]; [reflexivity|].
  now rewrite string_app_cons, IH.
Qed.

Lemma read_chars_literal c t :
  Ascii.eqb c JSON.dquote = false ->
  Ascii.eqb c JSON.backslash = false ->
  (N_of_ascii c <? 32)%N = false ->
  JSON.read_chars (String c t) = JSON.prepend (String c "") (JSON.read_chars t).
Proof. intros H1 H2 H3. cbn [JSON.read_chars]. now rewrite H1, H2, H3. Qed.

Lemma read_chars_escape e c t :
  JSON.unescape e = Some c ->
  JSON.read_chars (String JSON.backslash (String e t))
  = JSON.prepend (String c "") (JSON.read_chars t).
Proof. intros H. cbn [JSON.read_chars]. now rewrite H. Qed.

Lemma read_chars_unicode h1 h2 c t :
  JSON.hex4 "0" "0" h1 h2 = Some (N_of_ascii c) ->
  (N_of_ascii c <? 128)%N = true ->
  JSON.read_chars
    (String JSON.backslash
       (String "u" (String "0" (String "0" (String h1 (String h2 t))))))
  = JSON.prepend (String c "") (JSON.read_chars t).
Proof.
  intros H Hlt. cbn [JSON.read_chars].
  replace (JSON.unescape "u") with (@None ascii) by reflexivity.
  replace (Ascii.eqb JSON.backslash JSON.dquote) with false by reflexivity.
  replace (Ascii.eqb JSON.backslash JSON.backslash) with true by reflexivity.
  replace (Ascii.eqb "u" "u") with true by reflexivity.
  rewrite H. unfold JSON.utf8. rewrite Hlt, ascii_N_embedding. reflexivity.
Qed.

(** Reading back one quoted character, whatever its escape. *)
Lemma read_chars_quote_char c t :
  JSON.read_chars (JSON.quote_char c +:+ t)
  = JSON.prepend (String c "") (JSON.read_chars t).
Proof.
  destruct c as [[] [] [] [] [] [] [] []];
    match goal with
    | |- context [JSON.quote_char ?c] =>
        let q := eval vm_compute in (JSON.quote_char c) in
        change (JSON.quote_char c) with q
    end;
    rewrite ?string_app_cons, ?string_app_nil_l;
    first [ apply read_chars_literal; reflexivity
          | apply read_chars_escape; reflexivity
          | apply read_chars_unicode; reflexivity ].
Qed.

Lemma read_chars_quote_chars s rest :
  JSON.read_chars (JSON.quote_chars s +:+ String JSON.dquote rest)
  = Some (s, rest).
Proof.
  induction s as [|c s IH]; [reflexivity|].
  cbn [JSON.quote_chars].
  rewrite string_app_assoc, read_chars_quote_char, IH. reflexivity.
Qed.

Lemma read_value_string fuel txt :
  JSON.read_value (S fuel) (String JSON.dquote txt)
  = match JSON.read_chars txt with
    | Some (s, rest) => Some (Str s, rest)
    | None => None
    end.
Proof.
  cbn [JSON.read_value JSON.skip_ws].
  change (JSON.is_ws JSON.dquote) with false. cbv iota.
  change (Ascii.eqb JSON.dquote JSON.dquote) with true. reflexivity.
Qed.

Lemma read_members_single fuel acc ktxt key vtxt v rest :
  JSON.read_chars ktxt = Some (key, String ":" vtxt) ->
  JSON.read_value fuel vtxt = Some (v, String "}" rest) ->
  JSON.read_members (S fuel) acc (String JSON.dquote ktxt)
  = Some (JS.set acc key v, rest).
Proof.
  intros Hk Hv.
  cbn [JSON.read_members JSON.skip_ws].
  change (JSON.is_ws JSON.dquote) with false. cbv iota.
  change (Ascii.eqb JSON.dquote JSON.dquote) with true. cbv iota.
  rewrite Hk. cbn [JSON.skip_ws].
  change (JSON.is_ws ":") with false. cbv iota.
  rewrite Hv. cbn [JSON.skip_ws].
  change (JSON.is_ws "}") with false. reflexivity.
Qed.

Lemma read_value_object fuel txt props rest :
  JSON.read_members fuel [] (String JSON.dquote txt) = Some (props, rest) ->
  JSON.read_value (S fuel) (String "{" (String JSON.dquote txt))
  = Some (Obj props, rest).
Proof.
  intros H.
  cbn [JSON.read_value JSON.skip_ws].
  change (JSON.is_ws "{") with false. cbv iota.
  change (Ascii.eqb "{" JSON.dquote) with false.
  change (Ascii.eqb "{" "[") with false.
  change (Ascii.eqb "{" "{") with true. cbv iota.
  change (JSON.is_ws JSON.dquote) with false. cbv iota.
  rewrite H. reflexivity.
Qed.

(** The error objects the drivers write are read back as written. *)
Lemma parse_stringify_error_object m :
  JSON.parse (JSON.stringify (error_object m)) = Return (error_object m).
Proof.
  unfold JSON.parse.
  set (txt := JSON.stringify (error_object m)).
  assert (Hfuel : exists n, (2 * String.length txt + 2 = S (S (S n)))%nat).
  { assert (Hlen : exists k, String.length txt = S k).
    { subst txt. unfold error_object. cbn [JSON.stringify].
      rewrite string_app_cons. cbn [String.length]. eauto. }
    destruct Hlen as [k ->]. exists (2 * k + 1)%nat. lia. }
  destruct Hfuel as [n ->].
  assert (Htxt : txt = String "{" (String JSON.dquote
             (JSON.quote_chars "error" +:+ String JSON.dquote (String ":"
                (String JSON.dquote
                   (JSON.quote_chars m +:+ String JSON.dquote "}")))))).
  { subst txt. unfold error_object. cbn [JSON.stringify]. unfold JSON.quote.
    repeat (rewrite string_app_cons || rewrite string_app_nil_l
            || rewrite string_app_assoc || rewrite string_app_nil_r).
    reflexivity. }
  rewrite Htxt. clear Htxt txt.
  erewrite read_value_object.
  2:{ eapply read_members_single.
      - apply read_chars_quote_chars.
      - rewrite read_value_string, read_chars_quote_chars. reflexivity. }
  reflexivity.
Qed.

(** *** One tool call *)

Ltac state_simpl :=
  cbn [iteration currentMessages finalMeta finalStructuredContent
       finalWidgetId yielded world push yield yield_all with_world
       next_iteration initial tool_message assistant_message msg_role
       msg_content msg_tool_calls msg_tool_call_id msg_name fst snd] in *.

(** [capture] touches the three sticky fields only. *)
Lemma capture_frame result st :
  iteration (capture result st) = iteration st
  /\ currentMessages (capture result st) = currentMessages st
  /\ yielded (capture result st) = yielded st
  /\ world (capture result st) = world st.
Proof.
  unfold capture.
  destruct (tr_meta result), (finalMeta st), (tr_structuredContent result);
    cbn; destruct (finalStructuredContent st); cbn; auto.
Qed.

Lemma executeToolCall_one_message userId c st :
  exists m,
    currentMessages (executeToolCall userId c st) = currentMessages st ++ [m]
    /\ promised_tool_message userId (mtc_id c) (fn_name (mtc_function c))
         (JSON_parse (fn_arguments (mtc_function c))) (world st) m.
Proof.
  unfold executeToolCall, promised_tool_message.
  destruct (find_tool (fn_name (mtc_function c))) as [tool|].
  - destruct (JSON_parse (fn_arguments (mtc_function c))) as [args|e].
    + destruct (handler tool args (authInfo userId) (world st))
        as [[result|e] w]; eexists; state_simpl;
        rewrite ?(proj1 (proj2 (capture_frame _ _))); state_simpl;
        (split; [reflexivity|]); state_simpl;
        repeat split; apply parse_stringify_error_object.
    + eexists; (split; [reflexivity|]); state_simpl; repeat split.
      apply parse_stringify_error_object.
  - eexists; (split; [reflexivity|]); state_simpl; repeat split.
    apply parse_stringify_error_object.
Qed.

Lemma executeToolCallStreaming_one_message userId c st :
  exists m,
    currentMessages (executeToolCallStreaming userId c st)
    = currentMessages st ++ [m]
    /\ promised_tool_message userId (tc_id c) (tc_name c)
         (parse_streamed (tc_arguments c)) (world st) m.
Proof.
  unfold executeToolCallStreaming, promised_tool_message.
  destruct (find_tool (tc_name c)) as [tool|].
  - destruct (parse_streamed (tc_arguments c)) as [args|e].
    + destruct (handler tool args (authInfo userId) (world st))
        as [[result|e] w]; eexists; state_simpl;
        rewrite ?(proj1 (proj2 (capture_frame _ _))); state_simpl;
        (split; [reflexivity|]); state_simpl;
        repeat split; apply parse_stringify_error_object.
    + eexists; (split; [reflexivity|]); state_simpl; repeat split.
      apply parse_stringify_error_object.
  - eexists; (split; [reflexivity|]); state_simpl; repeat split.
    apply parse_stringify_error_object.
Qed.

(** *** A batch of tool calls *)

Lemma executeToolCall_batch userId calls st :
  exists ms,
    currentMessages (fold_left (fun st c => executeToolCall userId c st) calls st)
    = currentMessages st ++ ms
    /\ answers (map mtc_id calls) ms.
Proof.
  revert st. induction calls as [|c calls IH]; intros st; cbn [fold_left map].
  - exists []. split; [now rewrite app_nil_r | constructor].
  - destruct (executeToolCall_one_message userId c st) as (m & Hm & Hrole & Hid & _).
    destruct (IH (executeToolCall userId c st)) as (ms & Hms & Hall).
    exists (m :: ms). split.
    + rewrite Hms, Hm, <- app_assoc. reflexivity.
    + constructor; auto.
Qed.

Lemma executeToolCallStreaming_batch userId calls st :
  exists ms,
    currentMessages
      (fold_left (fun st c => executeToolCallStreaming userId c st) calls st)
    = currentMessages st ++ ms
    /\ answers (map tc_id calls) ms.
Proof.
  revert st. induction calls as [|c calls IH]; intros st; cbn [fold_left map].
  - exists []. split; [now rewrite app_nil_r | constructor].
  - destruct (executeToolCallStreaming_one_message userId c st)
      as (m & Hm & Hrole & Hid & _).
    destruct (IH (executeToolCallStreaming userId c st)) as (ms & Hms & Hall).
    exists (m :: ms). split.
    + rewrite Hms, Hm, <- app_assoc. reflexivity.
    + constructor; auto.
Qed.

(** A round with tool calls hands over to the next round, whatever the
    calls did. *)
Lemma completion_loop_continues userId remaining st response w message tc tcs :
  chat_completions_create openai (currentMessages st) (world st)
  = (Return response, w) ->
  head (choices response) = Some message ->
  cm_tool_calls message = Some (tc :: tcs) ->
  completion_loop userId (S remaining) st
  = completion_loop userId remaining
      (fold_left (fun st c => executeToolCall userId c st)
         (functionToolCalls (tc :: tcs))
         (push (assistant_message (or_empty (cm_content message))
                  (functionToolCalls (tc :: tcs)))
            (with_world w (next_iteration st)))).
Proof.
  intros Hc Hm Ht. cbn [completion_loop]. state_simpl.
  rewrite Hc, Hm, Ht. reflexivity.
Qed.

Lemma stream_loop_continues userId provider remaining st stream w rs out :
  chat_completions_stream provider (currentMessages st) (world st)
  = (Return stream, w) ->
  read_stream stream = (Return rs, out) ->
  hasToolCalls rs = true ->
  toolCalls rs <> [] ->
  stream_loop userId provider (S remaining) st
  = stream_loop userId provider remaining
      (fold_left (fun st c => executeToolCallStreaming userId c st)
         (toolCalls rs)
         (push (assistant_message (accumulatedContent rs)
                  (map to_message_call (toolCalls rs)))
            (yield (tool_call_chunk (toolCalls rs))
               (yield_all out (with_world w (next_iteration st)))))).
Proof.
  intros Hc Hr Hh Ht. cbn [stream_loop]. state_simpl.
  rewrite Hc, Hr, Hh.
  destruct (toolCalls rs); [congruence|]. reflexivity.
Qed.


(** *** Reassembly of streamed tool calls *)





(** *** Empty argument strings *)

(** [C10] A streamed tool call whose arguments are the empty string has
    its handler invoked with the empty object, and its tool message reports
    what the handler did; the completion driver hands the same string to
    [JSON.parse], whose rejection of it becomes the tool message, the
    handler not being invoked. *)
Theorem empty_arguments_streamed_as_empty_object userId id name tool st e :
  find_tool name = Some tool ->
  JSON_parse "" = Throw e ->
  executeToolCallStreaming userId
    {| tc_id := id; tc_name := name; tc_arguments := "" |} st
  = (let '(result, w) := handler tool (Obj []) (authInfo userId) (world st) in
     match result with
     | Return result =>
         push (tool_message (resultText result) id name)
           (yield (tool_result_chunk (resultText result))
              (capture result (with_world w st)))
     | Throw e' =>
         push (tool_message (error_content e') id name)
           (yield (tool_result_chunk (error_content e')) (with_world w st))
     end)
  /\ executeToolCall userId
       {| mtc_id := id;
          mtc_function := {| fn_name := name; fn_arguments := "" |} |} st
     = push (tool_message (error_content e) id name) st
  /\ JSON.parse "" = Throw (Error "Unexpected end of JSON input").
Proof.
  intros Htool Hparse. split; [|split; [|reflexivity]].
  - unfold executeToolCallStreaming.
    cbn [tc_name tc_id tc_arguments parse_streamed]. rewrite Htool.
    destruct (handler tool (Obj []) (authInfo userId) (world st))
      as [[result|e'] w]; reflexivity.
  - unfold executeToolCall.
    cbn [mtc_id mtc_function fn_name fn_arguments]. now rewrite Htool, Hparse.
Qed.

(** *** The sticky fields *)

Lemma capture_sticky result st :
  finalMeta (capture result st)
  = match finalMeta st with Some m => Some m | None => tr_meta result end
  /\ finalStructuredContent (capture result st)
     = match finalStructuredContent st with
       | Some sc => Some sc
       | None => tr_structuredContent result
       end
  /\ finalWidgetId (capture result st)
     = match finalMeta st, tr_meta result with
       | None, Some meta =>
           match widget_path meta with
           | Some p => Some p
           | None => finalWidgetId st
           end
       | _, _ => finalWidgetId st
       end.
Proof.
  unfold capture, widget_path.
  destruct (tr_meta result) as [meta|], (finalMeta st) as [m|] eqn:Hm,
    (tr_structuredContent result) as [sc|];
    cbn; destruct (finalStructuredContent st) eqn:Hs; cbn;
    repeat split; try assumption; try reflexivity;
    match goal with
    | |- context [JS.get ?o "path"] =>
        destruct (JS.get o "path") as [[| | |[|c p]| |]|]
    end; reflexivity.
Qed.

Lemma sticks_refl st : sticks st st.
Proof. split; intros; auto. Qed.

Lemma sticks_trans st1 st2 st3 : sticks st1 st2 -> sticks st2 st3 -> sticks st1 st3.
Proof.
  intros [Hm12 Hs12] [Hm23 Hs23]. split.
  - intros m Hm. destruct (Hm12 m Hm) as [Hm2 Hw2].
    destruct (Hm23 m Hm2) as [Hm3 Hw3]. split; congruence.
  - intros sc Hsc. auto.
Qed.

Lemma sticks_capture result st : sticks st (capture result st).
Proof.
  destruct (capture_sticky result st) as (Hm & Hs & Hw). split.
  - intros m Hst. rewrite Hm, Hw, Hst. auto.
  - intros sc Hst. now rewrite Hs, Hst.
Qed.

Lemma sticks_same st st' :
  finalMeta st' = finalMeta st ->
  finalStructuredContent st' = finalStructuredContent st ->
  finalWidgetId st' = finalWidgetId st ->
  sticks st st'.
Proof. intros Hm Hs Hw. split; intros; rewrite ?Hm, ?Hs, ?Hw; auto. Qed.

Ltac tool_call_cases :=
  let tool := fresh "tool" in
  let args := fresh "args" in
  let result := fresh "result" in
  let e := fresh "e" in
  let w := fresh "w" in
  match goal with
  | |- context [find_tool ?n] => destruct (find_tool n) as [tool|]
  end;
  [ match goal with
    | |- context [JSON_parse ?a] => destruct (JSON_parse a) as [args|e]
    | |- context [parse_streamed ?a] => destruct (parse_streamed a) as [args|e]
    end;
    [ match goal with
      | |- context [handler ?t ?a ?i ?w0] =>
          destruct (handler t a i w0) as [[result|e] w]
      end | ] | ].

Lemma executeToolCall_frame userId c st :
  iteration (executeToolCall userId c st) = iteration st
  /\ yielded (executeToolCall userId c st) = yielded st
  /\ sticks st (executeToolCall userId c st).
Proof.
  unfold executeToolCall. tool_call_cases; state_simpl;
    rewrite ?(proj1 (capture_frame _ _)),
      ?(proj1 (proj2 (proj2 (capture_frame _ _))));
    (split; [reflexivity|split; [reflexivity|]]);
    try apply sticks_refl; try (apply sticks_same; reflexivity).
  apply (sticks_trans st (with_world w st));
    [apply sticks_same; reflexivity | apply sticks_capture].
Qed.

Lemma executeToolCallStreaming_frame userId c st :
  iteration (executeToolCallStreaming userId c st) = iteration st
  /\ sticks st (executeToolCallStreaming userId c st)
  /\ exists out,
       yielded (executeToolCallStreaming userId c st) = yielded st ++ out
       /\ tool_chunks out.
Proof.
  unfold executeToolCallStreaming.
  tool_call_cases; state_simpl;
    rewrite ?(proj1 (capture_frame _ _)),
      ?(proj1 (proj2 (proj2 (capture_frame _ _))));
    (split; [reflexivity|split]);
    try (eexists; split; reflexivity);
    try (exists []; split; [now rewrite app_nil_r | reflexivity]);
    try apply sticks_refl; try (apply sticks_same; reflexivity).
  apply (sticks_trans st (with_world w st));
    [apply sticks_same; reflexivity | ].
  apply (sticks_trans _ (capture result (with_world w st)));
    [apply sticks_capture | apply sticks_same; reflexivity].
Qed.

Lemma executeToolCall_batch_frame userId calls st :
  let st' := fold_left (fun st c => executeToolCall userId c st) calls st in
  iteration st' = iteration st /\ yielded st' = yielded st /\ sticks st st'.
Proof.
  revert st. induction calls as [|c calls IH]; intros st; cbn [fold_left].
  - split; [|split]; auto using sticks_refl.
  - destruct (executeToolCall_frame userId c st) as (Hi & Hy & Hs).
    destruct (IH (executeToolCall userId c st)) as (Hi' & Hy' & Hs').
    cbn zeta in *. rewrite Hi', Hy', Hi, Hy.
    split; [|split]; auto. eapply sticks_trans; eassumption.
Qed.

Lemma tool_chunks_app out out' :
  tool_chunks out -> tool_chunks out' -> tool_chunks (out ++ out').
Proof. unfold tool_chunks. intros H H'. now rewrite forallb_app, H, H'. Qed.

Lemma executeToolCallStreaming_batch_frame userId calls st :
  let st' :=
    fold_left (fun st c => executeToolCallStreaming userId c st) calls st in
  iteration st' = iteration st /\ sticks st st'
  /\ exists out, yielded st' = yielded st ++ out /\ tool_chunks out.
Proof.
  revert st. induction calls as [|c calls IH]; intros st; cbn [fold_left].
  - split; [|split]; auto using sticks_refl.
    exists []. split; [now rewrite app_nil_r | reflexivity].
  - destruct (executeToolCallStreaming_frame userId c st)
      as (Hi & Hs & out & Hy & Hout).
    destruct (IH (executeToolCallStreaming userId c st))
      as (Hi' & Hs' & out' & Hy' & Hout').
    cbn zeta in *. rewrite Hi', Hi. split; [reflexivity|]. split.
    + eapply sticks_trans; eassumption.
    + exists (out ++ out'). split; [|now apply tool_chunks_app].
      now rewrite Hy', Hy, <- app_assoc.
Qed.

(** *** Reading a stream *)

Lemma content_of_app out out' :
  content_of (out ++ out') = content_of out +:+ content_of out'.
Proof.
  induction out as [|ch out IH]; [reflexivity|].
  destruct ch; cbn [app content_of]; rewrite IH;
    rewrite ?string_app_assoc; reflexivity.
Qed.

Lemma process_chunk_out chunk rs r out :
  process_chunk chunk rs = (r, out) ->
  forallb is_content out = true
  /\ forall rs', r = Return rs' ->
                 accumulatedContent rs' = accumulatedContent rs +:+ content_of out.
Proof.
  unfold process_chunk.
  destruct (chunk_choices chunk) as [[|choice ?]|].
  2:{ destruct (match delta_tool_calls choice with
                | Some (d :: ds) =>
                    match merge_deltas (toolCalls rs) (d :: ds) with
                    | Throw e => Throw e
                    | Return calls => Return (calls, true)
                    end
                | _ => Return (toolCalls rs, _)
                end) as [[calls has]|e].
      - destruct (truthy (delta_content choice)) as [c|];
          intros [= <- <-]; (split; [reflexivity|]); intros rs' [= <-];
          cbn; now rewrite ?string_app_nil_r.
      - intros [= <- <-]. split; [reflexivity|]. discriminate. }
  all: intros [= <- <-]; (split; [reflexivity|]); intros rs' [= <-];
    cbn; now rewrite string_app_nil_r.
Qed.

Lemma process_events_out evs rs r out :
  process_events evs rs = (r, out) ->
  forallb is_content out = true
  /\ forall rs', r = Return rs' ->
                 accumulatedContent rs' = accumulatedContent rs +:+ content_of out.
Proof.
  revert rs r out. induction evs as [|chunk evs IH]; intros rs r out;
    cbn [process_events].
  - intros [= <- <-]. split; [reflexivity|]. intros rs' [= <-].
    cbn. now rewrite string_app_nil_r.
  - destruct (process_chunk chunk rs) as [[rs1|e] out1] eqn:H1.
    + destruct (process_events evs rs1) as [r2 out2] eqn:H2.
      intros [= <- <-].
      destruct (process_chunk_out _ _ _ _ H1) as [Hc1 Ha1].
      destruct (IH _ _ _ H2) as [Hc2 Ha2].
      split; [now rewrite forallb_app, Hc1, Hc2|].
      intros rs' ->. rewrite (Ha2 rs' eq_refl), (Ha1 rs1 eq_refl).
      now rewrite content_of_app, string_app_assoc.
    + intros [= <- <-].
      destruct (process_chunk_out _ _ _ _ H1) as [Hc1 _].
      split; [assumption | discriminate].
Qed.

(** The chunks yielded while a stream is read are [content] chunks, and
    their texts make up [accumulatedContent]. *)
Lemma read_stream_out stream r out :
  read_stream stream = (r, out) ->
  forallb is_content out = true
  /\ forall rs, r = Return rs -> accumulatedContent rs = content_of out.
Proof.
  unfold read_stream.
  destruct (process_events (events stream) round_start) as [[rs1|e] out1] eqn:H.
  - destruct (process_events_out _ _ _ _ H) as [Hc Ha].
    destruct (failure stream); intros [= <- <-]; (split; [assumption|]).
    + discriminate.
    + intros rs [= <-]. now rewrite (Ha rs1 eq_refl).
  - destruct (process_events_out _ _ _ _ H) as [Hc _].
    intros [= <- <-]. split; [assumption | discriminate].
Qed.

(** *** The loops *)

Lemma body_chunks_app out out' :
  body_chunks out -> body_chunks out' -> body_chunks (out ++ out').
Proof. unfold body_chunks. intros H H'. now rewrite forallb_app, H, H'. Qed.

Lemma body_chunks_content out : forallb is_content out = true -> body_chunks out.
Proof.
  unfold body_chunks. induction out as [|ch out IH]; [reflexivity|].
  cbn [forallb]. intros [Hch Hout]%andb_true_iff.
  rewrite (IH Hout). now destruct ch.
Qed.

Lemma body_chunks_tool out : tool_chunks out -> body_chunks out.
Proof.
  unfold body_chunks, tool_chunks. induction out as [|ch out IH]; [reflexivity|].
  cbn [forallb]. intros [Hch Hout]%andb_true_iff.
  rewrite (IH Hout). now destruct ch.
Qed.

Lemma completion_loop_frame userId remaining st r st' :
  completion_loop userId remaining st = (r, st') ->
  iteration st' <= iteration st + remaining
  /\ yielded st' = yielded st
  /\ sticks st st'
  /\ forall res, r = Return res ->
       res_meta res = finalMeta st'
       /\ res_structuredContent res = finalStructuredContent st'
       /\ res_widgetId res = finalWidgetId st'.
Proof.
  revert st r st'. induction remaining as [|remaining IH]; intros st r st';
    cbn [completion_loop]; state_simpl.
  - intros [= <- <-]. split; [lia|]. split; [reflexivity|].
    split; [apply sticks_refl | discriminate].
  - destruct (chat_completions_create openai (currentMessages st) (world st))
      as [[response|e] w].
    2:{ intros [= <- <-]. state_simpl. split; [lia|]. split; [reflexivity|].
        split; [apply sticks_same; reflexivity | discriminate]. }
    destruct (head (choices response)) as [message|].
    2:{ intros [= <- <-]. state_simpl. split; [lia|]. split; [reflexivity|].
        split; [apply sticks_same; reflexivity | discriminate]. }
    destruct (cm_tool_calls message) as [[|tc tcs]|].
    1,3: intros [= <- <-]; state_simpl; (split; [lia|]);
      (split; [reflexivity|]); (split; [apply sticks_same; reflexivity|]);
      intros res [= <-]; auto.
    intros Hloop. apply IH in Hloop. destruct Hloop as (Hi & Hy & Hs & Hr).
    match type of Hi with
    | context [fold_left ?f ?calls ?st0] =>
        destruct (executeToolCall_batch_frame userId calls st0)
          as (Hi0 & Hy0 & Hs0)
    end.
    cbn zeta in Hi0, Hy0, Hs0. rewrite Hi0 in Hi. rewrite Hy0 in Hy.
    state_simpl. split; [lia|]. split; [assumption|]. split; [|assumption].
    eapply sticks_trans; [|eassumption].
    eapply sticks_trans; [|eassumption]. apply sticks_same; reflexivity.
Qed.

Lemma stream_loop_frame userId provider remaining st r st' :
  stream_loop userId provider remaining st = (r, st') ->
  iteration st' <= iteration st + remaining
  /\ sticks st st'
  /\ exists body,
       yielded st' = yielded st ++ body ++ closing r st'
       /\ body_chunks body.
Proof.
  revert st r st'. induction remaining as [|remaining IH]; intros st r st';
    cbn [stream_loop]; state_simpl.
  - intros [= <- <-]. split; [lia|]. split; [apply sticks_refl|].
    exists []. cbn. now rewrite app_nil_r.
  - destruct (chat_completions_stream provider (currentMessages st) (world st))
      as [[stream|e] w].
    2:{ intros [= <- <-]. state_simpl. split; [lia|].
        split; [apply sticks_same; reflexivity|].
        exists []. cbn. now rewrite app_nil_r. }
    destruct (read_stream stream) as [[rs|e] out] eqn:Hread.
    2:{ intros [= <- <-]. state_simpl. split; [lia|].
        split; [apply sticks_same; reflexivity|].
        exists out. cbn [closing]. rewrite app_nil_r. split; [reflexivity|].
        apply body_chunks_content. eapply read_stream_out; eassumption. }
    pose proof (proj1 (read_stream_out _ _ _ Hread)) as Hcontent.
    destruct (hasToolCalls rs && (0 <? length (toolCalls rs))%nat).
    + intros Hloop. apply IH in Hloop.
      destruct Hloop as (Hi & Hs & body & Hy & Hbody).
      match type of Hi with
      | context [fold_left ?f ?calls ?st0] =>
          destruct (executeToolCallStreaming_batch_frame userId calls st0)
            as (Hi0 & Hs0 & out0 & Hy0 & Hout0)
      end.
      cbn zeta in Hi0, Hs0, Hy0. rewrite Hi0 in Hi. rewrite Hy0 in Hy.
      state_simpl. split; [lia|]. split.
      * eapply sticks_trans; [|eassumption].
        eapply sticks_trans; [|eassumption]. apply sticks_same; reflexivity.
      * exists (out ++ [tool_call_chunk (toolCalls rs)] ++ out0 ++ body).
        split; [rewrite Hy, <- !app_assoc; reflexivity|].
        apply body_chunks_app; [now apply body_chunks_content|].
        apply body_chunks_app; [reflexivity|].
        apply body_chunks_app; [now apply body_chunks_tool | assumption].
    + destruct (has_metadata (yield_all out (with_world w (next_iteration st))))
        eqn:Hmd; intros [= <- <-]; unfold yield; state_simpl;
        (split; [lia|]); (split; [apply sticks_same; reflexivity|]);
        exists out; (split; [|now apply body_chunks_content]);
        cbn [closing]; unfold has_metadata in *; state_simpl; rewrite Hmd;
        rewrite <- !app_assoc; reflexivity.
Qed.

(** *** The iteration cap *)

Lemma completion_loop_exhausts userId :
  (forall msgs w0, exists response w1 message tc tcs,
      chat_completions_create openai msgs w0 = (Return response, w1)
      /\ head (choices response) = Some message
      /\ cm_tool_calls message = Some (tc :: tcs)) ->
  forall remaining st, exists st',
    completion_loop userId remaining st
    = (Throw (Error "Maximum tool call iterations exceeded"), st')
    /\ iteration st' = iteration st + remaining.
Proof.
  intros Hllm. induction remaining as [|remaining IH]; intros st.
  - exists st. split; [reflexivity | lia].
  - destruct (Hllm (currentMessages st) (world st))
      as (response & w1 & message & tc & tcs & Hc & Hm & Ht).
    rewrite (completion_loop_continues _ _ _ _ _ _ _ _ Hc Hm Ht).
    match goal with
    | |- context [fold_left ?f ?calls ?st0] =>
        destruct (executeToolCall_batch_frame userId calls st0) as (Hi0 & _);
        destruct (IH (fold_left f calls st0)) as (st' & Hloop & Hi)
    end.
    exists st'. split; [assumption|].
    cbn zeta in Hi0. rewrite Hi, Hi0. state_simpl. lia.
Qed.

Lemma stream_loop_exhausts userId provider :
  (forall msgs w0, exists stream w1 rs out,
      chat_completions_stream provider msgs w0 = (Return stream, w1)
      /\ read_stream stream = (Return rs, out)
      /\ hasToolCalls rs = true
      /\ toolCalls rs <> []) ->
  forall remaining st, exists st',
    stream_loop userId provider remaining st
    = (Throw (Error "Maximum tool call iterations exceeded"), st')
    /\ iteration st' = iteration st + remaining.
Proof.
  intros Hllm. induction remaining as [|remaining IH]; intros st.
  - exists st. split; [reflexivity | lia].
  - destruct (Hllm (currentMessages st) (world st))
      as (stream & w1 & rs & out & Hc & Hr & Hh & Ht).
    rewrite (stream_loop_continues _ _ _ _ _ _ _ _ Hc Hr Hh Ht).
    match goal with
    | |- context [fold_left ?f ?calls ?st0] =>
        destruct (executeToolCallStreaming_batch_frame userId calls st0)
          as (Hi0 & _);
        destruct (IH (fold_left f calls st0)) as (st' & Hloop & Hi)
    end.
    exists st'. split; [assumption|].
    cbn zeta in Hi0. rewrite Hi, Hi0. unfold yield. state_simpl. lia.
Qed.

Lemma body_chunks_not_done body :
  body_chunks body -> forallb (fun ch => negb (is_done ch)) body = true.
Proof.
  unfold body_chunks. induction body as [|ch body IH]; [reflexivity|].
  cbn [forallb]. intros [Hch Hb]%andb_true_iff. rewrite (IH Hb).
  now destruct ch.
Qed.

(** [C2] A run makes at most 10 rounds.  With a provider that answers
    every request with a tool call, either driver throws its
    [Maximum tool call iterations exceeded] error when [iteration] is
    exactly 10; nothing is returned, and the generator has yielded no [done]
    chunk. *)
Theorem iteration_cap_is_ten messages userId provider w :
  iteration (snd (getChatCompletion messages userId w)) <= 10
  /\ iteration (snd (streamChatCompletion messages userId provider w)) <= 10
  /\ ((forall msgs w0, exists response w1 message tc tcs,
          chat_completions_create openai msgs w0 = (Return response, w1)
          /\ head (choices response) = Some message
          /\ cm_tool_calls message = Some (tc :: tcs)) ->
      exists st,
        getChatCompletion messages userId w
        = (Throw (Error
             "Failed to get chat completion: Maximum tool call iterations exceeded"),
           st)
        /\ iteration st = 10)
  /\ ((forall msgs w0, exists stream w1 rs out,
          chat_completions_stream provider msgs w0 = (Return stream, w1)
          /\ read_stream stream = (Return rs, out)
          /\ hasToolCalls rs = true
          /\ toolCalls rs <> []) ->
      exists st,
        streamChatCompletion messages userId provider w
        = (Throw (Error
             "Failed to stream chat completion: Maximum tool call iterations exceeded"),
           st)
        /\ iteration st = 10
        /\ forallb (fun ch => negb (is_done ch)) (yielded st) = true).
Proof.
  unfold getChatCompletion, streamChatCompletion.
  destruct (completion_loop userId maxIterations (initial messages w))
    as [r st] eqn:Hc.
  destruct (stream_loop userId provider maxIterations (initial messages w))
    as [r' st'] eqn:Hs.
  cbn [snd].
  pose proof (completion_loop_frame _ _ _ _ _ Hc) as (Hi & _).
  pose proof (stream_loop_frame _ _ _ _ _ _ Hs) as (Hi' & _ & body & Hy & Hb).
  cbn in Hi, Hi', Hy.
  split; [assumption|]. split; [assumption|]. split.
  - intros Hllm.
    destruct (completion_loop_exhausts userId Hllm maxIterations
                (initial messages w)) as (st1 & Hloop & Hit).
    rewrite Hc in Hloop. injection Hloop as -> ->.
    exists st1. split; [reflexivity | exact Hit].
  - intros Hllm.
    destruct (stream_loop_exhausts userId provider Hllm maxIterations
                (initial messages w)) as (st1 & Hloop & Hit).
    rewrite Hs in Hloop. injection Hloop as -> ->.
    exists st1. split; [reflexivity|]. split; [exact Hit|].
    rewrite Hy. cbn [closing]. rewrite app_nil_r.
    now apply body_chunks_not_done.
Qed.

(** *** A round without tool calls *)


(** *** First capture wins *)




(** *** The session wrapper *)

Lemma keep_after_marker_from acc rows :
  forallb (fun r => negb (has_marker r)) rows = true ->
  fold_left
    (fun previousMessages msg =>
       (if includes (row_content msg) marker then [] else previousMessages)
       ++ [msg]) rows acc
  = acc ++ rows.
Proof.
  revert acc. induction rows as [|r rows IH]; intros acc; cbn [forallb fold_left].
  - now rewrite app_nil_r.
  - intros [Hr Hrows]%andb_true_iff. rewrite (IH _ Hrows).
    unfold has_marker in Hr. apply negb_true_iff in Hr. rewrite Hr.
    now rewrite <- app_assoc.
Qed.

Lemma keep_after_marker_none rows :
  forallb (fun r => negb (has_marker r)) rows = true ->
  keep_after_marker rows = rows.
Proof. intros H. unfold keep_after_marker. now rewrite keep_after_marker_from. Qed.

Lemma keep_after_marker_last pre m post :
  has_marker m = true ->
  forallb (fun r => negb (has_marker r)) post = true ->
  keep_after_marker (pre ++ m :: post) = m :: post.
Proof.
  intros Hm Hpost. unfold keep_after_marker.
  rewrite fold_left_app. cbn [fold_left].
  unfold has_marker in Hm. rewrite Hm.
  now rewrite keep_after_marker_from.
Qed.

(** Touching a session changes its timestamp and nothing else. *)
Lemma touch_session_keeps sessionId db :
  devMessage (touch_session sessionId db) = devMessage db
  /\ map (fun s => (ses_id s, ses_name s, ses_user_id s))
       (devSession (touch_session sessionId db))
     = map (fun s => (ses_id s, ses_name s, ses_user_id s)) (devSession db)
  /\ drawn (touch_session sessionId db) = drawn db.
Proof.
  split; [reflexivity|]. split; [|reflexivity].
  cbn [touch_session devSession]. rewrite map_map. apply map_ext.
  intros s. now destruct (String.eqb (ses_id s) sessionId).
Qed.

Lemma load_user_message_returns userId messageId db ctx db1 :
  load_user_message userId messageId db = (Return ctx, db1) ->
  db1 = touch_session (sessionId ctx) db
  /\ devMessage db1 = devMessage db
  /\ previousMessages ctx = keep_after_marker (session_rows userId ctx db).
Proof.
  unfold load_user_message, session_rows.
  destruct (List.find _ (devMessage db)) as [msg|]; [|discriminate].
  destruct (List.find _ (devSession db)) as [ses|]; [|discriminate].
  intros [= <- <-]. cbn. auto.
Qed.

(** [C9] (amended) The history handed to the streaming driver starts at
    the last stored message whose content contains the marker, that message
    included, and runs to the end in order; when no message contains the
    marker it is the whole ordered history. *)
Theorem history_restarts_at_last_marker userId messageId db w ctx db1 :
  load_user_message userId messageId db = (Return ctx, db1) ->
  (forallb (fun r => negb (has_marker r)) (session_rows userId ctx db) = true ->
   chatMessages ctx = map to_chat (session_rows userId ctx db))
  /\ (forall pre m post,
        session_rows userId ctx db = pre ++ m :: post ->
        has_marker m = true ->
        forallb (fun r => negb (has_marker r)) post = true ->
        chatMessages ctx = map to_chat (m :: post))
  /\ fst (fst (fst (streamUserMessageById userId messageId db w)))
     = fst (streamChatCompletion (chatMessages ctx) userId grok w).
Proof.
  intros Hload.
  destruct (load_user_message_returns _ _ _ _ _ Hload) as (_ & _ & Hprev).
  unfold chatMessages. rewrite Hprev. split; [|split].
  - intros Hnone. now rewrite keep_after_marker_none.
  - intros pre m post -> Hm Hpost. now rewrite keep_after_marker_last.
  - unfold streamUserMessageById. rewrite Hload.
    unfold chatMessages. rewrite Hprev.
    now destruct (streamChatCompletion _ userId grok w).
Qed.

(** Forwarding chunks that are neither [metadata] nor [done]. *)
Lemma forward_body userId ctx body ws :
  body_chunks body ->
  fold_left (fun ws chunk => forward_chunk userId ctx chunk ws) body ws
  = {| w_accumulatedContent := w_accumulatedContent ws +:+ content_of body;
       w_finalMeta := w_finalMeta ws;
       w_finalStructuredContent := w_finalStructuredContent ws;
       w_finalWidgetId := w_finalWidgetId ws;
       w_yielded := w_yielded ws ++ body;
       w_db := w_db ws; w_world := w_world ws |}.
Proof.
  unfold body_chunks. revert ws.
  induction body as [|ch body IH]; intros ws; cbn [fold_left forallb content_of].
  - intros _. rewrite string_app_nil_r, app_nil_r. now destruct ws.
  - intros [Hch Hbody]%andb_true_iff. rewrite (IH _ Hbody).
    destruct ch; try discriminate Hch;
      cbn [forward_chunk w_accumulatedContent w_finalMeta
           w_finalStructuredContent w_finalWidgetId w_yielded w_db w_world
           content_of];
      rewrite ?string_app_assoc, <- ?app_assoc; reflexivity.
Qed.

Lemma content_of_body_closing body r st :
  content_of (body ++ closing r st) = content_of body.
Proof.
  rewrite content_of_app. unfold closing.
  destruct r; [destruct (has_metadata st)|]; cbn; apply string_app_nil_r.
Qed.


Lemma generate_session_name_messages userId ctx content db w :
  devMessage (fst (generate_session_name userId ctx content db w))
  = devMessage db.
Proof.
  unfold generate_session_name.
  destruct ((length (previousMessages ctx) =? 3)%nat
            && String.eqb (ses_name (session ctx)) "New conversation");
    [|reflexivity].
  destruct (getChatCompletion _ userId w) as [[res|e] st]; [|reflexivity].
  destruct (trim (res_content res)); reflexivity.
Qed.

Lemma has_metadata_false st :
  has_metadata st = false ->
  finalMeta st = None /\ finalStructuredContent st = None
  /\ truthy (finalWidgetId st) = None.
Proof.
  unfold has_metadata.
  destruct (finalMeta st), (finalStructuredContent st),
    (truthy (finalWidgetId st)); intros; try discriminate; auto.
Qed.


Lemma rethrow_throws {A} prefix (r : Outcome A) e :
  rethrow prefix r = Throw e ->
  exists e0, r = Throw e0 /\ e = Error (prefix +:+ message_of e0).
Proof. destruct r as [a|e0]; [discriminate|]. intros [= <-]. eauto. Qed.

(** A failure of the transport, when the stream is opened or while it is
    read, ends the streaming run with an error. *)
Lemma transport_failure_is_fatal messages userId provider w :
  (forall e w1,
      chat_completions_stream provider messages w = (Throw e, w1) ->
      exists st,
        streamChatCompletion messages userId provider w
        = (Throw (Error ("Failed to stream chat completion: " +:+ message_of e)),
           st))
  /\ (forall stream w1 e,
      chat_completions_stream provider messages w = (Return stream, w1) ->
      fst (read_stream stream) = Throw e ->
      exists st,
        streamChatCompletion messages userId provider w
        = (Throw (Error ("Failed to stream chat completion: " +:+ message_of e)),
           st)).
Proof.
  unfold streamChatCompletion, maxIterations. cbn [stream_loop]. state_simpl.
  split.
  - intros e w1 ->. eexists. reflexivity.
  - intros stream w1 e -> Hr.
    destruct (read_stream stream) as [[rs|e'] out]; cbn in Hr; [discriminate|].
    injection Hr as ->. eexists. reflexivity.
Qed.

(** [C8] When the streaming run of a stored user message fails (the
    iteration cap, or a failure of the provider's transport), the wrapper
    writes no message: the messages are those stored before and the
    sessions keep their names, the database being the one the first
    transaction left, whose only write is the timestamp of the session, made
    before the stream is opened.  The error reaches the subscription, which
    forwards the chunks yielded so far, none of them [done], and ends with
    an error event. *)
Theorem fatal_failure_persists_nothing userId messageId db w ctx db1 :
  load_user_message userId messageId db = (Return ctx, db1) ->
  (forall e st,
      streamChatCompletion (chatMessages ctx) userId grok w = (Throw e, st) ->
      streamUserMessageById userId messageId db w
      = (Throw e, yielded st, db1, world st)
      /\ db1 = touch_session (sessionId ctx) db
      /\ devMessage db1 = devMessage db
      /\ map (fun s => (ses_id s, ses_name s, ses_user_id s)) (devSession db1)
         = map (fun s => (ses_id s, ses_name s, ses_user_id s)) (devSession db)
      /\ forallb (fun ch => negb (is_done ch)) (yielded st) = true
      /\ streamMessage userId messageId db w
         = (map emit_next (yielded st) ++ [emit_error e], db1, world st))
  /\ (forall e w1,
      chat_completions_stream grok (chatMessages ctx) w = (Throw e, w1) ->
      exists st,
        streamChatCompletion (chatMessages ctx) userId grok w
        = (Throw (Error ("Failed to stream chat completion: " +:+ message_of e)),
           st))
  /\ (forall stream w1 e,
      chat_completions_stream grok (chatMessages ctx) w = (Return stream, w1) ->
      fst (read_stream stream) = Throw e ->
      exists st,
        streamChatCompletion (chatMessages ctx) userId grok w
        = (Throw (Error ("Failed to stream chat completion: " +:+ message_of e)),
           st))
  /\ ((forall msgs w0, exists stream w1 rs out,
          chat_completions_stream grok msgs w0 = (Return stream, w1)
          /\ read_stream stream = (Return rs, out)
          /\ hasToolCalls rs = true
          /\ toolCalls rs <> []) ->
      exists st,
        streamChatCompletion (chatMessages ctx) userId grok w
        = (Throw (Error
             "Failed to stream chat completion: Maximum tool call iterations exceeded"),
           st)).
Proof.
  intros Hload.
  destruct (load_user_message_returns _ _ _ _ _ Hload) as (Hdb & Hmsgs & _).
  split; [|split; [|split]].
  - intros e st Hrun.
    assert (Hshape : body_chunks (yielded st) /\ exists m, e = Error m).
    { unfold streamChatCompletion in Hrun.
      destruct (stream_loop userId grok maxIterations
                  (initial (chatMessages ctx) w)) as [r st0] eqn:Hloop.
      injection Hrun as Hr ->.
      destruct (rethrow_throws _ _ _ Hr) as (e0 & -> & ->).
      destruct (stream_loop_frame _ _ _ _ _ _ Hloop) as (_ & _ & body & Hy & Hb).
      cbn [initial yielded app closing] in Hy. rewrite app_nil_r in Hy.
      rewrite Hy. eauto. }
    destruct Hshape as (Hbody & m & ->).
    assert (Hwrap : streamUserMessageById userId messageId db w
                    = (Throw (Error m), yielded st, db1, world st)).
    { unfold streamUserMessageById. rewrite Hload, Hrun.
      now rewrite (forward_body _ _ _ _ Hbody). }
    split; [exact Hwrap|]. split; [exact Hdb|]. split; [exact Hmsgs|].
    split; [rewrite Hdb; apply touch_session_keeps|].
    split; [now apply body_chunks_not_done|].
    unfold streamMessage. now rewrite Hwrap.
  - apply transport_failure_is_fatal.
  - apply transport_failure_is_fatal.
  - intros Hllm.
    destruct (stream_loop_exhausts userId grok Hllm maxIterations
                (initial (chatMessages ctx) w)) as (st & Hloop & _).
    unfold streamChatCompletion. rewrite Hloop. eexists. reflexivity.
Qed.

(** *** The two drivers side by side *)



Lemma content_of_tool_chunks out : tool_chunks out -> content_of out = "".
Proof.
  unfold tool_chunks. induction out as [|ch out IH]; [reflexivity|].
  cbn [forallb]. intros [Hch Hout]%andb_true_iff.
  destruct ch; try discriminate Hch; cbn [content_of]; auto.
Qed.





















(** ** The other operations of the chat service *)

(** *** The order of the queries *)

Lemma insert_by_created_at_perm r rows :
  Permutation (insert_by_created_at r rows) (r :: rows).
Proof.
  induction rows as [|r' rows IH]; cbn [insert_by_created_at].
  - reflexivity.
  - destruct (row_created_at r <=? row_created_at r')%nat.
    + reflexivity.
    + rewrite IH. apply perm_swap.
Qed.

Lemma orderBy_created_at_perm rows :
  Permutation (orderBy_created_at rows) rows.
Proof.
  unfold orderBy_created_at.
  induction rows as [|r rows IH]; cbn [fold_right].
  - reflexivity.
  - rewrite insert_by_created_at_perm. now constructor.
Qed.

Lemma ascending_insert r rows :
  ascending rows = true -> ascending (insert_by_created_at r rows) = true.
Proof.
  induction rows as [|r' rows IH]; cbn [insert_by_created_at ascending forallb].
  - reflexivity.
  - intros [Hall Hasc]%andb_prop.
    destruct (row_created_at r <=? row_created_at r')%nat eqn:Hle;
      cbn [ascending forallb].
    + rewrite Hle, Hall, Hasc, !andb_true_r. cbn [andb].
      apply forallb_forall. intros x Hx.
      rewrite forallb_forall in Hall. specialize (Hall x Hx).
      apply Nat.leb_le. apply Nat.leb_le in Hle, Hall. lia.
    + rewrite (IH Hasc), andb_true_r.
      apply forallb_forall. intros x Hx.
      apply (Permutation_in _ (insert_by_created_at_perm r rows)) in Hx.
      destruct Hx as [<-|Hx].
      * apply Nat.leb_le. apply Nat.leb_gt in Hle. lia.
      * rewrite forallb_forall in Hall. now apply Hall.
Qed.

Lemma orderBy_created_at_ascending rows :
  ascending (orderBy_created_at rows) = true.
Proof.
  unfold orderBy_created_at.
  induction rows as [|r rows IH]; cbn [fold_right].
  - reflexivity.
  - now apply ascending_insert.
Qed.

(** A new row that is no older than the rows of the table comes last. *)
Lemma insert_by_created_at_last r rows new :
  row_created_at r <= row_created_at new ->
  insert_by_created_at r (rows ++ [new])
  = insert_by_created_at r rows ++ [new].
Proof.
  intros Hnew.
  induction rows as [|r' rows IH]; cbn [insert_by_created_at app].
  - apply Nat.leb_le in Hnew. now rewrite Hnew.
  - destruct (row_created_at r <=? row_created_at r')%nat.
    + reflexivity.
    + now rewrite IH.
Qed.

Lemma orderBy_created_at_last rows new :
  forallb (fun r => (row_created_at r <=? row_created_at new)%nat) rows = true ->
  orderBy_created_at (rows ++ [new]) = orderBy_created_at rows ++ [new].
Proof.
  unfold orderBy_created_at.
  induction rows as [|r rows IH]; cbn [fold_right app forallb].
  - reflexivity.
  - intros [Hr Hall]%andb_prop. rewrite (IH Hall).
    apply insert_by_created_at_last. now apply Nat.leb_le.
Qed.

(** Filtering an ordered list and ordering a filtered list are the same. *)
Lemma insert_ascending_head r rows :
  forallb (fun r' => (row_created_at r <=? row_created_at r')%nat) rows = true ->
  insert_by_created_at r rows = r :: rows.
Proof.
  destruct rows as [|r' rows]; cbn [insert_by_created_at forallb].
  - reflexivity.
  - now intros [-> _]%andb_prop.
Qed.

Lemma filter_insert_by_created_at p r rows :
  ascending rows = true ->
  List.filter p (insert_by_created_at r rows)
  = if p r then insert_by_created_at r (List.filter p rows)
    else List.filter p rows.
Proof.
  induction rows as [|r' rows IH];
    cbn [insert_by_created_at List.filter ascending].
  - destruct (p r); reflexivity.
  - intros [Hall Hasc]%andb_prop.
    destruct (row_created_at r <=? row_created_at r')%nat eqn:Hle.
    + cbn [List.filter]. destruct (p r) eqn:Hr; [|reflexivity].
      symmetry. apply insert_ascending_head.
      destruct (p r'); cbn [forallb].
      * rewrite Hle. cbn [andb].
        apply forallb_forall. intros x [Hx _]%filter_In.
        rewrite forallb_forall in Hall. specialize (Hall x Hx).
        apply Nat.leb_le. apply Nat.leb_le in Hle, Hall. lia.
      * apply forallb_forall. intros x [Hx _]%filter_In.
        rewrite forallb_forall in Hall. specialize (Hall x Hx).
        apply Nat.leb_le. apply Nat.leb_le in Hle, Hall. lia.
    + cbn [List.filter]. rewrite (IH Hasc).
      destruct (p r'), (p r); cbn [insert_by_created_at]; try reflexivity.
      now rewrite Hle.
Qed.

Lemma filter_orderBy_created_at p rows :
  List.filter p (orderBy_created_at rows)
  = orderBy_created_at (List.filter p rows).
Proof.
  unfold orderBy_created_at.
  induction rows as [|r rows IH]; cbn [fold_right List.filter].
  - reflexivity.
  - rewrite filter_insert_by_created_at
      by apply orderBy_created_at_ascending.
    rewrite IH. destruct (p r); reflexivity.
Qed.

Lemma insert_by_updated_at_perm s rows :
  Permutation (insert_by_updated_at s rows) (s :: rows).
Proof.
  induction rows as [|s' rows IH]; cbn [insert_by_updated_at].
  - reflexivity.
  - destruct (ses_updated_at s' <=? ses_updated_at s)%nat.
    + reflexivity.
    + rewrite IH. apply perm_swap.
Qed.

Lemma orderBy_desc_updated_at_perm rows :
  Permutation (orderBy_desc_updated_at rows) rows.
Proof.
  unfold orderBy_desc_updated_at.
  induction rows as [|s rows IH]; cbn [fold_right].
  - reflexivity.
  - rewrite insert_by_updated_at_perm. now constructor.
Qed.

Lemma descending_insert s rows :
  descending rows = true -> descending (insert_by_updated_at s rows) = true.
Proof.
  induction rows as [|s' rows IH]; cbn [insert_by_updated_at descending forallb].
  - reflexivity.
  - intros [Hall Hdesc]%andb_prop.
    destruct (ses_updated_at s' <=? ses_updated_at s)%nat eqn:Hle;
      cbn [descending forallb].
    + rewrite Hle, Hall, Hdesc, !andb_true_r. cbn [andb].
      apply forallb_forall. intros x Hx.
      rewrite forallb_forall in Hall. specialize (Hall x Hx).
      apply Nat.leb_le. apply Nat.leb_le in Hle, Hall. lia.
    + rewrite (IH Hdesc), andb_true_r.
      apply forallb_forall. intros x Hx.
      apply (Permutation_in _ (insert_by_updated_at_perm s rows)) in Hx.
      destruct Hx as [<-|Hx].
      * apply Nat.leb_le. apply Nat.leb_gt in Hle. lia.
      * rewrite forallb_forall in Hall. now apply Hall.
Qed.

Lemma orderBy_desc_updated_at_descending rows :
  descending (orderBy_desc_updated_at rows) = true.
Proof.
  unfold orderBy_desc_updated_at.
  induction rows as [|s rows IH]; cbn [fold_right].
  - reflexivity.
  - now apply descending_insert.
Qed.

(** A session updated after all the others is listed first. *)
Lemma insert_by_updated_at_behind s new rows :
  ses_updated_at s < ses_updated_at new ->
  insert_by_updated_at s (new :: rows) = new :: insert_by_updated_at s rows.
Proof.
  intros Hlt. cbn [insert_by_updated_at].
  apply Nat.leb_gt in Hlt. now rewrite Hlt.
Qed.

Lemma orderBy_desc_updated_at_newest rows new :
  forallb (fun s => (ses_updated_at s <? ses_updated_at new)%nat) rows = true ->
  orderBy_desc_updated_at (rows ++ [new]) = new :: orderBy_desc_updated_at rows.
Proof.
  unfold orderBy_desc_updated_at.
  induction rows as [|s rows IH]; cbn [fold_right app forallb].
  - reflexivity.
  - intros [Hs Hall]%andb_prop. rewrite (IH Hall).
    apply insert_by_updated_at_behind. now apply Nat.ltb_lt.
Qed.

(** *** Sessions and their owners *)

Lemma find_session_not_owned userId sessionId db :
  find_session userId sessionId db = None
  <-> not_owned userId sessionId db = true.
Proof.
  unfold find_session, not_owned.
  induction (devSession db) as [|s rows IH]; cbn [List.find forallb].
  - split; reflexivity.
  - destruct (String.eqb (ses_id s) sessionId
              && String.eqb (ses_user_id s) userId); cbn [negb andb].
    + split; discriminate.
    + exact IH.
Qed.

Lemma find_session_owned userId sessionId db s :
  find_session userId sessionId db = Some s ->
  In s (devSession db) /\ ses_id s = sessionId /\ ses_user_id s = userId.
Proof.
  unfold find_session. intros [Hin Hp]%find_some.
  apply andb_prop in Hp as [Hid Hu].
  apply String.eqb_eq in Hid, Hu. auto.
Qed.

(** Writing the timestamp or the name of sessions changes the owner and the
    identifier of none, so the same sessions are found. *)
Lemma find_session_rewritten userId sessionId (f : SessionRow -> SessionRow)
    db db' :
  (forall s, ses_id (f s) = ses_id s /\ ses_user_id (f s) = ses_user_id s) ->
  devSession db' = map f (devSession db) ->
  find_session userId sessionId db'
  = option_map f (find_session userId sessionId db).
Proof.
  intros Hf Hmap. unfold find_session. rewrite Hmap. clear Hmap.
  induction (devSession db) as [|s rows IH]; cbn [map List.find option_map].
  - reflexivity.
  - destruct (Hf s) as [-> ->].
    destruct (String.eqb (ses_id s) sessionId
              && String.eqb (ses_user_id s) userId); [reflexivity|exact IH].
Qed.

Lemma find_session_touched userId sessionId touched db :
  find_session userId sessionId (touch_session touched db) = None
  <-> find_session userId sessionId db = None.
Proof.
  rewrite (find_session_rewritten userId sessionId
             (fun s =>
                if String.eqb (ses_id s) touched
                then {| ses_id := ses_id s; ses_name := ses_name s;
                        ses_user_id := ses_user_id s;
                        ses_updated_at := clock db |}
                else s) db).
  - destruct (find_session userId sessionId db); cbn; split; congruence.
  - intros s. destruct (String.eqb (ses_id s) touched); auto.
  - reflexivity.
Qed.

(** [X1] A session that does not exist or that belongs to another user is
    reported as not found by [getMessages], [deleteSession] and
    [addUserMessage] alike, with the same message, and the database is left
    as it was. *)
Theorem foreign_session_is_not_found userId sessionId db :
  not_owned userId sessionId db = true ->
  getMessages userId sessionId db = Throw (session_not_found sessionId)
  /\ deleteSession userId sessionId db
     = (Throw (session_not_found sessionId), db)
  /\ forall content role structuredContent widgetId,
       addUserMessage userId sessionId content role structuredContent widgetId
         db
       = (Throw (session_not_found sessionId), db).
Proof.
  intros Hnone%find_session_not_owned.
  unfold getMessages, deleteSession, addUserMessage. rewrite Hnone. auto.
Qed.

(** [X2] What [getMessages] returns is the messages of the table that lie
    in the session and belong to the user, each once, in ascending order of
    creation. *)
Theorem getMessages_returns_own_rows_in_order userId sessionId db msgs :
  getMessages userId sessionId db = Return msgs ->
  ascending msgs = true
  /\ Permutation msgs
       (List.filter (in_session userId sessionId) (devMessage db))
  /\ Forall (fun m => row_session_id m = sessionId /\ row_user_id m = userId)
       msgs.
Proof.
  unfold getMessages.
  destruct (find_session userId sessionId db); [|discriminate].
  intros [= <-].
  split; [apply orderBy_created_at_ascending|].
  split; [apply orderBy_created_at_perm|].
  apply List.Forall_forall. intros m Hm.
  apply (Permutation_in _ (orderBy_created_at_perm _)) in Hm.
  apply filter_In in Hm as [_ [Hs Hu]%andb_prop].
  apply String.eqb_eq in Hs, Hu. auto.
Qed.



(** [X4] A session just created is the first of the sessions
    [listSessions] returns to its user, before those listed until then; it
    carries the name given, and what other users are listed is unchanged, as
    are the messages. *)
Theorem created_session_is_listed_first userId name db s db' :
  clock_ahead db = true ->
  createSession userId name db = (s, db') ->
  listSessions userId db' = s :: listSessions userId db
  /\ ses_name s = name
  /\ ses_user_id s = userId
  /\ (forall other, other <> userId ->
        listSessions other db' = listSessions other db)
  /\ devMessage db' = devMessage db
  /\ clock_ahead db' = true.
Proof.
  intros Hclock. unfold createSession. intros [= <- <-].
  pose proof Hclock as [Hm Hs]%andb_prop.
  unfold listSessions. cbn [devSession devMessage ses_name ses_user_id].
  split.
  { rewrite List.filter_app. cbn [List.filter ses_user_id].
    rewrite String.eqb_refl.
    apply orderBy_desc_updated_at_newest.
    apply forallb_forall. intros x [Hx _]%filter_In.
    rewrite forallb_forall in Hs. now apply Hs. }
  repeat split.
  - intros other Hother. rewrite List.filter_app.
    cbn [List.filter ses_user_id].
    apply String.eqb_neq in Hother. rewrite String.eqb_sym in Hother.
    now rewrite Hother, app_nil_r.
  - unfold clock_ahead. cbn [devMessage devSession clock].
    apply andb_true_intro. split.
    + apply forallb_forall. intros x Hx.
      rewrite forallb_forall in Hm. specialize (Hm x Hx).
      apply Nat.ltb_lt. apply Nat.ltb_lt in Hm. lia.
    + rewrite forallb_app. cbn [forallb ses_updated_at].
      apply andb_true_intro. split.
      * apply forallb_forall. intros x Hx.
        rewrite forallb_forall in Hs. specialize (Hs x Hx).
        apply Nat.ltb_lt. apply Nat.ltb_lt in Hs. lia.
      * rewrite andb_true_r. apply Nat.ltb_lt. lia.
Qed.

Lemma descending_head s rest x :
  descending (s :: rest) = true -> In x (s :: rest) ->
  ses_updated_at x <= ses_updated_at s.
Proof.
  cbn [descending]. intros [Hall _]%andb_prop [<-|Hx]; [lia|].
  rewrite forallb_forall in Hall. apply Nat.leb_le. now apply Hall.
Qed.

(** The session whose timestamp was just written is the first listed. *)
Lemma touched_session_is_listed_first userId sessionId db s0 :
  clock_ahead db = true ->
  find_session userId sessionId db = Some s0 ->
  exists s rest,
    listSessions userId (touch_session sessionId db) = s :: rest
    /\ ses_id s = sessionId /\ ses_updated_at s = clock db.
Proof.
  intros [_ Hs]%andb_prop [Hin [Hid Hu]]%find_session_owned.
  unfold listSessions.
  set (f := fun s =>
              if String.eqb (ses_id s) sessionId
              then {| ses_id := ses_id s; ses_name := ses_name s;
                      ses_user_id := ses_user_id s;
                      ses_updated_at := clock db |}
              else s).
  change (devSession (touch_session sessionId db)) with (map f (devSession db)).
  set (L := List.filter _ (map f (devSession db))).
  assert (Hf : In (f s0) L /\ ses_updated_at (f s0) = clock db).
  { unfold L, f. rewrite <- Hid at 1 2. rewrite String.eqb_refl.
    split; [|reflexivity]. apply filter_In. split.
    - apply in_map_iff. exists s0. rewrite <- Hid at 1.
      now rewrite String.eqb_refl.
    - cbn [ses_user_id]. rewrite Hu. apply String.eqb_refl. }
  assert (Hall : forall x, In x L ->
                   ses_updated_at x <= clock db
                   /\ (ses_updated_at x = clock db -> ses_id x = sessionId)).
  { intros x [[y [<- Hy]]%in_map_iff _]%filter_In.
    rewrite forallb_forall in Hs. specialize (Hs y Hy).
    apply Nat.ltb_lt in Hs. unfold f.
    destruct (String.eqb (ses_id y) sessionId) eqn:Hy';
      cbn [ses_updated_at ses_id].
    - apply String.eqb_eq in Hy'. auto.
    - split; lia. }
  pose proof (orderBy_desc_updated_at_perm L) as Hperm.
  pose proof (orderBy_desc_updated_at_descending L) as Hdesc.
  destruct (orderBy_desc_updated_at L) as [|s rest].
  - destruct Hf as [Hf _]. apply (Permutation_in _ (Permutation_sym Hperm)) in Hf.
    destruct Hf.
  - exists s, rest. split; [reflexivity|].
    destruct Hf as [Hf Ht].
    apply (Permutation_in _ (Permutation_sym Hperm)) in Hf.
    pose proof (descending_head _ _ _ Hdesc Hf) as Hle.
    destruct (Hall s (Permutation_in _ Hperm (or_introl eq_refl))) as [Hs1 Hs2].
    assert (ses_updated_at s = clock db) by lia. auto.
Qed.

(** [X5] Adding a message to a session, and likewise the first transaction
    of [streamUserMessageById] on one of its messages, puts that session at
    the head of the sessions [listSessions] returns to the user. *)
Theorem written_session_is_listed_first userId db :
  clock_ahead db = true ->
  (forall sessionId content role structuredContent widgetId m db',
      addUserMessage userId sessionId content role structuredContent widgetId
        db = (Return m, db') ->
      exists s rest,
        listSessions userId db' = s :: rest /\ ses_id s = sessionId)
  /\ (forall messageId ctx db',
        load_user_message userId messageId db = (Return ctx, db') ->
        exists s rest,
          listSessions userId db' = s :: rest
          /\ ses_id s = row_session_id (userMsg ctx)).
Proof.
  intros Hclock. split.
  - intros sessionId content role structuredContent widgetId m db'.
    unfold addUserMessage.
    destruct (find_session userId sessionId db) as [s0|] eqn:Hfind;
      [|discriminate].
    intros [= <- <-].
    match goal with
    | |- context [touch_session sessionId ?d] =>
        destruct (touched_session_is_listed_first userId sessionId d s0)
          as (s & rest & Hl & Hid & _)
    end.
    + apply andb_prop in Hclock as [Hm Hs].
      unfold clock_ahead. cbn [devMessage devSession clock].
      apply andb_true_intro. split.
      * rewrite forallb_app. cbn [forallb row_created_at].
        apply andb_true_intro. split.
        -- apply forallb_forall. intros x Hx.
           rewrite forallb_forall in Hm. specialize (Hm x Hx).
           apply Nat.ltb_lt. apply Nat.ltb_lt in Hm. lia.
        -- rewrite andb_true_r. apply Nat.ltb_lt. lia.
      * apply forallb_forall. intros x Hx.
        rewrite forallb_forall in Hs. specialize (Hs x Hx).
        apply Nat.ltb_lt. apply Nat.ltb_lt in Hs. lia.
    + exact Hfind.
    + eauto.
  - intros messageId ctx db'. unfold load_user_message.
    destruct (List.find _ (devMessage db)) as [um|]; [|discriminate].
    destruct (List.find _ (devSession db)) as [s0|] eqn:Hfind; [|discriminate].
    intros [= <- <-]. cbn [userMsg].
    destruct (touched_session_is_listed_first userId (row_session_id um) db s0
                Hclock Hfind) as (s & rest & Hl & Hid & _).
    eauto.
Qed.

(** *** Deleting *)

Lemma filter_filter_pointwise {A} (p q p' q' : A -> bool) rows :
  (forall x, p x && q x = p' x && q' x) ->
  List.filter p (List.filter q rows) = List.filter p' (List.filter q' rows).
Proof.
  intros Hpq. induction rows as [|x rows IH]; cbn [List.filter].
  - reflexivity.
  - specialize (Hpq x).
    destruct (q x), (q' x); cbn [List.filter];
      destruct (p x), (p' x); cbn in Hpq; try discriminate; congruence.
Qed.

Lemma filter_filter_implied {A} (p q : A -> bool) rows :
  (forall x, p x = true -> q x = true) ->
  List.filter p (List.filter q rows) = List.filter p rows.
Proof.
  intros Hpq. induction rows as [|x rows IH]; cbn [List.filter].
  - reflexivity.
  - specialize (Hpq x).
    destruct (q x); cbn [List.filter]; destruct (p x); try congruence.
    discriminate Hpq. reflexivity.
Qed.

Lemma find_filter_implied {A} (p q : A -> bool) rows :
  (forall x, p x = true -> q x = true) ->
  List.find p (List.filter q rows) = List.find p rows.
Proof.
  intros Hpq. induction rows as [|x rows IH]; cbn [List.filter List.find].
  - reflexivity.
  - specialize (Hpq x).
    destruct (q x); cbn [List.find]; destruct (p x); try congruence.
    discriminate Hpq. reflexivity.
Qed.

(** [X6] After [deleteMessage], [getMessages] returns what it returned
    before without the messages whose identifier is listed: the list the
    page shows at once, by its optimistic update, is the list the server
    holds. *)
Theorem optimistic_delete_is_what_the_server_holds
    userId sessionId messageIds db msgs :
  messageIds <> [] ->
  getMessages userId sessionId db = Return msgs ->
  success (fst (deleteMessage userId messageIds db)) = true
  /\ exists shown,
       onMutate messageIds (Some msgs) = Some shown
       /\ getMessages userId sessionId
            (snd (deleteMessage userId messageIds db))
          = Return shown.
Proof.
  intros _. unfold getMessages, deleteMessage, delete_messages, find_session.
  cbn [fst snd devSession devMessage success onMutate].
  destruct (List.find _ (devSession db)); [|discriminate].
  intros [= <-]. split; [reflexivity|].
  eexists. split; [reflexivity|]. f_equal.
  rewrite filter_orderBy_created_at. f_equal.
  apply filter_filter_pointwise. intros x.
  destruct (String.eqb (row_session_id x) sessionId),
    (String.eqb (row_user_id x) userId),
    (existsb (String.eqb (row_id x)) messageIds); reflexivity.
Qed.

(** [X7] [deleteMessage] deletes no message of another user, whatever the
    identifiers listed: what the other users read, messages and sessions, is
    what they read before, and no session is touched. *)
Theorem deleteMessage_spares_other_users userId messageIds db :
  messageIds <> [] ->
  let db' := snd (deleteMessage userId messageIds db) in
  devSession db' = devSession db
  /\ (forall m, In m (devMessage db) -> row_user_id m <> userId ->
                In m (devMessage db'))
  /\ (forall other sessionId, other <> userId ->
        getMessages other sessionId db' = getMessages other sessionId db)
  /\ (forall m, In m (devMessage db') -> In m (devMessage db)).
Proof.
  intros _. intros db'. subst db'.
  unfold deleteMessage, delete_messages. cbn [snd devSession devMessage].
  split; [reflexivity|]. split; [|split].
  - intros m Hin Huser. apply filter_In. split; [exact Hin|].
    apply String.eqb_neq in Huser. now rewrite Huser, andb_false_r.
  - intros other sessionId Hother.
    unfold getMessages, find_session. cbn [devSession devMessage].
    destruct (List.find _ (devSession db)); [|reflexivity].
    do 2 f_equal. apply filter_filter_implied.
    intros x [_ Hu]%andb_prop. apply String.eqb_eq in Hu.
    assert (Hne : String.eqb (row_user_id x) userId = false)
      by (apply String.eqb_neq; congruence).
    now rewrite Hne, andb_false_r.
  - intros m [Hin _]%filter_In. exact Hin.
Qed.

(** [X8] A session deleted by its user is gone with all the messages that
    refer to it, those the statement of the service leaves being removed by
    the cascade of the foreign key: reading it or deleting it again reports
    it as not found, it is no longer listed, and the messages of the other
    sessions are read as before. *)
Theorem deleted_session_is_gone userId sessionId db r db' :
  deleteSession userId sessionId db = (Return r, db') ->
  success r = true
  /\ getMessages userId sessionId db' = Throw (session_not_found sessionId)
  /\ deleteSession userId sessionId db'
     = (Throw (session_not_found sessionId), db')
  /\ forallb (fun m => negb (String.eqb (row_session_id m) sessionId))
       (devMessage db') = true
  /\ forallb (fun s => negb (String.eqb (ses_id s) sessionId))
       (listSessions userId db') = true
  /\ (forall other otherId, otherId <> sessionId ->
        getMessages other otherId db' = getMessages other otherId db).
Proof.
  unfold deleteSession.
  destruct (find_session userId sessionId db) as [s0|] eqn:Hfind;
    [|discriminate].
  intros [= <- <-]. split; [reflexivity|].
  destruct (find_session_owned _ _ _ _ Hfind) as (Hin0 & Hid0 & Hu0).
  set (p := fun s => String.eqb (ses_id s) sessionId
                     && String.eqb (ses_user_id s) userId).
  set (db' := delete_sessions p _).
  assert (Hp0 : p s0 = true)
    by (unfold p; rewrite Hid0, Hu0, !String.eqb_refl; reflexivity).
  assert (Hnone : find_session userId sessionId db' = None).
  { apply find_session_not_owned. unfold not_owned, db'.
    cbn [delete_sessions devSession delete_messages].
    apply forallb_forall. now intros x [_ Hx]%filter_In. }
  split; [unfold getMessages; now rewrite Hnone|].
  split; [now rewrite Hnone|].
  split; [|split].
  - apply forallb_forall. intros m Hm.
    unfold db' in Hm. cbn [delete_sessions devMessage delete_messages
                           devSession] in Hm.
    apply filter_In in Hm as [_ Hm].
    destruct (String.eqb (row_session_id m) sessionId) eqn:Hs; [|reflexivity].
    apply String.eqb_eq in Hs. apply negb_true_iff in Hm.
    assert (Hex : existsb (fun s => String.eqb (ses_id s) (row_session_id m))
                    (List.filter p (devSession db)) = true).
    { apply existsb_exists. exists s0. split; [now apply filter_In|].
      rewrite Hid0, Hs. apply String.eqb_refl. }
    congruence.
  - apply forallb_forall. intros s Hs.
    unfold listSessions in Hs.
    apply (Permutation_in _ (orderBy_desc_updated_at_perm _)) in Hs.
    apply filter_In in Hs as [Hs Hu].
    unfold db' in Hs. cbn [delete_sessions devSession delete_messages] in Hs.
    apply filter_In in Hs as [_ Hs]. unfold p in Hs.
    rewrite Hu, andb_true_r in Hs. exact Hs.
  - intros other otherId Hne.
    assert (Hsame : find_session other otherId db'
                    = find_session other otherId db).
    { unfold find_session, db'.
      cbn [delete_sessions devSession delete_messages].
      apply find_filter_implied. intros x [Hx _]%andb_prop.
      apply String.eqb_eq in Hx. unfold p.
      assert (Hf : String.eqb (ses_id x) sessionId = false)
        by (apply String.eqb_neq; congruence).
      now rewrite Hf. }
    unfold getMessages. rewrite Hsame.
    destruct (find_session other otherId db); [|reflexivity].
    do 2 f_equal. unfold db'.
    cbn [delete_sessions devMessage delete_messages devSession].
    rewrite filter_filter_implied.
    + apply filter_filter_implied. intros x [Hx _]%andb_prop.
      apply String.eqb_eq in Hx.
      assert (Hf : String.eqb (row_session_id x) sessionId = false)
        by (apply String.eqb_neq; congruence).
      now rewrite Hf.
    + intros x [Hx _]%andb_prop. apply String.eqb_eq in Hx.
      apply negb_true_iff.
      destruct (existsb _ (List.filter p (devSession db))) eqn:Hex;
        [|reflexivity].
      apply existsb_exists in Hex as (s1 & [_ Hs]%filter_In & Hs').
      apply andb_prop in Hs as [Hs _].
      apply String.eqb_eq in Hs, Hs'. congruence.
Qed.

(** *** Messages and the sessions they lie in *)

Lemma messages_in_owned_sessions_spec db :
  messages_in_owned_sessions db = true
  <-> forall m, In m (devMessage db) ->
        exists s, In s (devSession db)
                  /\ ses_id s = row_session_id m
                  /\ ses_user_id s = row_user_id m.
Proof.
  unfold messages_in_owned_sessions. rewrite forallb_forall.
  split; intros H m Hm; specialize (H m Hm).
  - apply existsb_exists in H as (s & Hs & [Hi Hu]%andb_prop).
    apply String.eqb_eq in Hi, Hu. eauto.
  - destruct H as (s & Hs & Hi & Hu). apply existsb_exists.
    exists s. split; [exact Hs|]. rewrite Hi, Hu, !String.eqb_refl. reflexivity.
Qed.

(** The invariant survives a write that keeps the identifier and the owner
    of every session and that adds messages to owned sessions only. *)
Lemma messages_in_owned_sessions_kept db db' :
  messages_in_owned_sessions db = true ->
  (forall s, In s (devSession db) ->
     exists s', In s' (devSession db')
                /\ ses_id s' = ses_id s /\ ses_user_id s' = ses_user_id s) ->
  (forall m, In m (devMessage db') ->
     In m (devMessage db)
     \/ exists s, In s (devSession db)
                  /\ ses_id s = row_session_id m
                  /\ ses_user_id s = row_user_id m) ->
  messages_in_owned_sessions db' = true.
Proof.
  rewrite !messages_in_owned_sessions_spec. intros Hdb Hses Hmsg m Hm.
  destruct (Hmsg m Hm) as [Hold|(s & Hs & Hi & Hu)].
  - destruct (Hdb m Hold) as (s & Hs & Hi & Hu).
    destruct (Hses s Hs) as (s' & Hs' & Hi' & Hu').
    exists s'. split; [exact Hs'|]. split; congruence.
  - destruct (Hses s Hs) as (s' & Hs' & Hi' & Hu').
    exists s'. split; [exact Hs'|]. split; congruence.
Qed.

Lemma touch_session_sessions sessionId db s :
  In s (devSession db) ->
  exists s', In s' (devSession (touch_session sessionId db))
             /\ ses_id s' = ses_id s /\ ses_user_id s' = ses_user_id s.
Proof.
  intros Hs. unfold touch_session. cbn [devSession].
  eexists. split; [apply in_map_iff; eexists; split; [reflexivity|exact Hs]|].
  destruct (String.eqb (ses_id s) sessionId); auto.
Qed.

Lemma rename_session_sessions sessionId name db s :
  In s (devSession db) ->
  exists s', In s' (devSession (rename_session sessionId name db))
             /\ ses_id s' = ses_id s /\ ses_user_id s' = ses_user_id s.
Proof.
  intros Hs. unfold rename_session. cbn [devSession].
  eexists. split; [apply in_map_iff; eexists; split; [reflexivity|exact Hs]|].
  destruct (String.eqb (ses_id s) sessionId); auto.
Qed.

(** [X9] Every message lies in a session of its own user, and the
    operations of the service keep it so: creating a session, adding a
    message, deleting messages and deleting a session. *)
Theorem service_keeps_messages_in_owned_sessions db :
  messages_in_owned_sessions db = true ->
  (forall userId name,
      messages_in_owned_sessions (snd (createSession userId name db)) = true)
  /\ (forall userId sessionId content role structuredContent widgetId,
        messages_in_owned_sessions
          (snd (addUserMessage userId sessionId content role structuredContent
                  widgetId db)) = true)
  /\ (forall userId messageIds,
        messageIds <> [] ->
        messages_in_owned_sessions (snd (deleteMessage userId messageIds db))
        = true)
  /\ (forall userId sessionId,
        messages_in_owned_sessions (snd (deleteSession userId sessionId db))
        = true).
Proof.
  intros Hdb. split; [|split; [|split]].
  - intros userId name. apply (messages_in_owned_sessions_kept db _ Hdb).
    + intros s Hs. exists s. cbn. split; [apply in_or_app; auto|auto].
    + intros m Hm. now left.
  - intros userId sessionId content role structuredContent widgetId.
    unfold addUserMessage.
    destruct (find_session userId sessionId db) as [s0|] eqn:Hfind;
      [|exact Hdb].
    destruct (find_session_owned _ _ _ _ Hfind) as (Hin0 & Hid0 & Hu0).
    cbn [snd]. apply (messages_in_owned_sessions_kept db _ Hdb).
    + intros s Hs. now apply (touch_session_sessions sessionId _ s).
    + intros m Hm. cbn [touch_session devMessage] in Hm.
      apply in_app_or in Hm as [Hm|[<-|[]]]; [now left|right].
      exists s0. cbn. auto.
  - intros userId messageIds _.
    apply (messages_in_owned_sessions_kept db _ Hdb).
    + intros s Hs. exists s. cbn. auto.
    + intros m [Hm _]%filter_In. now left.
  - intros userId sessionId. unfold deleteSession.
    destruct (find_session userId sessionId db) as [s0|]; [|exact Hdb].
    cbn [snd]. rewrite messages_in_owned_sessions_spec in *.
    intros m Hm.
    cbn [delete_sessions delete_messages devMessage devSession] in *.
    apply filter_In in Hm as [Hm Hcascade].
    apply filter_In in Hm as [Hm _].
    destruct (Hdb m Hm) as (s & Hs & Hi & Hu).
    exists s. split; [|auto].
    apply filter_In. split; [exact Hs|].
    destruct (String.eqb (ses_id s) sessionId
              && String.eqb (ses_user_id s) userId) eqn:Hp; [|reflexivity].
    apply negb_true_iff in Hcascade.
    assert (Hex : existsb (fun s1 => String.eqb (ses_id s1) (row_session_id m))
                    (List.filter
                       (fun s1 => String.eqb (ses_id s1) sessionId
                                  && String.eqb (ses_user_id s1) userId)
                       (devSession db)) = true).
    { apply existsb_exists. exists s. split; [now apply filter_In|].
      rewrite Hi. apply String.eqb_refl. }
    congruence.
Qed.

(** [X24] What [listSessions] returns is the sessions of the table that
    belong to the user, each once, the one updated last first. *)
Theorem listSessions_returns_own_sessions_in_order userId db :
  descending (listSessions userId db) = true
  /\ Permutation (listSessions userId db)
       (List.filter (fun s => String.eqb (ses_user_id s) userId)
          (devSession db))
  /\ Forall (fun s => ses_user_id s = userId) (listSessions userId db).
Proof.
  unfold listSessions.
  split; [apply orderBy_desc_updated_at_descending|].
  split; [apply orderBy_desc_updated_at_perm|].
  apply List.Forall_forall. intros s Hs.
  apply (Permutation_in _ (orderBy_desc_updated_at_perm _)) in Hs.
  apply filter_In in Hs as [_ Hu]. now apply String.eqb_eq.
Qed.

(** [X25] Deleting messages in two calls leaves the database that one call
    with all the identifiers leaves; deleting the same messages twice is
    deleting them once. *)
Theorem deleteMessage_twice userId messageIds messageIds' db :
  messageIds <> [] ->
  messageIds' <> [] ->
  snd (deleteMessage userId messageIds'
         (snd (deleteMessage userId messageIds db)))
  = snd (deleteMessage userId (messageIds ++ messageIds') db)
  /\ snd (deleteMessage userId messageIds
            (snd (deleteMessage userId messageIds db)))
     = snd (deleteMessage userId messageIds db).
Proof.
  intros _ _. unfold deleteMessage, delete_messages.
  cbn [snd devMessage devSession clock drawn].
  assert (Hfilter : forall (p q r : MessageRow -> bool) rows,
             (forall x, p x && q x = r x) ->
             List.filter p (List.filter q rows) = List.filter r rows).
  { intros p q r rows Hpq. induction rows as [|x rows IH]; cbn [List.filter].
    - reflexivity.
    - specialize (Hpq x). destruct (q x); cbn [List.filter];
        destruct (p x), (r x); cbn in Hpq; try discriminate; congruence. }
  split; f_equal; apply Hfilter; intros x; rewrite ?existsb_app;
    destruct (existsb (String.eqb (row_id x)) messageIds),
      (existsb (String.eqb (row_id x)) messageIds'),
      (String.eqb (row_user_id x) userId); reflexivity.
Qed.

(** *** The ways [streamUserMessageById] ends *)

Lemma load_user_message_throws userId messageId db e db1 :
  load_user_message userId messageId db = (Throw e, db1) ->
  db1 = db
  /\ (e = Error ("User message with ID " +:+ messageId +:+ " not found")
      \/ exists sessionId, e = session_not_found sessionId).
Proof.
  unfold load_user_message.
  destruct (List.find _ (devMessage db)) as [um|].
  - destruct (List.find _ (devSession db)); [discriminate|].
    intros [= <- <-]. split; [reflexivity|]. right. now eexists.
  - intros [= <- <-]. auto.
Qed.

(** It ends in the first transaction, or with the failure of the driver
    after the chunks yielded until then, or, the driver having yielded
    [done], with the assistant message written, the session touched and
    perhaps named. *)
Lemma streamUserMessageById_cases userId messageId db w :
  (exists e,
      load_user_message userId messageId db = (Throw e, db)
      /\ streamUserMessageById userId messageId db w = (Throw e, [], db, w))
  \/ (exists ctx db1 m st,
        load_user_message userId messageId db = (Return ctx, db1)
        /\ streamChatCompletion (chatMessages ctx) userId grok w
           = (Throw (Error ("Failed to stream chat completion: " +:+ m)), st)
        /\ body_chunks (yielded st)
        /\ streamUserMessageById userId messageId db w
           = (Throw (Error ("Failed to stream chat completion: " +:+ m)),
              yielded st, db1, world st))
  \/ (exists ctx db1 st,
        load_user_message userId messageId db = (Return ctx, db1)
        /\ streamChatCompletion (chatMessages ctx) userId grok w
           = (Return tt, st)
        /\ let '(assistantMessage, db2) :=
             insert_assistant (content_of (yielded st))
               (combinedStructuredContent (finalStructuredContent st)
                  (finalMeta st))
               (truthy (finalWidgetId st)) (sessionId ctx) userId db1 in
           let '(db3, w3) :=
             generate_session_name userId ctx (content_of (yielded st))
               (touch_session (sessionId ctx) db2) (world st) in
           streamUserMessageById userId messageId db w
           = (Return tt,
              yielded st ++ [done_chunk (Some (row_id assistantMessage))],
              db3, w3)).
Proof.
  destruct (load_user_message userId messageId db) as [[ctx|e] db1] eqn:Hload.
  2:{ left. exists e.
      destruct (load_user_message_throws _ _ _ _ _ Hload) as [-> _].
      split; [reflexivity|]. unfold streamUserMessageById. now rewrite Hload. }
  right.
  destruct (streamChatCompletion (chatMessages ctx) userId grok w)
    as [r st] eqn:Hrun.
  pose proof Hrun as Hrun0.
  unfold streamChatCompletion in Hrun.
  destruct (stream_loop userId grok maxIterations (initial (chatMessages ctx) w))
    as [r0 st0] eqn:Hloop.
  injection Hrun as Hr ->.
  destruct (stream_loop_frame _ _ _ _ _ _ Hloop) as (_ & _ & body & Hy & Hb).
  cbn [initial yielded app] in Hy.
  destruct r as [[]|e].
  - right. exists ctx, db1, st. split; [reflexivity|]. split; [exact Hrun0|].
    destruct r0 as [[]|e0]; [|discriminate].
    unfold streamUserMessageById. rewrite Hload, Hrun0, Hy.
    rewrite fold_left_app, (forward_body _ _ _ _ Hb).
    cbn [w_accumulatedContent w_finalMeta w_finalStructuredContent
         w_finalWidgetId w_yielded w_db w_world app].
    rewrite content_of_body_closing. cbn [closing].
    destruct (has_metadata st) eqn:Hmd;
      cbn [app fold_left forward_chunk w_accumulatedContent w_finalMeta
           w_finalStructuredContent w_finalWidgetId w_yielded w_db w_world
           insert_assistant metadata_of md_meta md_structuredContent
           md_widgetId].
    + destruct (generate_session_name _ _ _ _ _) as [db3 w3].
      cbn [w_yielded w_db w_world row_id]. now rewrite <- !app_assoc.
    + destruct (has_metadata_false _ Hmd) as (-> & -> & ->).
      destruct (generate_session_name _ _ _ _ _) as [db3 w3].
      cbn [w_yielded w_db w_world row_id]. now rewrite <- !app_assoc.
  - left. destruct (rethrow_throws _ _ _ Hr) as (e0 & -> & ->).
    cbn [closing] in Hy. rewrite app_nil_r in Hy.
    exists ctx, db1, (message_of e0), st.
    split; [reflexivity|]. split; [exact Hrun0|].
    split; [now rewrite Hy|].
    unfold streamUserMessageById. rewrite Hload, Hrun0, Hy.
    now rewrite (forward_body _ _ _ _ Hb).
Qed.

Lemma find_none_forallb {A} (p : A -> bool) rows :
  forallb (fun x => negb (p x)) rows = true -> List.find p rows = None.
Proof.
  induction rows as [|x rows IH]; cbn [forallb List.find].
  - reflexivity.
  - intros [Hx Hall]%andb_prop. apply negb_true_iff in Hx.
    rewrite Hx. auto.
Qed.

(** [X10] Asked to stream a message that does not exist or that belongs to
    another user, the subscription emits one error event, that the message
    was not found, and nothing else: no provider is called and the database
    is left as it was. *)
Theorem unknown_message_emits_one_error userId messageId db w :
  no_such_message userId messageId db = true ->
  streamMessage userId messageId db w
  = ([emit_error
        (Error ("User message with ID " +:+ messageId +:+ " not found"))],
     db, w).
Proof.
  intros Hnone%find_none_forallb.
  unfold streamMessage, streamUserMessageById, load_user_message.
  now rewrite Hnone.
Qed.

(** [X11] What the subscription emits is the chunks of the wrapper, each as
    a [next] event, followed by one error event when the wrapper throws.
    The error is one the service raised, with its own message: the message
    or its session was not found, or the driver failed; then no chunk
    emitted is [done] and the messages stored are those stored before.  When
    the wrapper returns, the last event is its [done] chunk, which carries
    an identifier. *)
Theorem subscription_ends_with_done_or_one_error
    userId messageId db w r chunks db' w' :
  streamUserMessageById userId messageId db w = (r, chunks, db', w') ->
  match r with
  | Return _ =>
      streamMessage userId messageId db w = (map emit_next chunks, db', w')
      /\ exists id, last chunks = Some (done_chunk (Some id))
  | Throw e =>
      streamMessage userId messageId db w
      = (map emit_next chunks ++ [emit_error e], db', w')
      /\ forallb (fun ch => negb (is_done ch)) chunks = true
      /\ devMessage db' = devMessage db
      /\ (e = Error ("User message with ID " +:+ messageId +:+ " not found")
          \/ (exists sessionId, e = session_not_found sessionId)
          \/ exists m,
               e = Error ("Failed to stream chat completion: " +:+ m))
  end.
Proof.
  intros Hrun. unfold streamMessage. rewrite Hrun.
  destruct (streamUserMessageById_cases userId messageId db w)
    as [(e & Hload & H)|[(ctx & db1 & m & st & Hload & _ & Hb & H)
                        |(ctx & db1 & st & Hload & _ & H)]].
  - rewrite H in Hrun. injection Hrun as <- <- <- <-.
    destruct (load_user_message_throws _ _ _ _ _ Hload) as [_ He].
    assert (Hm : exists m, e = Error m)
      by (destruct He as [->|[? ->]]; eexists; reflexivity).
    destruct Hm as [m ->].
    split; [reflexivity|]. split; [reflexivity|]. split; [reflexivity|].
    destruct He as [He|He]; auto.
  - rewrite H in Hrun. injection Hrun as <- <- <- <-.
    split; [reflexivity|]. split; [now apply body_chunks_not_done|].
    split; [now destruct (load_user_message_returns _ _ _ _ _ Hload)
              as (_ & -> & _)|].
    right. right. now exists m.
  - destruct (insert_assistant _ _ _ _ _ db1) as [row db2].
    destruct (generate_session_name _ _ _ _ _) as [db3 w3].
    rewrite H in Hrun. injection Hrun as <- <- <- <-.
    rewrite app_nil_r. split; [reflexivity|].
    exists (row_id row). apply last_snoc.
Qed.

(** [X12] The history streamed is that of the whole session, whichever of
    its messages is named: the identifier of the message selects the
    session and nothing else, so that two messages of one session give the
    same run. *)
Theorem history_is_the_whole_session
    userId messageId messageId' db w ctx ctx' db1 db1' :
  load_user_message userId messageId db = (Return ctx, db1) ->
  load_user_message userId messageId' db = (Return ctx', db1') ->
  sessionId ctx = sessionId ctx' ->
  chatMessages ctx = chatMessages ctx'
  /\ streamUserMessageById userId messageId db w
     = streamUserMessageById userId messageId' db w.
Proof.
  intros Hload Hload' Hsame.
  assert (Hctx : previousMessages ctx = previousMessages ctx'
                 /\ session ctx = session ctx' /\ db1 = db1').
  { revert Hload Hload' Hsame. unfold load_user_message.
    destruct (List.find _ (devMessage db)) as [um|]; [|discriminate].
    destruct (List.find _ (devMessage db)) as [um'|]; [|discriminate].
    destruct (List.find _ (devSession db)) as [s|] eqn:Hs; [|discriminate].
    destruct (List.find _ (devSession db)) as [s'|] eqn:Hs' in |- *;
      [|discriminate].
    intros [= <- <-] [= <- <-]. cbn [sessionId]. intros Heq.
    rewrite Heq in Hs. rewrite Hs in Hs'. injection Hs' as <-.
    cbn [previousMessages session]. now rewrite Heq. }
  destruct Hctx as (Hprev & Hses & <-).
  assert (Hchat : chatMessages ctx = chatMessages ctx')
    by (unfold chatMessages; now rewrite Hprev).
  split; [exact Hchat|].
  unfold streamUserMessageById. rewrite Hload, Hload', Hchat.
  destruct (streamChatCompletion (chatMessages ctx') userId grok w) as [r st].
  assert (Hfold : forall chunks ws,
             fold_left (fun ws chunk => forward_chunk userId ctx chunk ws)
               chunks ws
             = fold_left (fun ws chunk => forward_chunk userId ctx' chunk ws)
                 chunks ws).
  { induction chunks as [|chunk chunks IH]; intros ws; cbn [fold_left].
    - reflexivity.
    - rewrite IH. f_equal.
      unfold forward_chunk, generate_session_name.
      now rewrite Hchat, Hprev, Hses, Hsame. }
  now rewrite Hfold.
Qed.

Lemma find_app_last {A} (p : A -> bool) rows x :
  forallb (fun y => negb (p y)) rows = true -> p x = true ->
  List.find p (rows ++ [x]) = Some x.
Proof.
  intros Hall Hx.
  induction rows as [|y rows IH]; cbn [app List.find forallb] in *.
  - now rewrite Hx.
  - apply andb_prop in Hall as [Hy Hall]. apply negb_true_iff in Hy.
    rewrite Hy. auto.
Qed.

Lemma last_map {A B} (f : A -> B) rows :
  last (map f rows) = option_map f (last rows).
Proof.
  induction rows as [|x [|y rows] IH]; [reflexivity..|].
  exact IH.
Qed.

Lemma keep_after_marker_snoc rows m :
  last (keep_after_marker (rows ++ [m])) = Some m.
Proof.
  unfold keep_after_marker. rewrite fold_left_app. cbn [fold_left].
  apply last_snoc.
Qed.

(** [X13] A message added to a session can be streamed at once: the first
    transaction of [streamUserMessageById] finds it and its session, and the
    history handed to the driver ends with it, under its role and with its
    content. *)
Theorem added_message_ends_the_history
    userId sid content role structuredContent widgetId db m db' :
  clock_ahead db = true ->
  fresh_identifier db = true ->
  addUserMessage userId sid content role structuredContent widgetId db
  = (Return m, db') ->
  exists ctx db'',
    load_user_message userId (row_id m) db' = (Return ctx, db'')
    /\ userMsg ctx = m
    /\ sessionId ctx = sid
    /\ last (previousMessages ctx) = Some m
    /\ last (chatMessages ctx) = Some (to_chat_message role content).
Proof.
  intros Hclock Hfresh. unfold addUserMessage.
  destruct (find_session userId sid db) as [s0|] eqn:Hfind;
    [|discriminate].
  intros [= <- <-]. cbn [row_id].
  set (m := {| row_id := gen_random_uuid (drawn db); row_content := content |}).
  set (dbi := {| devMessage := devMessage db ++ [m] |}).
  unfold load_user_message.
  assert (Hm : List.find (fun r => String.eqb (row_id r) (gen_random_uuid (drawn db))
                                   && String.eqb (row_user_id r) userId)
                 (devMessage (touch_session sid dbi)) = Some m).
  { cbn [touch_session devMessage dbi]. apply find_app_last.
    - apply forallb_forall. intros y Hy.
      unfold fresh_identifier in Hfresh. rewrite forallb_forall in Hfresh.
      specialize (Hfresh y Hy). apply negb_true_iff in Hfresh.
      now rewrite Hfresh.
    - cbn [m row_id row_user_id]. now rewrite !String.eqb_refl. }
  rewrite Hm. cbn [row_session_id m].
  destruct (List.find _ (devSession (touch_session sid dbi)))
    as [s1|] eqn:Hfind1.
  2:{ apply (find_session_touched userId sid sid dbi) in Hfind1.
      unfold find_session in Hfind1, Hfind. cbn [dbi devSession] in Hfind1.
      congruence. }
  eexists _, _. split; [reflexivity|].
  cbn [userMsg sessionId previousMessages].
  split; [reflexivity|]. split; [reflexivity|].
  assert (Hlast : last (keep_after_marker
                          (orderBy_created_at
                             (List.filter
                                (fun r => String.eqb (row_session_id r) sid
                                          && String.eqb (row_user_id r) userId)
                                (devMessage
                                   (touch_session sid
                                      (touch_session sid dbi))))))
                  = Some m).
  { cbn [touch_session devMessage dbi].
    rewrite List.filter_app. cbn [List.filter m row_session_id row_user_id].
    rewrite !String.eqb_refl. cbn [andb].
    rewrite orderBy_created_at_last; [apply keep_after_marker_snoc|].
    apply forallb_forall. intros x [Hx _]%filter_In.
    apply andb_prop in Hclock as [Hclock _].
    rewrite forallb_forall in Hclock. specialize (Hclock x Hx).
    unfold m. cbn [row_created_at].
    apply Nat.leb_le. apply Nat.ltb_lt in Hclock. lia. }
  split; [exact Hlast|].
  unfold chatMessages. cbn [previousMessages].
  rewrite last_map, Hlast. reflexivity.
Qed.

(** *** The name of the session *)

Lemma generate_session_name_cases userId ctx content db w :
  fst (generate_session_name userId ctx content db w) = db
  \/ (length (previousMessages ctx) = 3
      /\ ses_name (session ctx) = "New conversation"
      /\ exists name,
           name <> ""
           /\ fst (generate_session_name userId ctx content db w)
              = rename_session (sessionId ctx) name db).
Proof.
  unfold generate_session_name.
  destruct (length (previousMessages ctx) =? 3)%nat eqn:Hlen;
    [|now left].
  destruct (String.eqb (ses_name (session ctx)) "New conversation") eqn:Hname;
    [|now left].
  cbn [andb].
  destruct (getChatCompletion _ userId w) as [[res|e] st]; [|now left].
  destruct (trim (res_content res)) as [|c name] eqn:Htrim; [now left|].
  right. apply Nat.eqb_eq in Hlen. apply String.eqb_eq in Hname.
  split; [exact Hlen|]. split; [exact Hname|].
  exists (String c name). split; [discriminate|reflexivity].
Qed.

Lemma sessions_kept (g : string * string * string -> string) rows rows' :
  map (fun s => (ses_id s, ses_name s, ses_user_id s)) rows'
  = map (fun s => (ses_id s, ses_name s, ses_user_id s)) rows ->
  map (fun s => g (ses_id s, ses_name s, ses_user_id s)) rows'
  = map (fun s => g (ses_id s, ses_name s, ses_user_id s)) rows.
Proof.
  intros Heq. apply (f_equal (map g)) in Heq.
  now rewrite !map_map in Heq.
Qed.

(** [X14] A run of [streamUserMessageById] changes the identifier and the
    owner of no session.  It changes names only when it succeeds on a
    session found under the name [New conversation] with a history of
    exactly three messages: then the sessions with the identifier of that
    session take one new name, which is not empty. *)
Theorem session_is_named_after_three_messages
    userId messageId db w r chunks db' w' :
  streamUserMessageById userId messageId db w = (r, chunks, db', w') ->
  map ses_id (devSession db') = map ses_id (devSession db)
  /\ map ses_user_id (devSession db') = map ses_user_id (devSession db)
  /\ (map ses_name (devSession db') = map ses_name (devSession db)
      \/ r = Return tt
         /\ exists ctx db1 name,
              load_user_message userId messageId db = (Return ctx, db1)
              /\ length (previousMessages ctx) = 3
              /\ ses_name (session ctx) = "New conversation"
              /\ name <> ""
              /\ map ses_name (devSession db')
                 = map (fun s => if String.eqb (ses_id s) (sessionId ctx)
                                 then name else ses_name s)
                     (devSession db)).
Proof.
  intros Hrun.
  destruct (streamUserMessageById_cases userId messageId db w)
    as [(e & Hload & H)|[(ctx & db1 & m & st & Hload & _ & Hb & H)
                        |(ctx & db1 & st & Hload & _ & H)]].
  - rewrite H in Hrun. injection Hrun as <- <- <- <-. auto.
  - rewrite H in Hrun. injection Hrun as <- <- <- <-.
    destruct (load_user_message_returns _ _ _ _ _ Hload) as (-> & _ & _).
    destruct (touch_session_keeps (sessionId ctx) db) as (_ & Hkept & _).
    split; [exact (sessions_kept (fun t => fst (fst t)) _ _ Hkept)|].
    split; [exact (sessions_kept snd _ _ Hkept)|].
    left. exact (sessions_kept (fun t => snd (fst t)) _ _ Hkept).
  - destruct (load_user_message_returns _ _ _ _ _ Hload) as (Hdb1 & _ & _).
    unfold insert_assistant in H.
    match type of H with
    | context [touch_session ?sid ?d] =>
        set (db2 := d) in H;
        pose proof (touch_session_keeps sid db2) as (_ & Hkept2 & _)
    end.
    assert (Hkept1 :
              map (fun s => (ses_id s, ses_name s, ses_user_id s))
                (devSession (touch_session (sessionId ctx) db2))
              = map (fun s => (ses_id s, ses_name s, ses_user_id s))
                  (devSession db)).
    { rewrite Hkept2. unfold db2. cbn [devSession]. rewrite Hdb1.
      apply touch_session_keeps. }
    clear Hkept2.
    pose proof (generate_session_name_cases userId ctx
                  (content_of (yielded st))
                  (touch_session (sessionId ctx) db2) (world st)) as Hgen.
    destruct (generate_session_name _ _ _ _ _) as [db3 w3].
    rewrite H in Hrun. injection Hrun as <- <- <- <-.
    cbn [fst] in Hgen.
    destruct Hgen as [->|(Hlen & Hname & name & Hne & ->)].
    + split; [exact (sessions_kept (fun t => fst (fst t)) _ _ Hkept1)|].
      split; [exact (sessions_kept snd _ _ Hkept1)|].
      left. exact (sessions_kept (fun t => snd (fst t)) _ _ Hkept1).
    + unfold rename_session. cbn [devSession].
      rewrite !map_map.
      split.
      { etransitivity;
          [|exact (sessions_kept (fun t => fst (fst t)) _ _ Hkept1)].
        apply map_ext. intros s.
        now destruct (String.eqb (ses_id s) (sessionId ctx)). }
      split.
      { etransitivity; [|exact (sessions_kept snd _ _ Hkept1)].
        apply map_ext. intros s.
        now destruct (String.eqb (ses_id s) (sessionId ctx)). }
      right. split; [reflexivity|].
      exists ctx, db1, name. repeat (split; [assumption|]).
      etransitivity;
        [|exact (sessions_kept
                   (fun t => if String.eqb (fst (fst t)) (sessionId ctx)
                             then name else snd (fst t)) _ _ Hkept1)].
      apply map_ext. intros s. cbn [fst snd].
      now destruct (String.eqb (ses_id s) (sessionId ctx)).
Qed.

Lemma load_user_message_session userId messageId db ctx db1 :
  load_user_message userId messageId db = (Return ctx, db1) ->
  exists s, In s (devSession db)
            /\ ses_id s = sessionId ctx /\ ses_user_id s = userId.
Proof.
  unfold load_user_message.
  destruct (List.find _ (devMessage db)) as [um|]; [|discriminate].
  destruct (List.find _ (devSession db)) as [s|] eqn:Hs; [|discriminate].
  intros [= <- <-]. cbn [sessionId].
  exact (ex_intro _ s (find_session_owned userId _ db s Hs)).
Qed.

Lemma touch_session_owned sessionId db :
  messages_in_owned_sessions db = true ->
  messages_in_owned_sessions (touch_session sessionId db) = true.
Proof.
  intros Hdb. apply (messages_in_owned_sessions_kept db _ Hdb).
  - intros s Hs. now apply touch_session_sessions.
  - intros m Hm. now left.
Qed.

Lemma rename_session_owned sessionId name db :
  messages_in_owned_sessions db = true ->
  messages_in_owned_sessions (rename_session sessionId name db) = true.
Proof.
  intros Hdb. apply (messages_in_owned_sessions_kept db _ Hdb).
  - intros s Hs. now apply rename_session_sessions.
  - intros m Hm. now left.
Qed.

(** [X15] A run of [streamUserMessageById] keeps every message in a session
    of its own user, however it ends: the assistant message it writes lies
    in the session that was found for the user. *)
Theorem stream_keeps_messages_in_owned_sessions userId messageId db w :
  messages_in_owned_sessions db = true ->
  messages_in_owned_sessions
    (snd (fst (streamUserMessageById userId messageId db w))) = true.
Proof.
  intros Hdb.
  destruct (streamUserMessageById_cases userId messageId db w)
    as [(e & Hload & ->)|[(ctx & db1 & m & st & Hload & _ & Hb & ->)
                         |(ctx & db1 & st & Hload & _ & H)]];
    cbn [fst snd].
  - exact Hdb.
  - destruct (load_user_message_returns _ _ _ _ _ Hload) as (-> & _ & _).
    now apply touch_session_owned.
  - destruct (load_user_message_returns _ _ _ _ _ Hload) as (Hdb1 & _ & _).
    destruct (load_user_message_session _ _ _ _ _ Hload) as (s & Hs & Hi & Hu).
    assert (H1 : messages_in_owned_sessions db1 = true)
      by (rewrite Hdb1; now apply touch_session_owned).
    unfold insert_assistant in H.
    match type of H with
    | context [touch_session ?sid ?d] => set (db2 := d) in H
    end.
    assert (H2 : messages_in_owned_sessions db2 = true).
    { apply (messages_in_owned_sessions_kept db1 _ H1).
      - intros s1 Hs1. exists s1. auto.
      - intros m Hm. cbn [db2 devMessage] in Hm.
        apply in_app_or in Hm as [Hm|[<-|[]]]; [now left|right].
        rewrite Hdb1.
        destruct (touch_session_sessions (sessionId ctx) db s Hs)
          as (s' & Hs' & Hi' & Hu').
        exists s'. cbn [row_session_id row_user_id].
        split; [exact Hs'|]. split; congruence. }
    pose proof (generate_session_name_cases userId ctx
                  (content_of (yielded st))
                  (touch_session (sessionId ctx) db2) (world st)) as Hgen.
    destruct (generate_session_name _ _ _ _ _) as [db3 w3].
    rewrite H. cbn [fst snd] in *.
    destruct Hgen as [->|(_ & _ & name & _ & ->)].
    + now apply touch_session_owned.
    + now apply rename_session_owned, touch_session_owned.
Qed.

(** ** More on the drivers *)

(** *** The history a run leaves *)

Lemma completion_loop_rounds userId remaining st :
  exists added,
    currentMessages (snd (completion_loop userId remaining st))
    = currentMessages st ++ added
    /\ tool_rounds added.
Proof.
  revert st. induction remaining as [|remaining IH]; intros st;
    cbn [completion_loop]; state_simpl.
  - exists []. cbn [snd]. split; [now rewrite app_nil_r|constructor].
  - destruct (chat_completions_create openai (currentMessages st) (world st))
      as [[response|e] w].
    2:{ exists []. cbn [snd]. state_simpl.
        split; [now rewrite app_nil_r|constructor]. }
    destruct (head (choices response)) as [message|].
    2:{ exists []. cbn [snd]. state_simpl.
        split; [now rewrite app_nil_r|constructor]. }
    destruct (cm_tool_calls message) as [[|tc tcs]|].
    1,3: exists []; cbn [snd]; state_simpl;
      (split; [now rewrite app_nil_r|constructor]).
    match goal with
    | |- context [fold_left ?f ?calls ?st0] =>
        destruct (executeToolCall_batch userId calls st0) as (ms & Hms & Hans);
        destruct (IH (fold_left f calls st0)) as (added & Hadded & Hrounds)
    end.
    rewrite Hms in Hadded. state_simpl.
    eexists. split.
    + rewrite Hadded, <- !app_assoc. cbn [app]. reflexivity.
    + now constructor.
Qed.

Lemma stream_loop_rounds userId provider remaining st :
  exists added,
    currentMessages (snd (stream_loop userId provider remaining st))
    = currentMessages st ++ added
    /\ tool_rounds added.
Proof.
  revert st. induction remaining as [|remaining IH]; intros st;
    cbn [stream_loop]; state_simpl.
  - exists []. cbn [snd]. split; [now rewrite app_nil_r|constructor].
  - destruct (chat_completions_stream provider (currentMessages st) (world st))
      as [[stream|e] w].
    2:{ exists []. cbn [snd]. state_simpl.
        split; [now rewrite app_nil_r|constructor]. }
    destruct (read_stream stream) as [[rs|e] out].
    2:{ exists []. cbn [snd]. state_simpl.
        split; [now rewrite app_nil_r|constructor]. }
    destruct (hasToolCalls rs && (0 <? length (toolCalls rs))%nat).
    + unfold yield.
      match goal with
      | |- context [fold_left ?f ?calls ?st0] =>
          destruct (executeToolCallStreaming_batch userId calls st0)
            as (ms & Hms & Hans);
          destruct (IH (fold_left f calls st0)) as (added & Hadded & Hrounds)
      end.
      rewrite Hms in Hadded. state_simpl.
      eexists. split.
      * rewrite Hadded, <- !app_assoc. cbn [app]. reflexivity.
      * constructor; [|exact Hrounds]. now rewrite map_map.
    + exists []. cbn [snd].
      destruct (has_metadata _); unfold yield; state_simpl;
        (split; [now rewrite app_nil_r|constructor]).
Qed.

(** [X16] However a run ends, the history it leaves is the history it was
    given followed by rounds of tool calls: an assistant message with the
    calls of the round, then one tool message for each of them, in order
    and under their identifiers.  Nothing given is dropped or rewritten, and
    the answer of the last round is not appended. *)
Theorem run_appends_rounds_of_tool_calls messages userId provider w :
  (exists added,
      currentMessages (snd (getChatCompletion messages userId w))
      = messages ++ added
      /\ tool_rounds added)
  /\ (exists added,
        currentMessages (snd (streamChatCompletion messages userId provider w))
        = messages ++ added
        /\ tool_rounds added).
Proof.
  split.
  - unfold getChatCompletion.
    destruct (completion_loop_rounds userId maxIterations (initial messages w))
      as (added & Hadded & Hrounds).
    destruct (completion_loop _ _ _) as [r st]. now exists added.
  - unfold streamChatCompletion.
    destruct (stream_loop_rounds userId provider maxIterations
                (initial messages w)) as (added & Hadded & Hrounds).
    destruct (stream_loop _ _ _ _) as [r st]. now exists added.
Qed.

(** *** What the streaming driver shows of a tool call *)

(** [X17] The streaming driver appends one tool message for a tool call
    and yields its content as the one [tool_result] chunk of the call,
    unless no tool of that name is registered: then the tool message is
    appended and no chunk is yielded. *)
Theorem tool_result_chunk_is_the_tool_message userId c st :
  exists m,
    currentMessages (executeToolCallStreaming userId c st)
    = currentMessages st ++ [m]
    /\ msg_tool_call_id m = Some (tc_id c)
    /\ yielded (executeToolCallStreaming userId c st)
       = yielded st ++ match find_tool (tc_name c) with
                       | Some _ => [tool_result_chunk (msg_content m)]
                       | None => []
                       end.
Proof.
  unfold executeToolCallStreaming.
  destruct (find_tool (tc_name c)) as [tool|].
  2:{ eexists. state_simpl. split; [reflexivity|]. split; [reflexivity|].
      now rewrite app_nil_r. }
  destruct (parse_streamed (tc_arguments c)) as [args|e].
  2:{ eexists. unfold yield. state_simpl. repeat split; reflexivity. }
  destruct (handler tool args (authInfo userId) (world st)) as [[result|e] w0];
    eexists; unfold yield; state_simpl;
    rewrite ?(proj1 (proj2 (capture_frame _ _))),
            ?(proj1 (proj2 (proj2 (capture_frame _ _))));
    state_simpl; repeat split; reflexivity.
Qed.

(** *** The chunks of a run *)

Lemma executeToolCallStreaming_result userId c st :
  exists results,
    yielded (executeToolCallStreaming userId c st) = yielded st ++ results
    /\ forallb is_tool_result results = true
    /\ length results <= 1.
Proof.
  unfold executeToolCallStreaming.
  destruct (find_tool (tc_name c)) as [tool|].
  2:{ exists []. state_simpl. rewrite app_nil_r. auto. }
  destruct (parse_streamed (tc_arguments c)) as [args|e].
  2:{ eexists [_]. unfold yield. state_simpl. auto. }
  destruct (handler tool args (authInfo userId) (world st)) as [[result|e] w0];
    eexists [_]; unfold yield; state_simpl;
    rewrite ?(proj1 (proj2 (proj2 (capture_frame _ _))));
    state_simpl; auto.
Qed.

Lemma executeToolCallStreaming_batch_results userId calls st :
  exists results,
    yielded (fold_left (fun st c => executeToolCallStreaming userId c st)
               calls st)
    = yielded st ++ results
    /\ forallb is_tool_result results = true
    /\ length results <= length calls.
Proof.
  revert st. induction calls as [|c calls IH]; intros st; cbn [fold_left].
  - exists []. rewrite app_nil_r. auto.
  - destruct (executeToolCallStreaming_result userId c st)
      as (results & Hy & Hall & Hlen).
    destruct (IH (executeToolCallStreaming userId c st))
      as (results' & Hy' & Hall' & Hlen').
    exists (results ++ results'). split; [|split].
    + now rewrite Hy', Hy, <- app_assoc.
    + rewrite forallb_app, Hall, Hall'. reflexivity.
    + rewrite length_app. cbn [length]. lia.
Qed.

Lemma stream_loop_chunks userId provider remaining st :
  exists rounds answer,
    yielded (snd (stream_loop userId provider remaining st))
    = yielded st ++ rounds ++ answer
      ++ closing (fst (stream_loop userId provider remaining st))
           (snd (stream_loop userId provider remaining st))
    /\ stream_rounds rounds
    /\ forallb is_content answer = true.
Proof.
  revert st. induction remaining as [|remaining IH]; intros st;
    cbn [stream_loop]; state_simpl.
  - exists [], []. cbn [fst snd closing app]. rewrite app_nil_r.
    split; [reflexivity|]. split; [constructor|reflexivity].
  - destruct (chat_completions_stream provider (currentMessages st) (world st))
      as [[stream|e] w].
    2:{ exists [], []. cbn [fst snd closing app]. state_simpl.
        rewrite app_nil_r. split; [reflexivity|].
        split; [constructor|reflexivity]. }
    destruct (read_stream stream) as [[rs|e] out] eqn:Hread.
    2:{ exists [], out. cbn [fst snd closing app]. state_simpl.
        rewrite app_nil_r. split; [reflexivity|]. split; [constructor|].
        eapply read_stream_out; eassumption. }
    pose proof (proj1 (read_stream_out _ _ _ Hread)) as Hcontent.
    destruct (hasToolCalls rs && (0 <? length (toolCalls rs))%nat) eqn:Hcalls.
    + unfold yield.
      match goal with
      | |- context [fold_left ?f ?calls ?st0] =>
          destruct (executeToolCallStreaming_batch_results userId calls st0)
            as (results & Hy & Hall & Hlen);
          destruct (IH (fold_left f calls st0))
            as (rounds & answer & Hyielded & Hrounds & Hanswer)
      end.
      rewrite Hy in Hyielded. state_simpl.
      exists (out ++ tool_call_chunk (toolCalls rs) :: results ++ rounds),
        answer.
      split; [rewrite Hyielded, <- !app_assoc; cbn [app];
              rewrite <- ?app_assoc; reflexivity|].
      split; [|exact Hanswer].
      constructor; try assumption.
      apply andb_prop in Hcalls as [_ Hlength]. apply Nat.ltb_lt in Hlength.
      intros Hnil. rewrite Hnil in Hlength. cbn in Hlength. lia.
    + exists [], out. cbn [fst snd closing app].
      destruct (has_metadata (yield_all out (with_world w (next_iteration st))))
        eqn:Hmd; unfold yield; state_simpl;
        (split; [|split; [constructor|exact Hcontent]]);
        unfold has_metadata in *; state_simpl; rewrite Hmd;
        rewrite <- !app_assoc; reflexivity.
Qed.

(** [X23] What a run of the streaming driver yields is, in this order: for
    each round of tool calls, the text of the round as [content] chunks,
    one [tool_call] chunk with the calls and at most one [tool_result]
    chunk for each call; then the text of the last round; then, when the
    run returns, the [metadata] chunk if a sticky field is set and the
    [done] chunk, and nothing more when it throws. *)
Theorem run_yields_rounds_then_answer messages userId provider w :
  exists rounds answer,
    yielded (snd (streamChatCompletion messages userId provider w))
    = rounds ++ answer
      ++ closing (fst (streamChatCompletion messages userId provider w))
           (snd (streamChatCompletion messages userId provider w))
    /\ stream_rounds rounds
    /\ forallb is_content answer = true.
Proof.
  unfold streamChatCompletion.
  destruct (stream_loop_chunks userId provider maxIterations
              (initial messages w)) as (rounds & answer & Hy & Hrounds & Hanswer).
  destruct (stream_loop _ _ _ _) as [r st]. cbn [fst snd] in *.
  exists rounds, answer. split; [|auto].
  rewrite Hy. now destruct r.
Qed.

(** *** The ways a run fails *)

Lemma completion_loop_failures userId remaining st e st' :
  completion_loop userId remaining st = (Throw e, st') ->
  (e = Error "Maximum tool call iterations exceeded"
   /\ iteration st' = iteration st + remaining)
  \/ e = Error "No message in LLM response"
  \/ exists msgs w0 w1,
       chat_completions_create openai msgs w0 = (Throw e, w1).
Proof.
  revert st. induction remaining as [|remaining IH]; intros st;
    cbn [completion_loop]; state_simpl.
  - intros [= <- <-]. left. split; [reflexivity|lia].
  - destruct (chat_completions_create openai (currentMessages st) (world st))
      as [[response|e0] w] eqn:Hcreate.
    2:{ intros [= <- <-]. right. right. eauto. }
    destruct (head (choices response)) as [message|].
    2:{ intros [= <- <-]. right. now left. }
    destruct (cm_tool_calls message) as [[|tc tcs]|]; try discriminate.
    intros Hloop. apply IH in Hloop.
    destruct Hloop as [[-> Hi]|[->|Hprovider]]; [left|now right; left|auto].
    split; [reflexivity|].
    match type of Hi with
    | context [fold_left ?f ?calls ?st0] =>
        destruct (executeToolCall_batch_frame userId calls st0) as (Hi0 & _)
    end.
    cbn zeta in Hi0. rewrite Hi0 in Hi. state_simpl. lia.
Qed.

Lemma stream_loop_failures userId provider remaining st e st' :
  stream_loop userId provider remaining st = (Throw e, st') ->
  (e = Error "Maximum tool call iterations exceeded"
   /\ iteration st' = iteration st + remaining)
  \/ (exists msgs w0 w1,
        chat_completions_stream provider msgs w0 = (Throw e, w1))
  \/ exists msgs w0 stream w1 out,
       chat_completions_stream provider msgs w0 = (Return stream, w1)
       /\ read_stream stream = (Throw e, out).
Proof.
  revert st. induction remaining as [|remaining IH]; intros st;
    cbn [stream_loop]; state_simpl.
  - intros [= <- <-]. left. split; [reflexivity|lia].
  - destruct (chat_completions_stream provider (currentMessages st) (world st))
      as [[stream|e0] w] eqn:Hcreate.
    2:{ intros [= <- <-]. right. left. eauto. }
    destruct (read_stream stream) as [[rs|e0] out] eqn:Hread.
    2:{ intros [= <- <-]. right. right. eauto 10. }
    destruct (hasToolCalls rs && (0 <? length (toolCalls rs))%nat);
      [|discriminate].
    intros Hloop. apply IH in Hloop.
    destruct Hloop as [[-> Hi]|[Hprovider|Hstream]]; [left|auto..].
    split; [reflexivity|].
    match type of Hi with
    | context [fold_left ?f ?calls ?st0] =>
        destruct (executeToolCallStreaming_batch_frame userId calls st0)
          as (Hi0 & _)
    end.
    cbn zeta in Hi0. rewrite Hi0 in Hi. unfold yield in Hi. state_simpl. lia.
Qed.

(** [X18] A run fails for three reasons only, and what it throws is an
    [Error] whose message is that of the cause behind the prefix of the
    driver: the cap of ten rounds was reached, the provider refused a
    request, or the response was unusable, having no message for the
    completion driver, its stream breaking off or not reassembling for the
    streaming driver.  No tool call fails a run. *)
Theorem run_fails_for_three_reasons messages userId provider w :
  (forall e st,
      getChatCompletion messages userId w = (Throw e, st) ->
      exists cause,
        e = Error ("Failed to get chat completion: " +:+ message_of cause)
        /\ (cause = Error "Maximum tool call iterations exceeded"
            /\ iteration st = 10
            \/ cause = Error "No message in LLM response"
            \/ exists msgs w0 w1,
                 chat_completions_create openai msgs w0 = (Throw cause, w1)))
  /\ (forall e st,
        streamChatCompletion messages userId provider w = (Throw e, st) ->
        exists cause,
          e = Error ("Failed to stream chat completion: " +:+ message_of cause)
          /\ (cause = Error "Maximum tool call iterations exceeded"
              /\ iteration st = 10
              \/ (exists msgs w0 w1,
                    chat_completions_stream provider msgs w0
                    = (Throw cause, w1))
              \/ exists msgs w0 stream w1 out,
                   chat_completions_stream provider msgs w0
                   = (Return stream, w1)
                   /\ read_stream stream = (Throw cause, out))).
Proof.
  split; intros e st.
  - unfold getChatCompletion.
    destruct (completion_loop userId maxIterations (initial messages w))
      as [r st0] eqn:Hloop.
    intros [= Hr ->].
    destruct (rethrow_throws _ _ _ Hr) as (cause & -> & ->).
    exists cause. split; [reflexivity|].
    exact (completion_loop_failures _ _ _ _ _ Hloop).
  - unfold streamChatCompletion.
    destruct (stream_loop userId provider maxIterations (initial messages w))
      as [r st0] eqn:Hloop.
    intros [= Hr ->].
    destruct (rethrow_throws _ _ _ Hr) as (cause & -> & ->).
    exists cause. split; [reflexivity|].
    exact (stream_loop_failures _ _ _ _ _ _ Hloop).
Qed.

(** *** A delta beyond the end of the calls in progress *)

(** [X19] A delta with a function part whose index is beyond the end of the
    calls in progress has one empty entry appended, which is not at its
    index: the first of its identifier, name and arguments that is present
    and not empty is then written to an entry that does not exist, and the
    [TypeError] of the engine ends the reading of the chunk that brought the
    delta first, none of its text being yielded; a delta that carries none
    of them leaves the appended entry behind. *)
Theorem delta_beyond_the_end calls d f index :
  tcd_function d = Some f ->
  tcd_index d = Some index ->
  length calls < index ->
  merge_delta calls d
  = match truthy (tcd_id d), truthy (fd_name f), truthy (fd_arguments f) with
    | Some _, _, _ => Throw (TypeError_undefined "set" "setting" "id")
    | None, Some _, _ => Throw (TypeError_undefined "set" "setting" "name")
    | None, None, Some _ =>
        Throw (TypeError_undefined "read" "reading" "arguments")
    | None, None, None => Return (calls ++ [empty_call])
    end
  /\ forall chunk choice choices ds rs e,
       chunk_choices chunk = Some (choice :: choices) ->
       delta_tool_calls choice = Some (d :: ds) ->
       toolCalls rs = calls ->
       merge_delta calls d = Throw e ->
       process_chunk chunk rs = (Throw e, []).
Proof.
  intros Hf Hindex Hlt. split.
  2:{ intros chunk choice choices ds rs e Hchoice Hdeltas <- Hthrow.
      unfold process_chunk. rewrite Hchoice, Hdeltas.
      cbn [merge_deltas]. now rewrite Hthrow. }
  unfold merge_delta. rewrite Hf, Hindex.
  assert (Hle : (length calls <=? index)%nat = true)
    by (apply Nat.leb_le; lia).
  rewrite Hle. unfold assign.
  assert (Hnone : forall x, (calls ++ [x]) !! index = None).
  { intros x. apply lookup_ge_None. rewrite length_app. cbn [length]. lia. }
  destruct (truthy (tcd_id d)) as [v|] eqn:Hid.
  { now rewrite Hnone. }
  destruct (truthy (fd_name f)) as [v|]; [now rewrite Hnone|].
  destruct (truthy (fd_arguments f)) as [v|]; [now rewrite Hnone|].
  unfold empty_call.
  destruct (tcd_id d) as [[|c s]|]; cbn in Hid; try discriminate; reflexivity.
Qed.

(** ** The chat page *)

(** *** Objects *)

Lemma get_set o k v key :
  JS.get (JS.set o k v) key
  = if String.eqb k key then Some v else JS.get o key.
Proof.
  induction o as [|[k0 v0] o IH]; cbn [JS.set JS.get].
  - reflexivity.
  - destruct (String.eqb k0 k) eqn:Hk; cbn [JS.get].
    + apply String.eqb_eq in Hk. subst k0.
      now destruct (String.eqb k key).
    + rewrite IH. destruct (String.eqb k0 key) eqn:Hkey; [|reflexivity].
      apply String.eqb_eq in Hkey. subst key. now rewrite String.eqb_sym, Hk.
Qed.

Lemma get_spread a b key :
  distinct_keys b = true ->
  JS.get (spread a b) key
  = match JS.get b key with Some v => Some v | None => JS.get a key end.
Proof.
  unfold spread. revert a.
  induction b as [|[k v] b IH]; intros a; cbn [fold_left distinct_keys JS.get].
  - reflexivity.
  - destruct (JS.get b k) eqn:Hfresh; [discriminate|].
    intros Hb. rewrite (IH _ Hb). cbn [fst snd]. rewrite get_set.
    destruct (String.eqb k key) eqn:Hk; [|reflexivity].
    apply String.eqb_eq in Hk. subst key. now rewrite Hfresh.
Qed.

(** *** The message that receives the stream *)

Lemma last_app_one {A} (rows : list A) x : last (rows ++ [x]) = Some x.
Proof. apply last_snoc. Qed.

Lemma replace_last {A} (rows : list A) x y :
  <[pred (length (rows ++ [x])) := y]> (rows ++ [x]) = rows ++ [y].
Proof.
  rewrite length_app. cbn [length]. rewrite Nat.add_1_r. cbn [pred].
  rewrite insert_app_r_alt by lia. now rewrite Nat.sub_diag.
Qed.

(** [X20] The metadata a run ends with reaches the page as it reaches the
    database.  On a page whose cached messages end with an assistant
    message, the [metadata] chunk changes that message only, leaving its
    text: its widget is the one the wrapper stores, and so are the
    properties of its structured content, for a structured content that has
    no [_meta] of its own beside the [_meta] of the tool. *)
Theorem page_shows_the_stored_widget
    pm msgs a page now Date_now metadata :
  pendingMessageRef page = Some pm ->
  getData page (pending_sessionId pm) = Some (msgs ++ [a]) ->
  row_role a = role_assistant ->
  plain_metadata metadata = true ->
  exists shown,
    getData (onData now Date_now (metadata_chunk metadata) page)
      (pending_sessionId pm)
    = Some (msgs ++ [shown])
    /\ row_content shown = row_content a
    /\ row_id shown = row_id a
    /\ row_widget_id shown = truthy (md_widgetId metadata)
    /\ same_properties (row_structured_content shown)
         (combinedStructuredContent (md_structuredContent metadata)
            (md_meta metadata)).
Proof.
  intros Href Hdata Hrole Hplain.
  unfold onData. rewrite Href.
  cbn [setData getData]. rewrite String.eqb_refl, Hdata.
  unfold apply_metadata. rewrite last_app_one, Hrole, replace_last.
  eexists. split; [reflexivity|].
  cbn [row_content row_id row_widget_id row_structured_content].
  repeat (split; [reflexivity|]).
  unfold plain_metadata in Hplain.
  unfold combinedStructuredContent, same_properties.
  destruct (md_structuredContent metadata) as [sc|],
    (md_meta metadata) as [m|]; try exact I.
  - apply andb_prop in Hplain as [Hkeys Hmeta].
    intros key. rewrite (get_spread _ sc key Hkeys).
    rewrite (get_spread sc [("_meta", Obj m)] key eq_refl).
    cbn [JS.get].
    destruct (String.eqb "_meta" key) eqn:Hkey.
    + apply String.eqb_eq in Hkey. subst key.
      destruct (JS.get sc "_meta"); [discriminate|reflexivity].
    + now destruct (JS.get sc key).
  - apply andb_prop in Hplain as [Hkeys _].
    intros key. rewrite (get_spread _ sc key Hkeys).
    cbn [spread fold_left JS.get]. now destruct (JS.get sc key).
  - intros key. reflexivity.
Qed.

(** What the cached messages of the pending session are once the text
    [text] has been received and the events [events] follow. *)
Lemma deliver_text pm old events : forall page text,
  pendingMessageRef page = Some pm ->
  ends_with_assistant old = false ->
  shows old text (getData page (pending_sessionId pm)) ->
  shows old (text +:+ content_of (chunks_of events))
    (getData (deliver events page) (pending_sessionId pm)).
Proof.
  induction events as [|[[now Date_now] [chunk|error]] events IH];
    intros page text Href Hold Hpage.
  - cbn [chunks_of flat_map content_of deliver fold_left].
    now rewrite string_app_nil_r.
  - cbn [chunks_of flat_map app]. fold (chunks_of events).
    change (deliver ((now, Date_now, emit_next chunk) :: events) page)
      with (deliver events (onData now Date_now chunk page)).
    assert (Hsame : forall page',
               pendingMessageRef page' = Some pm ->
               getData page' (pending_sessionId pm)
               = getData page (pending_sessionId pm) ->
               shows old (text +:+ content_of (chunks_of events))
                 (getData (deliver events page') (pending_sessionId pm))).
    { intros page' Href' Hdata. apply IH; [assumption..|].
      rewrite Hdata. exact Hpage. }
    unfold onData. rewrite Href.
    destruct chunk as [content|calls|result|metadata|id]; cbn [content_of].
    + destruct content as [|c content].
      { rewrite string_app_nil_l. now apply Hsame. }
      rewrite <- string_app_assoc. apply IH; [exact Href|assumption|].
      cbn [setData getData]. rewrite String.eqb_refl.
      destruct text as [|t text]; unfold shows in Hpage.
      * rewrite Hpage, string_app_nil_l. unfold append_content.
        unfold ends_with_assistant in Hold.
        destruct (last old) as [[? ? ? ? [] ? ? ?]|]; try discriminate;
          (eexists; split; [reflexivity|]; split; reflexivity).
      * destruct Hpage as (m & -> & Hcontent & Hrole).
        unfold append_content. rewrite last_app_one, Hrole, replace_last.
        rewrite string_app_cons.
        eexists. split; [reflexivity|].
        cbn [row_content row_role]. rewrite Hcontent, string_app_cons.
        split; reflexivity.
    + now apply Hsame.
    + now apply Hsame.
    + apply IH; [exact Href|assumption|].
      cbn [setData getData]. rewrite String.eqb_refl.
      destruct text as [|t text]; unfold shows in *.
      * rewrite Hpage. unfold apply_metadata.
        unfold ends_with_assistant in Hold.
        destruct (last old) as [[? ? ? ? [] ? ? ?]|]; try discriminate;
          reflexivity.
      * destruct Hpage as (m & -> & Hcontent & Hrole).
        unfold apply_metadata. rewrite last_app_one, Hrole, replace_last.
        eexists. split; [reflexivity|].
        cbn [row_content row_role]. split; [assumption|reflexivity].
    + now apply Hsame.
  - cbn [chunks_of flat_map app]. fold (chunks_of events).
    change (deliver ((now, Date_now, emit_error error) :: events) page)
      with (deliver events (onError error page)).
    apply IH; [|assumption|]; unfold onError; rewrite Href;
      cbn [pendingMessageRef getData]; [reflexivity|assumption].
Qed.

(** [X21] While a message is pending, the page shows the text of the
    stream as one assistant message after the messages it held, whatever
    else the subscription emits: the cached messages of the session, which
    did not end with an assistant message, are afterwards those messages
    unchanged, followed, if any text was received, by one assistant message
    whose content is the texts of the [content] chunks in order, which is
    the content the wrapper stores. *)
Theorem page_shows_the_streamed_text pm old page events :
  pendingMessageRef page = Some pm ->
  getData page (pending_sessionId pm) = Some old ->
  ends_with_assistant old = false ->
  shows old (content_of (chunks_of events))
    (getData (deliver events page) (pending_sessionId pm)).
Proof.
  intros Href Hdata Hold.
  pose proof (deliver_text pm old events page "" Href Hold Hdata) as H.
  now rewrite string_app_nil_l in H.
Qed.

Lemma onData_ref now Date_now chunk page :
  pendingMessageRef (onData now Date_now chunk page) = pendingMessageRef page.
Proof.
  unfold onData. destruct (pendingMessageRef page) eqn:Href; [|exact Href].
  destruct chunk as [[|c content]| | | |]; cbn [setData pendingMessageRef];
    first [exact Href | reflexivity].
Qed.

Lemma deliver_ref events page :
  pendingMessageRef (deliver events page) = pendingMessageRef page.
Proof.
  revert page.
  induction events as [|[[now Date_now] [chunk|error]] events IH]; intros page.
  - reflexivity.
  - change (deliver ((now, Date_now, emit_next chunk) :: events) page)
      with (deliver events (onData now Date_now chunk page)).
    rewrite IH. apply onData_ref.
  - change (deliver ((now, Date_now, emit_error error) :: events) page)
      with (deliver events (onError error page)).
    rewrite IH. unfold onError.
    destruct (pendingMessageRef page) eqn:Href; [reflexivity|exact Href].
Qed.

Lemma deliver_app events events' page :
  deliver (events ++ events') page = deliver events' (deliver events page).
Proof. apply fold_left_app. Qed.

Lemma chunks_of_combine times chunks :
  length times = length chunks ->
  chunks_of (combine times (map emit_next chunks)) = chunks.
Proof.
  revert chunks.
  induction times as [|[now Date_now] times IH]; intros [|chunk chunks];
    cbn [length combine map chunks_of flat_map app]; try discriminate.
  - reflexivity.
  - intros [= Hlen]. f_equal. now apply IH.
Qed.

Lemma combine_snoc {A B} (xs : list A) (ys : list B) x y :
  length xs = length ys ->
  combine (xs ++ [x]) (ys ++ [y]) = combine xs ys ++ [(x, y)].
Proof.
  revert ys. induction xs as [|x0 xs IH]; intros [|y0 ys];
    cbn [length app combine]; try discriminate.
  - reflexivity.
  - intros [= Hlen]. f_equal. now apply IH.
Qed.

(** [X22] When a run of [streamUserMessageById] succeeds and the page that
    waits for it receives its chunks, the text the page shows at the end,
    after the messages it held, is the content of the assistant message the
    run stored; the page is no longer streaming and no message is
    pending. *)
Theorem page_shows_the_stored_text
    userId messageId db w chunks db' w' pm old page times :
  streamUserMessageById userId messageId db w = (Return tt, chunks, db', w') ->
  pendingMessageRef page = Some pm ->
  getData page (pending_sessionId pm) = Some old ->
  ends_with_assistant old = false ->
  length times = length chunks ->
  let page' := deliver (combine times (map emit_next chunks)) page in
  exists row,
    devMessage db' = devMessage db ++ [row]
    /\ row_role row = role_assistant
    /\ shows old (row_content row) (getData page' (pending_sessionId pm))
    /\ isStreaming page' = false
    /\ pendingMessage page' = None.
Proof.
  intros Hrun Href Hdata Hold Hlen page'.
  pose proof (deliver_text pm old (combine times (map emit_next chunks))
                page "" Href Hold Hdata) as Hshown.
  rewrite string_app_nil_l, (chunks_of_combine _ _ Hlen) in Hshown.
  fold page' in Hshown.
  destruct (streamUserMessageById_cases userId messageId db w)
    as [(e & _ & H)|[(ctx & db1 & m & st & _ & _ & _ & H)
                    |(ctx & db1 & st & Hload & _ & H)]];
    [rewrite H in Hrun; discriminate Hrun..|].
  destruct (load_user_message_returns _ _ _ _ _ Hload) as (_ & Hmsgs & _).
  unfold insert_assistant in H.
  match type of H with
  | context [generate_session_name ?u ?c ?t ?d ?w0] =>
      pose proof (generate_session_name_messages u c t d w0) as Hgen;
      destruct (generate_session_name u c t d w0) as [db3 w3]
  end.
  cbn [fst touch_session devMessage] in Hgen.
  rewrite H in Hrun. injection Hrun as <- <- <-.
  eexists. split; [rewrite Hgen, Hmsgs; reflexivity|].
  split; [reflexivity|]. cbn [row_content].
  split.
  { rewrite content_of_app in Hshown. cbn [content_of] in Hshown.
    now rewrite string_app_nil_r in Hshown. }
  subst page'. rewrite length_app in Hlen. cbn [length] in Hlen.
  assert (Hsplit : exists times0 now Date_now,
             times = times0 ++ [(now, Date_now)]
             /\ length times0 = length (yielded st)).
  { destruct (rev times) as [|[now Date_now] rtimes] eqn:Hrev.
    - apply (f_equal (@length _)) in Hrev. rewrite length_rev in Hrev.
      cbn in Hrev. lia.
    - exists (rev rtimes), now, Date_now.
      apply (f_equal (@rev _)) in Hrev. rewrite rev_involutive in Hrev.
      cbn [rev] in Hrev. split; [exact Hrev|].
      rewrite Hrev, length_app in Hlen. cbn [length] in Hlen. lia. }
  destruct Hsplit as (times0 & now & Date_now & -> & Hlen0).
  rewrite map_app. cbn [map].
  rewrite combine_snoc by (rewrite length_map; exact Hlen0).
  rewrite deliver_app.
  cbn [deliver fold_left]. unfold onData.
  rewrite (deliver_ref _ page), Href. cbn [isStreaming pendingMessage]. auto.
Qed.

End Chat.

(** ** The properties on the small installation *)


(** The first scenario of the specification: an answer without tools. *)
Example scenario_answer_without_tools :
  exists st,
    getChatCompletion JSON.parse Example.registry Example.answers_four
      (Example.asks "What's 2+2?") "u1" 0
    = (Return {| res_content := "4"; res_meta := None;
                 res_structuredContent := None; res_widgetId := None |}, st)
    /\ currentMessages st = Example.asks "What's 2+2?".
Proof. eexists. split; reflexivity. Qed.

(** The second scenario: one call of [add], then the final answer. *)
Example scenario_one_tool_call :
  exists st,
    getChatCompletion JSON.parse Example.registry Example.adds_then_sums
      (Example.asks "What is 1+2?") "u1" 0
    = (Return {| res_content := "The sum is 3"; res_meta := None;
                 res_structuredContent := None; res_widgetId := None |}, st)
    /\ currentMessages st
       = Example.asks "What is 1+2?"
         ++ [assistant_message ""
               [{| mtc_id := "call_1";
                   mtc_function := {| fn_name := "add";
                                      fn_arguments := Example.add_arguments |} |}];
             tool_message "3" "call_1" "add"].
Proof. eexists. split; reflexivity. Qed.

(** The provider that always asks for a tool: both drivers stop at the
    tenth round, having made ten requests. *)
Lemma iteration_cap_witness :
  (exists st : LoopState,
      getChatCompletion JSON.parse Example.registry Example.always_calls
        (Example.asks "Loop") "u1" 0
      = (Throw (Error
           "Failed to get chat completion: Maximum tool call iterations exceeded"),
         st)
      /\ iteration st = 10)
  /\ world (snd (getChatCompletion JSON.parse Example.registry
                   Example.always_calls (Example.asks "Loop") "u1" 0)) = 10
  /\ world (snd (streamChatCompletion JSON.parse Example.registry
                   Example.always_streams (Example.asks "Loop") "u1" grok 0))
     = 10.
Proof.
  split; [|split; vm_compute; reflexivity].
  destruct (iteration_cap_is_ten JSON.parse Example.registry
              Example.always_calls Example.always_streams
              (Example.asks "Loop") "u1" grok 0) as (_ & _ & Hcap & _).
  apply Hcap. intros msgs served.
  destruct served; eexists _, _, _, _, _; repeat split; reflexivity.
Defined.









(** The same session with a provider that cannot be reached. *)
Lemma fatal_failure_witness :
  streamMessage JSON.parse Example.registry Example.uuid
    Example.names_sessions Example.unreachable "u1" "m3"
    Example.three_messages 0
  = ([emit_error (Error "Failed to stream chat completion: Connection error.")],
     touch_session "s1" Example.three_messages, 1)
  /\ devMessage (touch_session "s1" Example.three_messages)
     = devMessage Example.three_messages.
Proof.
  destruct (load_user_message "u1" "m3" Example.three_messages)
    as [[ctx|e] db1] eqn:Hload; [|discriminate Hload].
  destruct (fatal_failure_persists_nothing JSON.parse Example.registry
              Example.uuid Example.names_sessions Example.unreachable
              "u1" "m3" Example.three_messages 0 ctx db1 Hload)
    as (Hfatal & _).
  destruct (streamChatCompletion JSON.parse Example.registry
              Example.unreachable (chatMessages ctx) "u1" grok 0)
    as [[[]|e] st] eqn:Hrun.
  { exfalso. vm_compute in Hload. injection Hload as <- <-.
    discriminate Hrun. }
  destruct (Hfatal e st eq_refl) as (_ & Hdb & Hmsgs & _ & _ & Hevents).
  vm_compute in Hload. injection Hload as <- <-.
  vm_compute in Hrun. injection Hrun as <- <-.
  split; [exact Hevents | exact Hmsgs].
Defined.

(** [C9], as stated, fails: the history starts with the message that
    contains the marker, not after it. *)
Lemma marker_message_is_kept :
  exists ctx db1,
    load_user_message "u1" "m4" Example.restarted = (Return ctx, db1)
    /\ chatMessages ctx
       = [to_chat_message role_user Example.restart;
          to_chat_message role_user "What is 2+2?"]
    /\ map to_chat
         (history_after_last_marker (session_rows "u1" ctx Example.restarted))
       = [to_chat_message role_user "What is 2+2?"]
    /\ chatMessages ctx
       <> map to_chat
            (history_after_last_marker
               (session_rows "u1" ctx Example.restarted)).
Proof. eexists _, _. repeat split; [reflexivity..|discriminate]. Qed.

(** The restarted session: the history is the marker message and the
    question. *)
Lemma history_restarts_witness :
  exists ctx db1,
    load_user_message "u1" "m4" Example.restarted = (Return ctx, db1)
    /\ chatMessages ctx
       = map to_chat [Example.row "m3" Example.restart role_user 3;
                      Example.row "m4" "What is 2+2?" role_user 4].
Proof.
  destruct (load_user_message "u1" "m4" Example.restarted)
    as [[ctx|e] db1] eqn:Hload; [|discriminate Hload].
  destruct (history_restarts_at_last_marker JSON.parse Example.registry
              Example.uuid Example.names_sessions Example.streams_four
              "u1" "m4" Example.restarted 0 ctx db1 Hload) as (_ & Hlast & _).
  exists ctx, db1. split; [reflexivity|].
  apply (Hlast [Example.row "m1" "Hello" role_user 1;
                Example.row "m2" "Hello! How can I help?" role_assistant 2]).
  - vm_compute in Hload. injection Hload as <- <-. reflexivity.
  - reflexivity.
  - reflexivity.
Defined.

(** [show_todos] called with the empty string for arguments, by each
    driver. *)
Lemma empty_arguments_witness :
  executeToolCall JSON.parse Example.registry "u1"
    {| mtc_id := "call_1";
       mtc_function := {| fn_name := "show_todos"; fn_arguments := "" |} |}
    (initial [] 0)
  = push (tool_message
            (error_content (Error "Unexpected end of JSON input"))
            "call_1" "show_todos") (initial [] 0)
  /\ finalStructuredContent
       (executeToolCallStreaming JSON.parse Example.registry "u1"
          {| tc_id := "call_1"; tc_name := "show_todos"; tc_arguments := "" |}
          (initial [] 0))
     = Some [("todos", Arr [])].
Proof.
  destruct (empty_arguments_streamed_as_empty_object JSON.parse
              Example.registry "u1" "call_1" "show_todos" Example.show_todos
              (initial [] 0) (Error "Unexpected end of JSON input")
              eq_refl eq_refl) as (Hstream & Hcompletion & _).
  split; [exact Hcompletion|]. rewrite Hstream. reflexivity.
Defined.

(** ** The chat service on the small installation *)

(** The second user asks for the session of the first. *)
Lemma foreign_session_witness :
  getMessages "u2" "s1" Example.two_users
  = Throw (Error "Session with ID s1 not found")
  /\ deleteSession "u2" "s1" Example.two_users
     = (Throw (Error "Session with ID s1 not found"), Example.two_users).
Proof.
  destruct (foreign_session_is_not_found Example.uuid "u2" "s1"
              Example.two_users eq_refl) as (Hget & Hdelete & _).
  split; [exact Hget | exact Hdelete].
Defined.

(** The first user reads the three messages of the session, not the message
    of the second user that was written between them. *)
Lemma getMessages_witness :
  getMessages "u1" "s1" Example.two_users
  = Return (devMessage Example.three_messages)
  /\ ascending (devMessage Example.three_messages) = true.
Proof.
  split; [reflexivity|].
  exact (proj1 (getMessages_returns_own_rows_in_order "u1" "s1"
                  Example.two_users (devMessage Example.three_messages)
                  eq_refl)).
Defined.


(** A second session of the first user. *)
Lemma created_session_witness :
  exists s db',
    createSession Example.uuid "u1" "Sums" Example.two_users = (s, db')
    /\ map ses_name (listSessions "u1" db') = ["Sums"; "New conversation"]
    /\ map ses_name (listSessions "u2" db') = ["Salut"].
Proof.
  destruct (createSession Example.uuid "u1" "Sums" Example.two_users)
    as [s db'] eqn:Hcreate.
  destruct (created_session_is_listed_first Example.uuid "u1" "Sums"
              Example.two_users s db' eq_refl Hcreate)
    as (Hlist & Hname & _ & Hother & _).
  exists s, db'. split; [reflexivity|]. split.
  - rewrite Hlist. cbn [map]. rewrite Hname. reflexivity.
  - rewrite (Hother "u2"); [reflexivity|discriminate].
Defined.

(** With two sessions, the one that gets a message comes first. *)
Lemma written_session_witness :
  exists m db' s rest,
    addUserMessage Example.uuid "u1" "s1" "Thanks" role_user None None
      (snd (createSession Example.uuid "u1" "Sums" Example.two_users))
    = (Return m, db')
    /\ listSessions "u1" db' = s :: rest /\ ses_id s = "s1".
Proof.
  destruct (addUserMessage Example.uuid "u1" "s1" "Thanks" role_user None None
              (snd (createSession Example.uuid "u1" "Sums" Example.two_users)))
    as [[m|e] db'] eqn:Hadd; [|discriminate Hadd].
  destruct (proj1 (written_session_is_listed_first Example.uuid "u1"
                     (snd (createSession Example.uuid "u1" "Sums"
                             Example.two_users)) eq_refl)
              "s1" "Thanks" role_user None None m db' Hadd)
    as (s & rest & Hlist & Hid).
  exists m, db', s, rest. auto.
Defined.

(** The first user deletes two messages, one of them by the identifier of a
    message of the second user. *)
Lemma optimistic_delete_witness :
  getMessages "u1" "s1"
    (snd (deleteMessage "u1" ["m2"; "m9"] Example.two_users))
  = Return [Example.row "m1" "Hello" role_user 1;
            Example.row "m3" "What is 2+2?" role_user 3].
Proof.
  destruct (optimistic_delete_is_what_the_server_holds "u1" "s1" ["m2"; "m9"]
              Example.two_users (devMessage Example.three_messages)
              ltac:(discriminate) eq_refl) as (_ & shown & Hshown & Hget).
  injection Hshown as <-. exact Hget.
Defined.

Lemma deleteMessage_witness :
  getMessages "u2" "s2"
    (snd (deleteMessage "u1" ["m2"; "m9"] Example.two_users))
  = getMessages "u2" "s2" Example.two_users.
Proof.
  destruct (deleteMessage_spares_other_users "u1" ["m2"; "m9"]
              Example.two_users ltac:(discriminate)) as (_ & _ & Hother & _).
  apply Hother. discriminate.
Defined.

(** The first user deletes the session. *)
Lemma deleted_session_witness :
  exists r db',
    deleteSession "u1" "s1" Example.two_users = (Return r, db')
    /\ getMessages "u1" "s1" db' = Throw (Error "Session with ID s1 not found")
    /\ map row_id (devMessage db') = ["m9"].
Proof.
  destruct (deleteSession "u1" "s1" Example.two_users) as [[r|e] db'] eqn:Hdel;
    [|discriminate Hdel].
  destruct (deleted_session_is_gone "u1" "s1" Example.two_users r db' Hdel)
    as (_ & Hget & _).
  exists r, db'. split; [reflexivity|]. split; [exact Hget|].
  injection Hdel as _ <-. reflexivity.
Defined.

Lemma owned_sessions_witness :
  messages_in_owned_sessions
    (snd (deleteSession "u1" "s1" Example.two_users)) = true.
Proof.
  exact (proj2 (proj2 (proj2 (service_keeps_messages_in_owned_sessions
                                Example.uuid Example.two_users eq_refl)))
           "u1" "s1").
Defined.

(** The second user asks for the answer to a message of the first. *)
Lemma unknown_message_witness :
  streamMessage JSON.parse Example.registry Example.uuid
    Example.names_sessions Example.streams_four "u2" "m3" Example.two_users 0
  = ([emit_error (Error "User message with ID m3 not found")],
     Example.two_users, 0).
Proof.
  exact (unknown_message_emits_one_error JSON.parse Example.registry
           Example.uuid Example.names_sessions Example.streams_four
           "u2" "m3" Example.two_users 0 eq_refl).
Defined.

(** The events of the session of three messages: the answer, the [done]
    chunk of the driver and that of the wrapper. *)
Lemma subscription_witness :
  fst (fst (streamMessage JSON.parse Example.registry Example.uuid
              Example.names_sessions Example.streams_four "u1" "m3"
              Example.three_messages 0))
  = [emit_next (content_chunk "4"); emit_next (done_chunk None);
     emit_next (done_chunk (Some (Example.uuid 0)))].
Proof.
  destruct (streamUserMessageById JSON.parse Example.registry Example.uuid
              Example.names_sessions Example.streams_four "u1" "m3"
              Example.three_messages 0) as [[[r chunks] db'] w'] eqn:Hrun.
  pose proof (subscription_ends_with_done_or_one_error JSON.parse
                Example.registry Example.uuid Example.names_sessions
                Example.streams_four "u1" "m3" Example.three_messages 0
                r chunks db' w' Hrun) as Hevents.
  vm_compute in Hrun. injection Hrun as <- <- <- <-.
  cbn match in Hevents. destruct Hevents as [-> _]. reflexivity.
Defined.

(** The first and the third message of the session give one history. *)
Lemma whole_session_witness :
  streamUserMessageById JSON.parse Example.registry Example.uuid
    Example.names_sessions Example.streams_four "u1" "m1"
    Example.three_messages 0
  = streamUserMessageById JSON.parse Example.registry Example.uuid
      Example.names_sessions Example.streams_four "u1" "m3"
      Example.three_messages 0.
Proof.
  destruct (load_user_message "u1" "m1" Example.three_messages)
    as [[ctx|e] db1] eqn:Hload; [|discriminate Hload].
  destruct (load_user_message "u1" "m3" Example.three_messages)
    as [[ctx'|e] db1'] eqn:Hload'; [|discriminate Hload'].
  refine (proj2 (history_is_the_whole_session JSON.parse Example.registry
                   Example.uuid Example.names_sessions Example.streams_four
                   "u1" "m1" "m3" Example.three_messages 0 ctx ctx' db1 db1'
                   Hload Hload' _)).
  vm_compute in Hload, Hload'.
  injection Hload as <- <-. injection Hload' as <- <-. reflexivity.
Defined.

(** The fourth message is found and ends the history. *)
Lemma added_message_history_witness :
  exists m db' ctx db'',
    addUserMessage Example.uuid "u1" "s1" "Thanks" role_user None None
      Example.two_users = (Return m, db')
    /\ load_user_message "u1" (row_id m) db' = (Return ctx, db'')
    /\ map msg_content (chatMessages ctx)
       = ["Hello"; "Hello! How can I help?"; "What is 2+2?"; "Thanks"].
Proof.
  destruct (addUserMessage Example.uuid "u1" "s1" "Thanks" role_user None None
              Example.two_users) as [[m|e] db'] eqn:Hadd; [|discriminate Hadd].
  destruct (added_message_ends_the_history Example.uuid "u1" "s1" "Thanks"
              role_user None None Example.two_users m db' eq_refl eq_refl Hadd)
    as (ctx & db'' & Hload & _).
  exists m, db', ctx, db''. split; [reflexivity|]. split; [exact Hload|].
  vm_compute in Hadd. injection Hadd as <- <-.
  vm_compute in Hload. injection Hload as <- <-. reflexivity.
Defined.

(** The session of three messages takes the name the provider gives. *)
Lemma session_name_witness :
  exists r chunks db' w',
    streamUserMessageById JSON.parse Example.registry Example.uuid
      Example.names_sessions Example.streams_four "u1" "m3"
      Example.two_users 0 = (r, chunks, db', w')
    /\ map ses_id (devSession db') = ["s1"; "s2"]
    /\ map ses_name (devSession db') = ["Simple sums"; "Salut"].
Proof.
  destruct (streamUserMessageById JSON.parse Example.registry Example.uuid
              Example.names_sessions Example.streams_four "u1" "m3"
              Example.two_users 0) as [[[r chunks] db'] w'] eqn:Hrun.
  destruct (session_is_named_after_three_messages JSON.parse Example.registry
              Example.uuid Example.names_sessions Example.streams_four
              "u1" "m3" Example.two_users 0 r chunks db' w' Hrun)
    as (Hids & _).
  exists r, chunks, db', w'. split; [reflexivity|]. split; [exact Hids|].
  vm_compute in Hrun. injection Hrun as _ _ <- _. reflexivity.
Defined.

Lemma stream_owned_sessions_witness :
  messages_in_owned_sessions
    (snd (fst (streamUserMessageById JSON.parse Example.registry Example.uuid
                 Example.names_sessions Example.streams_four "u1" "m3"
                 Example.two_users 0))) = true.
Proof.
  exact (stream_keeps_messages_in_owned_sessions JSON.parse Example.registry
           Example.uuid Example.names_sessions Example.streams_four
           "u1" "m3" Example.two_users 0 eq_refl).
Defined.

(** A first delta that names the call of index 1 while no call is in
    progress. *)
Lemma delta_beyond_the_end_witness :
  merge_delta [] (Example.delta 1 (Some "call_2") (Some "add") None)
  = Throw (Error "Cannot set properties of undefined (setting 'id')").
Proof.
  exact (proj1 (delta_beyond_the_end []
                  (Example.delta 1 (Some "call_2") (Some "add") None)
                  {| fd_name := Some "add"; fd_arguments := None |} 1
                  eq_refl eq_refl (le_n 1))).
Defined.

(** ** The chat page on the small installation *)

(** The page has received some text when the metadata of a widget
    arrive. *)
Lemma stored_widget_witness :
  exists shown,
    getData
      (onData 8 8
         (metadata_chunk
            {| md_meta := Some [("path", Str "widgets/todos")];
               md_structuredContent := Some [("todos", Arr [])];
               md_widgetId := Some "widgets/todos" |})
         (onData 7 7 (content_chunk "Here") Example.waiting)) "s1"
    = Some (devMessage Example.three_messages ++ [shown])
    /\ row_content shown = "Here"
    /\ row_widget_id shown = Some "widgets/todos".
Proof.
  destruct (page_shows_the_stored_widget
              {| pending_sessionId := "s1"; pending_messageId := "m3" |}
              (devMessage Example.three_messages)
              {| row_id := "streaming-7"; row_content := "Here";
                 row_structured_content := None; row_widget_id := None;
                 row_role := role_assistant; row_session_id := "s1";
                 row_user_id := ""; row_created_at := 7 |}
              (onData 7 7 (content_chunk "Here") Example.waiting) 8 8
              {| md_meta := Some [("path", Str "widgets/todos")];
                 md_structuredContent := Some [("todos", Arr [])];
                 md_widgetId := Some "widgets/todos" |}
              eq_refl eq_refl eq_refl eq_refl)
    as (shown & Hdata & Hcontent & _ & Hwidget & _).
  exists shown. auto.
Defined.

(** Text in two chunks around the chunks of a tool call. *)
Lemma streamed_text_witness :
  shows (devMessage Example.three_messages) "The sum is 3"
    (getData
       (deliver
          [(5, 5, emit_next (tool_call_chunk []));
           (6, 6, emit_next (content_chunk "The sum "));
           (7, 7, emit_next (tool_result_chunk "3"));
           (8, 8, emit_next (content_chunk "is 3"));
           (9, 9, emit_next (done_chunk None))]
          Example.waiting) "s1").
Proof.
  exact (page_shows_the_streamed_text
           {| pending_sessionId := "s1"; pending_messageId := "m3" |}
           (devMessage Example.three_messages) Example.waiting
           [(5, 5, emit_next (tool_call_chunk []));
            (6, 6, emit_next (content_chunk "The sum "));
            (7, 7, emit_next (tool_result_chunk "3"));
            (8, 8, emit_next (content_chunk "is 3"));
            (9, 9, emit_next (done_chunk None))]
           eq_refl eq_refl eq_refl).
Defined.

(** The answer to the third message, on the page and in the database. *)
Lemma stored_text_witness :
  exists chunks db' w' row,
    streamUserMessageById JSON.parse Example.registry Example.uuid
      Example.names_sessions Example.streams_four "u1" "m3"
      Example.three_messages 0 = (Return tt, chunks, db', w')
    /\ devMessage db' = devMessage Example.three_messages ++ [row]
    /\ row_content row = "4"
    /\ shows (devMessage Example.three_messages) "4"
         (getData
            (deliver (combine [(5, 5); (6, 6); (7, 7)] (map emit_next chunks))
               Example.waiting) "s1").
Proof.
  destruct (streamUserMessageById JSON.parse Example.registry Example.uuid
              Example.names_sessions Example.streams_four "u1" "m3"
              Example.three_messages 0) as [[[r chunks] db'] w'] eqn:Hrun.
  pose proof Hrun as Hrun0.
  vm_compute in Hrun0. injection Hrun0 as <- <- <- <-.
  destruct (page_shows_the_stored_text JSON.parse Example.registry
              Example.uuid Example.names_sessions Example.streams_four
              "u1" "m3" Example.three_messages 0 _ _ _
              {| pending_sessionId := "s1"; pending_messageId := "m3" |}
              (devMessage Example.three_messages) Example.waiting
              [(5, 5); (6, 6); (7, 7)] Hrun eq_refl eq_refl eq_refl eq_refl)
    as (row & Hmsgs & _ & Hshown & _).
  eexists _, _, _, row. split; [reflexivity|]. split; [exact Hmsgs|].
  vm_compute in Hmsgs. injection Hmsgs as <-.
  split; [reflexivity|exact Hshown].
Defined.

(** Two deletions by the first user. *)
Lemma deleteMessage_twice_witness :
  map row_id
    (devMessage
       (snd (deleteMessage "u1" ["m3"]
               (snd (deleteMessage "u1" ["m2"; "m9"] Example.two_users)))))
  = ["m1"; "m9"].
Proof.
  rewrite (proj1 (deleteMessage_twice "u1" ["m2"; "m9"] ["m3"]
                    Example.two_users ltac:(discriminate)
                    ltac:(discriminate))).
  reflexivity.
Defined.
